(** * Multiple-choice quiz runner (src/app.py): loader and session state machine

    A shallow embedding of the question-file loader, the per-question
    handlers (submit, show answer, next), the active-quiz part of [main]
    (draw of the next question, completion and one-shot recording) and the
    results store, followed by the properties proved about them.

    Modelling conventions.
    - A Python [str] is a [string] holding its UTF-8 encoding, one [ascii]
      per byte.  [str.strip] and [str.upper] work on the characters of the
      text, with the white space set and the case mapping of CPython 3.11
      (Unicode 14.0); the operations that look for ASCII characters only
      ([endswith], [split(':')], [in]) work on the bytes.
    - A Python [dict] with string keys is a [gmap string _], a [set] of
      integers a [gset nat]; [None] is [None].
    - [st.session_state] and the results file are explicit state; the
      messages sent to the page ([st.warning], [st.error], ...) are
      collected in a log; [random.choice] reads an explicit random number. *)

From Stdlib Require Import Ascii.
From stdpp Require Import gmap strings list fin_maps pretty.

(** ** Python string operations *)

Module PyStr.

(** *** The characters of a text *)

(** The bytes 0x80..0xBF continue a character; every other byte starts one. *)
Definition is_continuation (c : ascii) : bool :=
  let n := nat_of_ascii c in (128 <=? n) && (n <=? 191).

(** Whether [s] begins in the middle of a character; the encoding of a
    [str] never does. *)
Definition starts_inside (s : string) : bool :=
  match s with
  | EmptyString => false
  | String c _ => is_continuation c
  end.

(** The characters of [s] in order, each as its own encoding: a byte with
    the continuation bytes that follow it. *)
Fixpoint chars (s : string) : list string :=
  match s with
  | EmptyString => []
  | String c r =>
      if starts_inside r then
        match chars r with
        | g :: gs => String c g :: gs
        | [] => [String c EmptyString]
        end
      else String c EmptyString :: chars r
  end.

(** [''.join(l)] *)
Definition join (l : list string) : string := foldr String.append EmptyString l.

Definition of_bytes (l : list nat) : string :=
  foldr (λ n s, String (ascii_of_nat n) s) EmptyString l.

(** The white space characters of [str.strip()] and [str.isspace()]
    (Py_UNICODE_ISSPACE): U+0009..U+000D, U+001C..U+0020, U+0085, U+00A0,
    U+1680, U+2000..U+200A, U+2028, U+2029, U+202F, U+205F and U+3000. *)
Definition whitespace : list string :=
  of_bytes <$>
    [[9]; [10]; [11]; [12]; [13]; [28]; [29]; [30]; [31]; [32];
     [194; 133]; [194; 160];
     [225; 154; 128];
     [226; 128; 128]; [226; 128; 129]; [226; 128; 130]; [226; 128; 131];
     [226; 128; 132]; [226; 128; 133]; [226; 128; 134]; [226; 128; 135];
     [226; 128; 136]; [226; 128; 137]; [226; 128; 138];
     [226; 128; 168]; [226; 128; 169]; [226; 128; 175];
     [226; 129; 159];
     [227; 128; 128]].

(** [ch.isspace()] for one character. *)
Definition isspace (ch : string) : bool := bool_decide (ch ∈ whitespace).

(** The characters [str.upper()] changes, each with its image: the full
    upper case mapping of Unicode 14.0 (CPython 3.11), 1525 entries; an
    image can be longer than one character, and no entry depends on the
    neighbouring characters. *)
Definition upper_table : list (string * string) :=
  [
   ("a", "A"); ("b", "B"); ("c", "C"); ("d", "D"); ("e", "E"); ("f", "F");
   ("g", "G"); ("h", "H"); ("i", "I"); ("j", "J"); ("k", "K"); ("l", "L");
   ("m", "M"); ("n", "N"); ("o", "O"); ("p", "P"); ("q", "Q"); ("r", "R");
   ("s", "S"); ("t", "T"); ("u", "U"); ("v", "V"); ("w", "W"); ("x", "X");
   ("y", "Y"); ("z", "Z"); ("µ", "Μ"); ("ß", "SS"); ("à", "À"); ("á", "Á");
   ("â", "Â"); ("ã", "Ã"); ("ä", "Ä"); ("å", "Å"); ("æ", "Æ"); ("ç", "Ç");
   ("è", "È"); ("é", "É"); ("ê", "Ê"); ("ë", "Ë"); ("ì", "Ì"); ("í", "Í");
   ("î", "Î"); ("ï", "Ï"); ("ð", "Ð"); ("ñ", "Ñ"); ("ò", "Ò"); ("ó", "Ó");
   ("ô", "Ô"); ("õ", "Õ"); ("ö", "Ö"); ("ø", "Ø"); ("ù", "Ù"); ("ú", "Ú");
   ("û", "Û"); ("ü", "Ü"); ("ý", "Ý"); ("þ", "Þ"); ("ÿ", "Ÿ"); ("ā", "Ā");
   ("ă", "Ă"); ("ą", "Ą"); ("ć", "Ć"); ("ĉ", "Ĉ"); ("ċ", "Ċ"); ("č", "Č");
   ("ď", "Ď"); ("đ", "Đ"); ("ē", "Ē"); ("ĕ", "Ĕ"); ("ė", "Ė"); ("ę", "Ę");
   ("ě", "Ě"); ("ĝ", "Ĝ"); ("ğ", "Ğ"); ("ġ", "Ġ"); ("ģ", "Ģ"); ("ĥ", "Ĥ");
   ("ħ", "Ħ"); ("ĩ", "Ĩ"); ("ī", "Ī"); ("ĭ", "Ĭ"); ("į", "Į"); ("ı", "I");
   ("ĳ", "Ĳ"); ("ĵ", "Ĵ"); ("ķ", "Ķ"); ("ĺ", "Ĺ"); ("ļ", "Ļ"); ("ľ", "Ľ");
   ("ŀ", "Ŀ"); ("ł", "Ł"); ("ń", "Ń"); ("ņ", "Ņ"); ("ň", "Ň"); ("ŉ", "ʼN");
   ("ŋ", "Ŋ"); ("ō", "Ō"); ("ŏ", "Ŏ"); ("ő", "Ő"); ("œ", "Œ"); ("ŕ", "Ŕ");
   ("ŗ", "Ŗ"); ("ř", "Ř"); ("ś", "Ś"); ("ŝ", "Ŝ"); ("ş", "Ş"); ("š", "Š");
   ("ţ", "Ţ"); ("ť", "Ť"); ("ŧ", "Ŧ"); ("ũ", "Ũ"); ("ū", "Ū"); ("ŭ", "Ŭ");
   ("ů", "Ů"); ("ű", "Ű"); ("ų", "Ų"); ("ŵ", "Ŵ"); ("ŷ", "Ŷ"); ("ź", "Ź");
   ("ż", "Ż"); ("ž", "Ž"); ("ſ", "S"); ("ƀ", "Ƀ"); ("ƃ", "Ƃ"); ("ƅ", "Ƅ");
   ("ƈ", "Ƈ"); ("ƌ", "Ƌ"); ("ƒ", "Ƒ"); ("ƕ", "Ƕ"); ("ƙ", "Ƙ"); ("ƚ", "Ƚ");
   ("ƞ", "Ƞ"); ("ơ", "Ơ"); ("ƣ", "Ƣ"); ("ƥ", "Ƥ"); ("ƨ", "Ƨ"); ("ƭ", "Ƭ");
   ("ư", "Ư"); ("ƴ", "Ƴ"); ("ƶ", "Ƶ"); ("ƹ", "Ƹ"); ("ƽ", "Ƽ"); ("ƿ", "Ƿ");
   ("ǅ", "Ǆ"); ("ǆ", "Ǆ"); ("ǈ", "Ǉ"); ("ǉ", "Ǉ"); ("ǋ", "Ǌ"); ("ǌ", "Ǌ");
   ("ǎ", "Ǎ"); ("ǐ", "Ǐ"); ("ǒ", "Ǒ"); ("ǔ", "Ǔ"); ("ǖ", "Ǖ"); ("ǘ", "Ǘ");
   ("ǚ", "Ǚ"); ("ǜ", "Ǜ"); ("ǝ", "Ǝ"); ("ǟ", "Ǟ"); ("ǡ", "Ǡ"); ("ǣ", "Ǣ");
   ("ǥ", "Ǥ"); ("ǧ", "Ǧ"); ("ǩ", "Ǩ"); ("ǫ", "Ǫ"); ("ǭ", "Ǭ"); ("ǯ", "Ǯ");
   ("ǰ", "J̌"); ("ǲ", "Ǳ"); ("ǳ", "Ǳ"); ("ǵ", "Ǵ"); ("ǹ", "Ǹ"); ("ǻ", "Ǻ");
   ("ǽ", "Ǽ"); ("ǿ", "Ǿ"); ("ȁ", "Ȁ"); ("ȃ", "Ȃ"); ("ȅ", "Ȅ"); ("ȇ", "Ȇ");
   ("ȉ", "Ȉ"); ("ȋ", "Ȋ"); ("ȍ", "Ȍ"); ("ȏ", "Ȏ"); ("ȑ", "Ȑ"); ("ȓ", "Ȓ");
   ("ȕ", "Ȕ"); ("ȗ", "Ȗ"); ("ș", "Ș"); ("ț", "Ț"); ("ȝ", "Ȝ"); ("ȟ", "Ȟ");
   ("ȣ", "Ȣ"); ("ȥ", "Ȥ"); ("ȧ", "Ȧ"); ("ȩ", "Ȩ"); ("ȫ", "Ȫ"); ("ȭ", "Ȭ");
   ("ȯ", "Ȯ"); ("ȱ", "Ȱ"); ("ȳ", "Ȳ"); ("ȼ", "Ȼ"); ("ȿ", "Ȿ"); ("ɀ", "Ɀ");
   ("ɂ", "Ɂ"); ("ɇ", "Ɇ"); ("ɉ", "Ɉ"); ("ɋ", "Ɋ"); ("ɍ", "Ɍ"); ("ɏ", "Ɏ");
   ("ɐ", "Ɐ"); ("ɑ", "Ɑ"); ("ɒ", "Ɒ"); ("ɓ", "Ɓ"); ("ɔ", "Ɔ"); ("ɖ", "Ɖ");
   ("ɗ", "Ɗ"); ("ə", "Ə"); ("ɛ", "Ɛ"); ("ɜ", "Ɜ"); ("ɠ", "Ɠ"); ("ɡ", "Ɡ");
   ("ɣ", "Ɣ"); ("ɥ", "Ɥ"); ("ɦ", "Ɦ"); ("ɨ", "Ɨ"); ("ɩ", "Ɩ"); ("ɪ", "Ɪ");
   ("ɫ", "Ɫ"); ("ɬ", "Ɬ"); ("ɯ", "Ɯ"); ("ɱ", "Ɱ"); ("ɲ", "Ɲ"); ("ɵ", "Ɵ");
   ("ɽ", "Ɽ"); ("ʀ", "Ʀ"); ("ʂ", "Ʂ"); ("ʃ", "Ʃ"); ("ʇ", "Ʇ"); ("ʈ", "Ʈ");
   ("ʉ", "Ʉ"); ("ʊ", "Ʊ"); ("ʋ", "Ʋ"); ("ʌ", "Ʌ"); ("ʒ", "Ʒ"); ("ʝ", "Ʝ");
   ("ʞ", "Ʞ"); ("ͅ", "Ι"); ("ͱ", "Ͱ"); ("ͳ", "Ͳ"); ("ͷ", "Ͷ"); ("ͻ", "Ͻ");
   ("ͼ", "Ͼ"); ("ͽ", "Ͽ"); ("ΐ", "Ϊ́"); ("ά", "Ά"); ("έ", "Έ"); ("ή", "Ή");
   ("ί", "Ί"); ("ΰ", "Ϋ́"); ("α", "Α"); ("β", "Β"); ("γ", "Γ"); ("δ", "Δ");
   ("ε", "Ε"); ("ζ", "Ζ"); ("η", "Η"); ("θ", "Θ"); ("ι", "Ι"); ("κ", "Κ");
   ("λ", "Λ"); ("μ", "Μ"); ("ν", "Ν"); ("ξ", "Ξ"); ("ο", "Ο"); ("π", "Π");
   ("ρ", "Ρ"); ("ς", "Σ"); ("σ", "Σ"); ("τ", "Τ"); ("υ", "Υ"); ("φ", "Φ");
   ("χ", "Χ"); ("ψ", "Ψ"); ("ω", "Ω"); ("ϊ", "Ϊ"); ("ϋ", "Ϋ"); ("ό", "Ό");
   ("ύ", "Ύ"); ("ώ", "Ώ"); ("ϐ", "Β"); ("ϑ", "Θ"); ("ϕ", "Φ"); ("ϖ", "Π");
   ("ϗ", "Ϗ"); ("ϙ", "Ϙ"); ("ϛ", "Ϛ"); ("ϝ", "Ϝ"); ("ϟ", "Ϟ"); ("ϡ", "Ϡ");
   ("ϣ", "Ϣ"); ("ϥ", "Ϥ"); ("ϧ", "Ϧ"); ("ϩ", "Ϩ"); ("ϫ", "Ϫ"); ("ϭ", "Ϭ");
   ("ϯ", "Ϯ"); ("ϰ", "Κ"); ("ϱ", "Ρ"); ("ϲ", "Ϲ"); ("ϳ", "Ϳ"); ("ϵ", "Ε");
   ("ϸ", "Ϸ"); ("ϻ", "Ϻ"); ("а", "А"); ("б", "Б"); ("в", "В"); ("г", "Г");
   ("д", "Д"); ("е", "Е"); ("ж", "Ж"); ("з", "З"); ("и", "И"); ("й", "Й");
   ("к", "К"); ("л", "Л"); ("м", "М"); ("н", "Н"); ("о", "О"); ("п", "П");
   ("р", "Р"); ("с", "С"); ("т", "Т"); ("у", "У"); ("ф", "Ф"); ("х", "Х");
   ("ц", "Ц"); ("ч", "Ч"); ("ш", "Ш"); ("щ", "Щ"); ("ъ", "Ъ"); ("ы", "Ы");
   ("ь", "Ь"); ("э", "Э"); ("ю", "Ю"); ("я", "Я"); ("ѐ", "Ѐ"); ("ё", "Ё");
   ("ђ", "Ђ"); ("ѓ", "Ѓ"); ("є", "Є"); ("ѕ", "Ѕ"); ("і", "І"); ("ї", "Ї");
   ("ј", "Ј"); ("љ", "Љ"); ("њ", "Њ"); ("ћ", "Ћ"); ("ќ", "Ќ"); ("ѝ", "Ѝ");
   ("ў", "Ў"); ("џ", "Џ"); ("ѡ", "Ѡ"); ("ѣ", "Ѣ"); ("ѥ", "Ѥ"); ("ѧ", "Ѧ");
   ("ѩ", "Ѩ"); ("ѫ", "Ѫ"); ("ѭ", "Ѭ"); ("ѯ", "Ѯ"); ("ѱ", "Ѱ"); ("ѳ", "Ѳ");
   ("ѵ", "Ѵ"); ("ѷ", "Ѷ"); ("ѹ", "Ѹ"); ("ѻ", "Ѻ"); ("ѽ", "Ѽ"); ("ѿ", "Ѿ");
   ("ҁ", "Ҁ"); ("ҋ", "Ҋ"); ("ҍ", "Ҍ"); ("ҏ", "Ҏ"); ("ґ", "Ґ"); ("ғ", "Ғ");
   ("ҕ", "Ҕ"); ("җ", "Җ"); ("ҙ", "Ҙ"); ("қ", "Қ"); ("ҝ", "Ҝ"); ("ҟ", "Ҟ");
   ("ҡ", "Ҡ"); ("ң", "Ң"); ("ҥ", "Ҥ"); ("ҧ", "Ҧ"); ("ҩ", "Ҩ"); ("ҫ", "Ҫ");
   ("ҭ", "Ҭ"); ("ү", "Ү"); ("ұ", "Ұ"); ("ҳ", "Ҳ"); ("ҵ", "Ҵ"); ("ҷ", "Ҷ");
   ("ҹ", "Ҹ"); ("һ", "Һ"); ("ҽ", "Ҽ"); ("ҿ", "Ҿ"); ("ӂ", "Ӂ"); ("ӄ", "Ӄ");
   ("ӆ", "Ӆ"); ("ӈ", "Ӈ"); ("ӊ", "Ӊ"); ("ӌ", "Ӌ"); ("ӎ", "Ӎ"); ("ӏ", "Ӏ");
   ("ӑ", "Ӑ"); ("ӓ", "Ӓ"); ("ӕ", "Ӕ"); ("ӗ", "Ӗ"); ("ә", "Ә"); ("ӛ", "Ӛ");
   ("ӝ", "Ӝ"); ("ӟ", "Ӟ"); ("ӡ", "Ӡ"); ("ӣ", "Ӣ"); ("ӥ", "Ӥ"); ("ӧ", "Ӧ");
   ("ө", "Ө"); ("ӫ", "Ӫ"); ("ӭ", "Ӭ"); ("ӯ", "Ӯ"); ("ӱ", "Ӱ"); ("ӳ", "Ӳ");
   ("ӵ", "Ӵ"); ("ӷ", "Ӷ"); ("ӹ", "Ӹ"); ("ӻ", "Ӻ"); ("ӽ", "Ӽ"); ("ӿ", "Ӿ");
   ("ԁ", "Ԁ"); ("ԃ", "Ԃ"); ("ԅ", "Ԅ"); ("ԇ", "Ԇ"); ("ԉ", "Ԉ"); ("ԋ", "Ԋ");
   ("ԍ", "Ԍ"); ("ԏ", "Ԏ"); ("ԑ", "Ԑ"); ("ԓ", "Ԓ"); ("ԕ", "Ԕ"); ("ԗ", "Ԗ");
   ("ԙ", "Ԙ"); ("ԛ", "Ԛ"); ("ԝ", "Ԝ"); ("ԟ", "Ԟ"); ("ԡ", "Ԡ"); ("ԣ", "Ԣ");
   ("ԥ", "Ԥ"); ("ԧ", "Ԧ"); ("ԩ", "Ԩ"); ("ԫ", "Ԫ"); ("ԭ", "Ԭ"); ("ԯ", "Ԯ");
   ("ա", "Ա"); ("բ", "Բ"); ("գ", "Գ"); ("դ", "Դ"); ("ե", "Ե"); ("զ", "Զ");
   ("է", "Է"); ("ը", "Ը"); ("թ", "Թ"); ("ժ", "Ժ"); ("ի", "Ի"); ("լ", "Լ");
   ("խ", "Խ"); ("ծ", "Ծ"); ("կ", "Կ"); ("հ", "Հ"); ("ձ", "Ձ"); ("ղ", "Ղ");
   ("ճ", "Ճ"); ("մ", "Մ"); ("յ", "Յ"); ("ն", "Ն"); ("շ", "Շ"); ("ո", "Ո");
   ("չ", "Չ"); ("պ", "Պ"); ("ջ", "Ջ"); ("ռ", "Ռ"); ("ս", "Ս"); ("վ", "Վ");
   ("տ", "Տ"); ("ր", "Ր"); ("ց", "Ց"); ("ւ", "Ւ"); ("փ", "Փ"); ("ք", "Ք");
   ("օ", "Օ"); ("ֆ", "Ֆ"); ("և", "ԵՒ"); ("ა", "Ა"); ("ბ", "Ბ"); ("გ", "Გ");
   ("დ", "Დ"); ("ე", "Ე"); ("ვ", "Ვ"); ("ზ", "Ზ"); ("თ", "Თ"); ("ი", "Ი");
   ("კ", "Კ"); ("ლ", "Ლ"); ("მ", "Მ"); ("ნ", "Ნ"); ("ო", "Ო"); ("პ", "Პ");
   ("ჟ", "Ჟ"); ("რ", "Რ"); ("ს", "Ს"); ("ტ", "Ტ"); ("უ", "Უ"); ("ფ", "Ფ");
   ("ქ", "Ქ"); ("ღ", "Ღ"); ("ყ", "Ყ"); ("შ", "Შ"); ("ჩ", "Ჩ"); ("ც", "Ც");
   ("ძ", "Ძ"); ("წ", "Წ"); ("ჭ", "Ჭ"); ("ხ", "Ხ"); ("ჯ", "Ჯ"); ("ჰ", "Ჰ");
   ("ჱ", "Ჱ"); ("ჲ", "Ჲ"); ("ჳ", "Ჳ"); ("ჴ", "Ჴ"); ("ჵ", "Ჵ"); ("ჶ", "Ჶ");
   ("ჷ", "Ჷ"); ("ჸ", "Ჸ"); ("ჹ", "Ჹ"); ("ჺ", "Ჺ"); ("ჽ", "Ჽ"); ("ჾ", "Ჾ");
   ("ჿ", "Ჿ"); ("ᏸ", "Ᏸ"); ("ᏹ", "Ᏹ"); ("ᏺ", "Ᏺ"); ("ᏻ", "Ᏻ"); ("ᏼ", "Ᏼ");
   ("ᏽ", "Ᏽ"); ("ᲀ", "В"); ("ᲁ", "Д"); ("ᲂ", "О"); ("ᲃ", "С"); ("ᲄ", "Т");
   ("ᲅ", "Т"); ("ᲆ", "Ъ"); ("ᲇ", "Ѣ"); ("ᲈ", "Ꙋ"); ("ᵹ", "Ᵹ"); ("ᵽ", "Ᵽ");
   ("ᶎ", "Ᶎ"); ("ḁ", "Ḁ"); ("ḃ", "Ḃ"); ("ḅ", "Ḅ"); ("ḇ", "Ḇ"); ("ḉ", "Ḉ");
   ("ḋ", "Ḋ"); ("ḍ", "Ḍ"); ("ḏ", "Ḏ"); ("ḑ", "Ḑ"); ("ḓ", "Ḓ"); ("ḕ", "Ḕ");
   ("ḗ", "Ḗ"); ("ḙ", "Ḙ"); ("ḛ", "Ḛ"); ("ḝ", "Ḝ"); ("ḟ", "Ḟ"); ("ḡ", "Ḡ");
   ("ḣ", "Ḣ"); ("ḥ", "Ḥ"); ("ḧ", "Ḧ"); ("ḩ", "Ḩ"); ("ḫ", "Ḫ"); ("ḭ", "Ḭ");
   ("ḯ", "Ḯ"); ("ḱ", "Ḱ"); ("ḳ", "Ḳ"); ("ḵ", "Ḵ"); ("ḷ", "Ḷ"); ("ḹ", "Ḹ");
   ("ḻ", "Ḻ"); ("ḽ", "Ḽ"); ("ḿ", "Ḿ"); ("ṁ", "Ṁ"); ("ṃ", "Ṃ"); ("ṅ", "Ṅ");
   ("ṇ", "Ṇ"); ("ṉ", "Ṉ"); ("ṋ", "Ṋ"); ("ṍ", "Ṍ"); ("ṏ", "Ṏ"); ("ṑ", "Ṑ");
   ("ṓ", "Ṓ"); ("ṕ", "Ṕ"); ("ṗ", "Ṗ"); ("ṙ", "Ṙ"); ("ṛ", "Ṛ"); ("ṝ", "Ṝ");
   ("ṟ", "Ṟ"); ("ṡ", "Ṡ"); ("ṣ", "Ṣ"); ("ṥ", "Ṥ"); ("ṧ", "Ṧ"); ("ṩ", "Ṩ");
   ("ṫ", "Ṫ"); ("ṭ", "Ṭ"); ("ṯ", "Ṯ"); ("ṱ", "Ṱ"); ("ṳ", "Ṳ"); ("ṵ", "Ṵ");
   ("ṷ", "Ṷ"); ("ṹ", "Ṹ"); ("ṻ", "Ṻ"); ("ṽ", "Ṽ"); ("ṿ", "Ṿ"); ("ẁ", "Ẁ");
   ("ẃ", "Ẃ"); ("ẅ", "Ẅ"); ("ẇ", "Ẇ"); ("ẉ", "Ẉ"); ("ẋ", "Ẋ"); ("ẍ", "Ẍ");
   ("ẏ", "Ẏ"); ("ẑ", "Ẑ"); ("ẓ", "Ẓ"); ("ẕ", "Ẕ"); ("ẖ", "H̱"); ("ẗ", "T̈");
   ("ẘ", "W̊"); ("ẙ", "Y̊"); ("ẚ", "Aʾ"); ("ẛ", "Ṡ"); ("ạ", "Ạ"); ("ả", "Ả");
   ("ấ", "Ấ"); ("ầ", "Ầ"); ("ẩ", "Ẩ"); ("ẫ", "Ẫ"); ("ậ", "Ậ"); ("ắ", "Ắ");
   ("ằ", "Ằ"); ("ẳ", "Ẳ"); ("ẵ", "Ẵ"); ("ặ", "Ặ"); ("ẹ", "Ẹ"); ("ẻ", "Ẻ");
   ("ẽ", "Ẽ"); ("ế", "Ế"); ("ề", "Ề"); ("ể", "Ể"); ("ễ", "Ễ"); ("ệ", "Ệ");
   ("ỉ", "Ỉ"); ("ị", "Ị"); ("ọ", "Ọ"); ("ỏ", "Ỏ"); ("ố", "Ố"); ("ồ", "Ồ");
   ("ổ", "Ổ"); ("ỗ", "Ỗ"); ("ộ", "Ộ"); ("ớ", "Ớ"); ("ờ", "Ờ"); ("ở", "Ở");
   ("ỡ", "Ỡ"); ("ợ", "Ợ"); ("ụ", "Ụ"); ("ủ", "Ủ"); ("ứ", "Ứ"); ("ừ", "Ừ");
   ("ử", "Ử"); ("ữ", "Ữ"); ("ự", "Ự"); ("ỳ", "Ỳ"); ("ỵ", "Ỵ"); ("ỷ", "Ỷ");
   ("ỹ", "Ỹ"); ("ỻ", "Ỻ"); ("ỽ", "Ỽ"); ("ỿ", "Ỿ"); ("ἀ", "Ἀ"); ("ἁ", "Ἁ");
   ("ἂ", "Ἂ"); ("ἃ", "Ἃ"); ("ἄ", "Ἄ"); ("ἅ", "Ἅ"); ("ἆ", "Ἆ"); ("ἇ", "Ἇ");
   ("ἐ", "Ἐ"); ("ἑ", "Ἑ"); ("ἒ", "Ἒ"); ("ἓ", "Ἓ"); ("ἔ", "Ἔ"); ("ἕ", "Ἕ");
   ("ἠ", "Ἠ"); ("ἡ", "Ἡ"); ("ἢ", "Ἢ"); ("ἣ", "Ἣ"); ("ἤ", "Ἤ"); ("ἥ", "Ἥ");
   ("ἦ", "Ἦ"); ("ἧ", "Ἧ"); ("ἰ", "Ἰ"); ("ἱ", "Ἱ"); ("ἲ", "Ἲ"); ("ἳ", "Ἳ");
   ("ἴ", "Ἴ"); ("ἵ", "Ἵ"); ("ἶ", "Ἶ"); ("ἷ", "Ἷ"); ("ὀ", "Ὀ"); ("ὁ", "Ὁ");
   ("ὂ", "Ὂ"); ("ὃ", "Ὃ"); ("ὄ", "Ὄ"); ("ὅ", "Ὅ"); ("ὐ", "Υ̓"); ("ὑ", "Ὑ");
   ("ὒ", "Υ̓̀"); ("ὓ", "Ὓ"); ("ὔ", "Υ̓́"); ("ὕ", "Ὕ"); ("ὖ", "Υ̓͂"); ("ὗ", "Ὗ");
   ("ὠ", "Ὠ"); ("ὡ", "Ὡ"); ("ὢ", "Ὢ"); ("ὣ", "Ὣ"); ("ὤ", "Ὤ"); ("ὥ", "Ὥ");
   ("ὦ", "Ὦ"); ("ὧ", "Ὧ"); ("ὰ", "Ὰ"); ("ά", "Ά"); ("ὲ", "Ὲ"); ("έ", "Έ");
   ("ὴ", "Ὴ"); ("ή", "Ή"); ("ὶ", "Ὶ"); ("ί", "Ί"); ("ὸ", "Ὸ"); ("ό", "Ό");
   ("ὺ", "Ὺ"); ("ύ", "Ύ"); ("ὼ", "Ὼ"); ("ώ", "Ώ"); ("ᾀ", "ἈΙ"); ("ᾁ", "ἉΙ");
   ("ᾂ", "ἊΙ"); ("ᾃ", "ἋΙ"); ("ᾄ", "ἌΙ"); ("ᾅ", "ἍΙ"); ("ᾆ", "ἎΙ"); ("ᾇ", "ἏΙ");
   ("ᾈ", "ἈΙ"); ("ᾉ", "ἉΙ"); ("ᾊ", "ἊΙ"); ("ᾋ", "ἋΙ"); ("ᾌ", "ἌΙ"); ("ᾍ", "ἍΙ");
   ("ᾎ", "ἎΙ"); ("ᾏ", "ἏΙ"); ("ᾐ", "ἨΙ"); ("ᾑ", "ἩΙ"); ("ᾒ", "ἪΙ"); ("ᾓ", "ἫΙ");
   ("ᾔ", "ἬΙ"); ("ᾕ", "ἭΙ"); ("ᾖ", "ἮΙ"); ("ᾗ", "ἯΙ"); ("ᾘ", "ἨΙ"); ("ᾙ", "ἩΙ");
   ("ᾚ", "ἪΙ"); ("ᾛ", "ἫΙ"); ("ᾜ", "ἬΙ"); ("ᾝ", "ἭΙ"); ("ᾞ", "ἮΙ"); ("ᾟ", "ἯΙ");
   ("ᾠ", "ὨΙ"); ("ᾡ", "ὩΙ"); ("ᾢ", "ὪΙ"); ("ᾣ", "ὫΙ"); ("ᾤ", "ὬΙ"); ("ᾥ", "ὭΙ");
   ("ᾦ", "ὮΙ"); ("ᾧ", "ὯΙ"); ("ᾨ", "ὨΙ"); ("ᾩ", "ὩΙ"); ("ᾪ", "ὪΙ"); ("ᾫ", "ὫΙ");
   ("ᾬ", "ὬΙ"); ("ᾭ", "ὭΙ"); ("ᾮ", "ὮΙ"); ("ᾯ", "ὯΙ"); ("ᾰ", "Ᾰ"); ("ᾱ", "Ᾱ");
   ("ᾲ", "ᾺΙ"); ("ᾳ", "ΑΙ"); ("ᾴ", "ΆΙ"); ("ᾶ", "Α͂"); ("ᾷ", "Α͂Ι"); ("ᾼ", "ΑΙ");
   ("ι", "Ι"); ("ῂ", "ῊΙ"); ("ῃ", "ΗΙ"); ("ῄ", "ΉΙ"); ("ῆ", "Η͂"); ("ῇ", "Η͂Ι");
   ("ῌ", "ΗΙ"); ("ῐ", "Ῐ"); ("ῑ", "Ῑ"); ("ῒ", "Ϊ̀"); ("ΐ", "Ϊ́"); ("ῖ", "Ι͂");
   ("ῗ", "Ϊ͂"); ("ῠ", "Ῠ"); ("ῡ", "Ῡ"); ("ῢ", "Ϋ̀"); ("ΰ", "Ϋ́"); ("ῤ", "Ρ̓");
   ("ῥ", "Ῥ"); ("ῦ", "Υ͂"); ("ῧ", "Ϋ͂"); ("ῲ", "ῺΙ"); ("ῳ", "ΩΙ"); ("ῴ", "ΏΙ");
   ("ῶ", "Ω͂"); ("ῷ", "Ω͂Ι"); ("ῼ", "ΩΙ"); ("ⅎ", "Ⅎ"); ("ⅰ", "Ⅰ"); ("ⅱ", "Ⅱ");
   ("ⅲ", "Ⅲ"); ("ⅳ", "Ⅳ"); ("ⅴ", "Ⅴ"); ("ⅵ", "Ⅵ"); ("ⅶ", "Ⅶ"); ("ⅷ", "Ⅷ");
   ("ⅸ", "Ⅸ"); ("ⅹ", "Ⅹ"); ("ⅺ", "Ⅺ"); ("ⅻ", "Ⅻ"); ("ⅼ", "Ⅼ"); ("ⅽ", "Ⅽ");
   ("ⅾ", "Ⅾ"); ("ⅿ", "Ⅿ"); ("ↄ", "Ↄ"); ("ⓐ", "Ⓐ"); ("ⓑ", "Ⓑ"); ("ⓒ", "Ⓒ");
   ("ⓓ", "Ⓓ"); ("ⓔ", "Ⓔ"); ("ⓕ", "Ⓕ"); ("ⓖ", "Ⓖ"); ("ⓗ", "Ⓗ"); ("ⓘ", "Ⓘ");
   ("ⓙ", "Ⓙ"); ("ⓚ", "Ⓚ"); ("ⓛ", "Ⓛ"); ("ⓜ", "Ⓜ"); ("ⓝ", "Ⓝ"); ("ⓞ", "Ⓞ");
   ("ⓟ", "Ⓟ"); ("ⓠ", "Ⓠ"); ("ⓡ", "Ⓡ"); ("ⓢ", "Ⓢ"); ("ⓣ", "Ⓣ"); ("ⓤ", "Ⓤ");
   ("ⓥ", "Ⓥ"); ("ⓦ", "Ⓦ"); ("ⓧ", "Ⓧ"); ("ⓨ", "Ⓨ"); ("ⓩ", "Ⓩ"); ("ⰰ", "Ⰰ");
   ("ⰱ", "Ⰱ"); ("ⰲ", "Ⰲ"); ("ⰳ", "Ⰳ"); ("ⰴ", "Ⰴ"); ("ⰵ", "Ⰵ"); ("ⰶ", "Ⰶ");
   ("ⰷ", "Ⰷ"); ("ⰸ", "Ⰸ"); ("ⰹ", "Ⰹ"); ("ⰺ", "Ⰺ"); ("ⰻ", "Ⰻ"); ("ⰼ", "Ⰼ");
   ("ⰽ", "Ⰽ"); ("ⰾ", "Ⰾ"); ("ⰿ", "Ⰿ"); ("ⱀ", "Ⱀ"); ("ⱁ", "Ⱁ"); ("ⱂ", "Ⱂ");
   ("ⱃ", "Ⱃ"); ("ⱄ", "Ⱄ"); ("ⱅ", "Ⱅ"); ("ⱆ", "Ⱆ"); ("ⱇ", "Ⱇ"); ("ⱈ", "Ⱈ");
   ("ⱉ", "Ⱉ"); ("ⱊ", "Ⱊ"); ("ⱋ", "Ⱋ"); ("ⱌ", "Ⱌ"); ("ⱍ", "Ⱍ"); ("ⱎ", "Ⱎ");
   ("ⱏ", "Ⱏ"); ("ⱐ", "Ⱐ"); ("ⱑ", "Ⱑ"); ("ⱒ", "Ⱒ"); ("ⱓ", "Ⱓ"); ("ⱔ", "Ⱔ");
   ("ⱕ", "Ⱕ"); ("ⱖ", "Ⱖ"); ("ⱗ", "Ⱗ"); ("ⱘ", "Ⱘ"); ("ⱙ", "Ⱙ"); ("ⱚ", "Ⱚ");
   ("ⱛ", "Ⱛ"); ("ⱜ", "Ⱜ"); ("ⱝ", "Ⱝ"); ("ⱞ", "Ⱞ"); ("ⱟ", "Ⱟ"); ("ⱡ", "Ⱡ");
   ("ⱥ", "Ⱥ"); ("ⱦ", "Ⱦ"); ("ⱨ", "Ⱨ"); ("ⱪ", "Ⱪ"); ("ⱬ", "Ⱬ"); ("ⱳ", "Ⱳ");
   ("ⱶ", "Ⱶ"); ("ⲁ", "Ⲁ"); ("ⲃ", "Ⲃ"); ("ⲅ", "Ⲅ"); ("ⲇ", "Ⲇ"); ("ⲉ", "Ⲉ");
   ("ⲋ", "Ⲋ"); ("ⲍ", "Ⲍ"); ("ⲏ", "Ⲏ"); ("ⲑ", "Ⲑ"); ("ⲓ", "Ⲓ"); ("ⲕ", "Ⲕ");
   ("ⲗ", "Ⲗ"); ("ⲙ", "Ⲙ"); ("ⲛ", "Ⲛ"); ("ⲝ", "Ⲝ"); ("ⲟ", "Ⲟ"); ("ⲡ", "Ⲡ");
   ("ⲣ", "Ⲣ"); ("ⲥ", "Ⲥ"); ("ⲧ", "Ⲧ"); ("ⲩ", "Ⲩ"); ("ⲫ", "Ⲫ"); ("ⲭ", "Ⲭ");
   ("ⲯ", "Ⲯ"); ("ⲱ", "Ⲱ"); ("ⲳ", "Ⲳ"); ("ⲵ", "Ⲵ"); ("ⲷ", "Ⲷ"); ("ⲹ", "Ⲹ");
   ("ⲻ", "Ⲻ"); ("ⲽ", "Ⲽ"); ("ⲿ", "Ⲿ"); ("ⳁ", "Ⳁ"); ("ⳃ", "Ⳃ"); ("ⳅ", "Ⳅ");
   ("ⳇ", "Ⳇ"); ("ⳉ", "Ⳉ"); ("ⳋ", "Ⳋ"); ("ⳍ", "Ⳍ"); ("ⳏ", "Ⳏ"); ("ⳑ", "Ⳑ");
   ("ⳓ", "Ⳓ"); ("ⳕ", "Ⳕ"); ("ⳗ", "Ⳗ"); ("ⳙ", "Ⳙ"); ("ⳛ", "Ⳛ"); ("ⳝ", "Ⳝ");
   ("ⳟ", "Ⳟ"); ("ⳡ", "Ⳡ"); ("ⳣ", "Ⳣ"); ("ⳬ", "Ⳬ"); ("ⳮ", "Ⳮ"); ("ⳳ", "Ⳳ");
   ("ⴀ", "Ⴀ"); ("ⴁ", "Ⴁ"); ("ⴂ", "Ⴂ"); ("ⴃ", "Ⴃ"); ("ⴄ", "Ⴄ"); ("ⴅ", "Ⴅ");
   ("ⴆ", "Ⴆ"); ("ⴇ", "Ⴇ"); ("ⴈ", "Ⴈ"); ("ⴉ", "Ⴉ"); ("ⴊ", "Ⴊ"); ("ⴋ", "Ⴋ");
   ("ⴌ", "Ⴌ"); ("ⴍ", "Ⴍ"); ("ⴎ", "Ⴎ"); ("ⴏ", "Ⴏ"); ("ⴐ", "Ⴐ"); ("ⴑ", "Ⴑ");
   ("ⴒ", "Ⴒ"); ("ⴓ", "Ⴓ"); ("ⴔ", "Ⴔ"); ("ⴕ", "Ⴕ"); ("ⴖ", "Ⴖ"); ("ⴗ", "Ⴗ");
   ("ⴘ", "Ⴘ"); ("ⴙ", "Ⴙ"); ("ⴚ", "Ⴚ"); ("ⴛ", "Ⴛ"); ("ⴜ", "Ⴜ"); ("ⴝ", "Ⴝ");
   ("ⴞ", "Ⴞ"); ("ⴟ", "Ⴟ"); ("ⴠ", "Ⴠ"); ("ⴡ", "Ⴡ"); ("ⴢ", "Ⴢ"); ("ⴣ", "Ⴣ");
   ("ⴤ", "Ⴤ"); ("ⴥ", "Ⴥ"); ("ⴧ", "Ⴧ"); ("ⴭ", "Ⴭ"); ("ꙁ", "Ꙁ"); ("ꙃ", "Ꙃ");
   ("ꙅ", "Ꙅ"); ("ꙇ", "Ꙇ"); ("ꙉ", "Ꙉ"); ("ꙋ", "Ꙋ"); ("ꙍ", "Ꙍ"); ("ꙏ", "Ꙏ");
   ("ꙑ", "Ꙑ"); ("ꙓ", "Ꙓ"); ("ꙕ", "Ꙕ"); ("ꙗ", "Ꙗ"); ("ꙙ", "Ꙙ"); ("ꙛ", "Ꙛ");
   ("ꙝ", "Ꙝ"); ("ꙟ", "Ꙟ"); ("ꙡ", "Ꙡ"); ("ꙣ", "Ꙣ"); ("ꙥ", "Ꙥ"); ("ꙧ", "Ꙧ");
   ("ꙩ", "Ꙩ"); ("ꙫ", "Ꙫ"); ("ꙭ", "Ꙭ"); ("ꚁ", "Ꚁ"); ("ꚃ", "Ꚃ"); ("ꚅ", "Ꚅ");
   ("ꚇ", "Ꚇ"); ("ꚉ", "Ꚉ"); ("ꚋ", "Ꚋ"); ("ꚍ", "Ꚍ"); ("ꚏ", "Ꚏ"); ("ꚑ", "Ꚑ");
   ("ꚓ", "Ꚓ"); ("ꚕ", "Ꚕ"); ("ꚗ", "Ꚗ"); ("ꚙ", "Ꚙ"); ("ꚛ", "Ꚛ"); ("ꜣ", "Ꜣ");
   ("ꜥ", "Ꜥ"); ("ꜧ", "Ꜧ"); ("ꜩ", "Ꜩ"); ("ꜫ", "Ꜫ"); ("ꜭ", "Ꜭ"); ("ꜯ", "Ꜯ");
   ("ꜳ", "Ꜳ"); ("ꜵ", "Ꜵ"); ("ꜷ", "Ꜷ"); ("ꜹ", "Ꜹ"); ("ꜻ", "Ꜻ"); ("ꜽ", "Ꜽ");
   ("ꜿ", "Ꜿ"); ("ꝁ", "Ꝁ"); ("ꝃ", "Ꝃ"); ("ꝅ", "Ꝅ"); ("ꝇ", "Ꝇ"); ("ꝉ", "Ꝉ");
   ("ꝋ", "Ꝋ"); ("ꝍ", "Ꝍ"); ("ꝏ", "Ꝏ"); ("ꝑ", "Ꝑ"); ("ꝓ", "Ꝓ"); ("ꝕ", "Ꝕ");
   ("ꝗ", "Ꝗ"); ("ꝙ", "Ꝙ"); ("ꝛ", "Ꝛ"); ("ꝝ", "Ꝝ"); ("ꝟ", "Ꝟ"); ("ꝡ", "Ꝡ");
   ("ꝣ", "Ꝣ"); ("ꝥ", "Ꝥ"); ("ꝧ", "Ꝧ"); ("ꝩ", "Ꝩ"); ("ꝫ", "Ꝫ"); ("ꝭ", "Ꝭ");
   ("ꝯ", "Ꝯ"); ("ꝺ", "Ꝺ"); ("ꝼ", "Ꝼ"); ("ꝿ", "Ꝿ"); ("ꞁ", "Ꞁ"); ("ꞃ", "Ꞃ");
   ("ꞅ", "Ꞅ"); ("ꞇ", "Ꞇ"); ("ꞌ", "Ꞌ"); ("ꞑ", "Ꞑ"); ("ꞓ", "Ꞓ"); ("ꞔ", "Ꞔ");
   ("ꞗ", "Ꞗ"); ("ꞙ", "Ꞙ"); ("ꞛ", "Ꞛ"); ("ꞝ", "Ꞝ"); ("ꞟ", "Ꞟ"); ("ꞡ", "Ꞡ");
   ("ꞣ", "Ꞣ"); ("ꞥ", "Ꞥ"); ("ꞧ", "Ꞧ"); ("ꞩ", "Ꞩ"); ("ꞵ", "Ꞵ"); ("ꞷ", "Ꞷ");
   ("ꞹ", "Ꞹ"); ("ꞻ", "Ꞻ"); ("ꞽ", "Ꞽ"); ("ꞿ", "Ꞿ"); ("ꟁ", "Ꟁ"); ("ꟃ", "Ꟃ");
   ("ꟈ", "Ꟈ"); ("ꟊ", "Ꟊ"); ("ꟑ", "Ꟑ"); ("ꟗ", "Ꟗ"); ("ꟙ", "Ꟙ"); ("ꟶ", "Ꟶ");
   ("ꭓ", "Ꭓ"); ("ꭰ", "Ꭰ"); ("ꭱ", "Ꭱ"); ("ꭲ", "Ꭲ"); ("ꭳ", "Ꭳ"); ("ꭴ", "Ꭴ");
   ("ꭵ", "Ꭵ"); ("ꭶ", "Ꭶ"); ("ꭷ", "Ꭷ"); ("ꭸ", "Ꭸ"); ("ꭹ", "Ꭹ"); ("ꭺ", "Ꭺ");
   ("ꭻ", "Ꭻ"); ("ꭼ", "Ꭼ"); ("ꭽ", "Ꭽ"); ("ꭾ", "Ꭾ"); ("ꭿ", "Ꭿ"); ("ꮀ", "Ꮀ");
   ("ꮁ", "Ꮁ"); ("ꮂ", "Ꮂ"); ("ꮃ", "Ꮃ"); ("ꮄ", "Ꮄ"); ("ꮅ", "Ꮅ"); ("ꮆ", "Ꮆ");
   ("ꮇ", "Ꮇ"); ("ꮈ", "Ꮈ"); ("ꮉ", "Ꮉ"); ("ꮊ", "Ꮊ"); ("ꮋ", "Ꮋ"); ("ꮌ", "Ꮌ");
   ("ꮍ", "Ꮍ"); ("ꮎ", "Ꮎ"); ("ꮏ", "Ꮏ"); ("ꮐ", "Ꮐ"); ("ꮑ", "Ꮑ"); ("ꮒ", "Ꮒ");
   ("ꮓ", "Ꮓ"); ("ꮔ", "Ꮔ"); ("ꮕ", "Ꮕ"); ("ꮖ", "Ꮖ"); ("ꮗ", "Ꮗ"); ("ꮘ", "Ꮘ");
   ("ꮙ", "Ꮙ"); ("ꮚ", "Ꮚ"); ("ꮛ", "Ꮛ"); ("ꮜ", "Ꮜ"); ("ꮝ", "Ꮝ"); ("ꮞ", "Ꮞ");
   ("ꮟ", "Ꮟ"); ("ꮠ", "Ꮠ"); ("ꮡ", "Ꮡ"); ("ꮢ", "Ꮢ"); ("ꮣ", "Ꮣ"); ("ꮤ", "Ꮤ");
   ("ꮥ", "Ꮥ"); ("ꮦ", "Ꮦ"); ("ꮧ", "Ꮧ"); ("ꮨ", "Ꮨ"); ("ꮩ", "Ꮩ"); ("ꮪ", "Ꮪ");
   ("ꮫ", "Ꮫ"); ("ꮬ", "Ꮬ"); ("ꮭ", "Ꮭ"); ("ꮮ", "Ꮮ"); ("ꮯ", "Ꮯ"); ("ꮰ", "Ꮰ");
   ("ꮱ", "Ꮱ"); ("ꮲ", "Ꮲ"); ("ꮳ", "Ꮳ"); ("ꮴ", "Ꮴ"); ("ꮵ", "Ꮵ"); ("ꮶ", "Ꮶ");
   ("ꮷ", "Ꮷ"); ("ꮸ", "Ꮸ"); ("ꮹ", "Ꮹ"); ("ꮺ", "Ꮺ"); ("ꮻ", "Ꮻ"); ("ꮼ", "Ꮼ");
   ("ꮽ", "Ꮽ"); ("ꮾ", "Ꮾ"); ("ꮿ", "Ꮿ"); ("ﬀ", "FF"); ("ﬁ", "FI"); ("ﬂ", "FL");
   ("ﬃ", "FFI"); ("ﬄ", "FFL"); ("ﬅ", "ST"); ("ﬆ", "ST"); ("ﬓ", "ՄՆ"); ("ﬔ", "ՄԵ");
   ("ﬕ", "ՄԻ"); ("ﬖ", "ՎՆ"); ("ﬗ", "ՄԽ"); ("ａ", "Ａ"); ("ｂ", "Ｂ"); ("ｃ", "Ｃ");
   ("ｄ", "Ｄ"); ("ｅ", "Ｅ"); ("ｆ", "Ｆ"); ("ｇ", "Ｇ"); ("ｈ", "Ｈ"); ("ｉ", "Ｉ");
   ("ｊ", "Ｊ"); ("ｋ", "Ｋ"); ("ｌ", "Ｌ"); ("ｍ", "Ｍ"); ("ｎ", "Ｎ"); ("ｏ", "Ｏ");
   ("ｐ", "Ｐ"); ("ｑ", "Ｑ"); ("ｒ", "Ｒ"); ("ｓ", "Ｓ"); ("ｔ", "Ｔ"); ("ｕ", "Ｕ");
   ("ｖ", "Ｖ"); ("ｗ", "Ｗ"); ("ｘ", "Ｘ"); ("ｙ", "Ｙ"); ("ｚ", "Ｚ"); ("𐐨", "𐐀");
   ("𐐩", "𐐁"); ("𐐪", "𐐂"); ("𐐫", "𐐃"); ("𐐬", "𐐄"); ("𐐭", "𐐅"); ("𐐮", "𐐆");
   ("𐐯", "𐐇"); ("𐐰", "𐐈"); ("𐐱", "𐐉"); ("𐐲", "𐐊"); ("𐐳", "𐐋"); ("𐐴", "𐐌");
   ("𐐵", "𐐍"); ("𐐶", "𐐎"); ("𐐷", "𐐏"); ("𐐸", "𐐐"); ("𐐹", "𐐑"); ("𐐺", "𐐒");
   ("𐐻", "𐐓"); ("𐐼", "𐐔"); ("𐐽", "𐐕"); ("𐐾", "𐐖"); ("𐐿", "𐐗"); ("𐑀", "𐐘");
   ("𐑁", "𐐙"); ("𐑂", "𐐚"); ("𐑃", "𐐛"); ("𐑄", "𐐜"); ("𐑅", "𐐝"); ("𐑆", "𐐞");
   ("𐑇", "𐐟"); ("𐑈", "𐐠"); ("𐑉", "𐐡"); ("𐑊", "𐐢"); ("𐑋", "𐐣"); ("𐑌", "𐐤");
   ("𐑍", "𐐥"); ("𐑎", "𐐦"); ("𐑏", "𐐧"); ("𐓘", "𐒰"); ("𐓙", "𐒱"); ("𐓚", "𐒲");
   ("𐓛", "𐒳"); ("𐓜", "𐒴"); ("𐓝", "𐒵"); ("𐓞", "𐒶"); ("𐓟", "𐒷"); ("𐓠", "𐒸");
   ("𐓡", "𐒹"); ("𐓢", "𐒺"); ("𐓣", "𐒻"); ("𐓤", "𐒼"); ("𐓥", "𐒽"); ("𐓦", "𐒾");
   ("𐓧", "𐒿"); ("𐓨", "𐓀"); ("𐓩", "𐓁"); ("𐓪", "𐓂"); ("𐓫", "𐓃"); ("𐓬", "𐓄");
   ("𐓭", "𐓅"); ("𐓮", "𐓆"); ("𐓯", "𐓇"); ("𐓰", "𐓈"); ("𐓱", "𐓉"); ("𐓲", "𐓊");
   ("𐓳", "𐓋"); ("𐓴", "𐓌"); ("𐓵", "𐓍"); ("𐓶", "𐓎"); ("𐓷", "𐓏"); ("𐓸", "𐓐");
   ("𐓹", "𐓑"); ("𐓺", "𐓒"); ("𐓻", "𐓓"); ("𐖗", "𐕰"); ("𐖘", "𐕱"); ("𐖙", "𐕲");
   ("𐖚", "𐕳"); ("𐖛", "𐕴"); ("𐖜", "𐕵"); ("𐖝", "𐕶"); ("𐖞", "𐕷"); ("𐖟", "𐕸");
   ("𐖠", "𐕹"); ("𐖡", "𐕺"); ("𐖣", "𐕼"); ("𐖤", "𐕽"); ("𐖥", "𐕾"); ("𐖦", "𐕿");
   ("𐖧", "𐖀"); ("𐖨", "𐖁"); ("𐖩", "𐖂"); ("𐖪", "𐖃"); ("𐖫", "𐖄"); ("𐖬", "𐖅");
   ("𐖭", "𐖆"); ("𐖮", "𐖇"); ("𐖯", "𐖈"); ("𐖰", "𐖉"); ("𐖱", "𐖊"); ("𐖳", "𐖌");
   ("𐖴", "𐖍"); ("𐖵", "𐖎"); ("𐖶", "𐖏"); ("𐖷", "𐖐"); ("𐖸", "𐖑"); ("𐖹", "𐖒");
   ("𐖻", "𐖔"); ("𐖼", "𐖕"); ("𐳀", "𐲀"); ("𐳁", "𐲁"); ("𐳂", "𐲂"); ("𐳃", "𐲃");
   ("𐳄", "𐲄"); ("𐳅", "𐲅"); ("𐳆", "𐲆"); ("𐳇", "𐲇"); ("𐳈", "𐲈"); ("𐳉", "𐲉");
   ("𐳊", "𐲊"); ("𐳋", "𐲋"); ("𐳌", "𐲌"); ("𐳍", "𐲍"); ("𐳎", "𐲎"); ("𐳏", "𐲏");
   ("𐳐", "𐲐"); ("𐳑", "𐲑"); ("𐳒", "𐲒"); ("𐳓", "𐲓"); ("𐳔", "𐲔"); ("𐳕", "𐲕");
   ("𐳖", "𐲖"); ("𐳗", "𐲗"); ("𐳘", "𐲘"); ("𐳙", "𐲙"); ("𐳚", "𐲚"); ("𐳛", "𐲛");
   ("𐳜", "𐲜"); ("𐳝", "𐲝"); ("𐳞", "𐲞"); ("𐳟", "𐲟"); ("𐳠", "𐲠"); ("𐳡", "𐲡");
   ("𐳢", "𐲢"); ("𐳣", "𐲣"); ("𐳤", "𐲤"); ("𐳥", "𐲥"); ("𐳦", "𐲦"); ("𐳧", "𐲧");
   ("𐳨", "𐲨"); ("𐳩", "𐲩"); ("𐳪", "𐲪"); ("𐳫", "𐲫"); ("𐳬", "𐲬"); ("𐳭", "𐲭");
   ("𐳮", "𐲮"); ("𐳯", "𐲯"); ("𐳰", "𐲰"); ("𐳱", "𐲱"); ("𐳲", "𐲲"); ("𑣀", "𑢠");
   ("𑣁", "𑢡"); ("𑣂", "𑢢"); ("𑣃", "𑢣"); ("𑣄", "𑢤"); ("𑣅", "𑢥"); ("𑣆", "𑢦");
   ("𑣇", "𑢧"); ("𑣈", "𑢨"); ("𑣉", "𑢩"); ("𑣊", "𑢪"); ("𑣋", "𑢫"); ("𑣌", "𑢬");
   ("𑣍", "𑢭"); ("𑣎", "𑢮"); ("𑣏", "𑢯"); ("𑣐", "𑢰"); ("𑣑", "𑢱"); ("𑣒", "𑢲");
   ("𑣓", "𑢳"); ("𑣔", "𑢴"); ("𑣕", "𑢵"); ("𑣖", "𑢶"); ("𑣗", "𑢷"); ("𑣘", "𑢸");
   ("𑣙", "𑢹"); ("𑣚", "𑢺"); ("𑣛", "𑢻"); ("𑣜", "𑢼"); ("𑣝", "𑢽"); ("𑣞", "𑢾");
   ("𑣟", "𑢿"); ("𖹠", "𖹀"); ("𖹡", "𖹁"); ("𖹢", "𖹂"); ("𖹣", "𖹃"); ("𖹤", "𖹄");
   ("𖹥", "𖹅"); ("𖹦", "𖹆"); ("𖹧", "𖹇"); ("𖹨", "𖹈"); ("𖹩", "𖹉"); ("𖹪", "𖹊");
   ("𖹫", "𖹋"); ("𖹬", "𖹌"); ("𖹭", "𖹍"); ("𖹮", "𖹎"); ("𖹯", "𖹏"); ("𖹰", "𖹐");
   ("𖹱", "𖹑"); ("𖹲", "𖹒"); ("𖹳", "𖹓"); ("𖹴", "𖹔"); ("𖹵", "𖹕"); ("𖹶", "𖹖");
   ("𖹷", "𖹗"); ("𖹸", "𖹘"); ("𖹹", "𖹙"); ("𖹺", "𖹚"); ("𖹻", "𖹛"); ("𖹼", "𖹜");
   ("𖹽", "𖹝"); ("𖹾", "𖹞"); ("𖹿", "𖹟"); ("𞤢", "𞤀"); ("𞤣", "𞤁"); ("𞤤", "𞤂");
   ("𞤥", "𞤃"); ("𞤦", "𞤄"); ("𞤧", "𞤅"); ("𞤨", "𞤆"); ("𞤩", "𞤇"); ("𞤪", "𞤈");
   ("𞤫", "𞤉"); ("𞤬", "𞤊"); ("𞤭", "𞤋"); ("𞤮", "𞤌"); ("𞤯", "𞤍"); ("𞤰", "𞤎");
   ("𞤱", "𞤏"); ("𞤲", "𞤐"); ("𞤳", "𞤑"); ("𞤴", "𞤒"); ("𞤵", "𞤓"); ("𞤶", "𞤔");
   ("𞤷", "𞤕"); ("𞤸", "𞤖"); ("𞤹", "𞤗"); ("𞤺", "𞤘"); ("𞤻", "𞤙"); ("𞤼", "𞤚");
   ("𞤽", "𞤛"); ("𞤾", "𞤜"); ("𞤿", "𞤝"); ("𞥀", "𞤞"); ("𞥁", "𞤟"); ("𞥂", "𞤠");
   ("𞥃", "𞤡")
  ].

Fixpoint table_get (ch : string) (table : list (string * string)) : option string :=
  match table with
  | [] => None
  | (k, v) :: rest => if String.eqb ch k then Some v else table_get ch rest
  end.

Definition upper_char (ch : string) : string := default ch (table_get ch upper_table).

(** [s.upper()] *)
Definition upper (s : string) : string := join (upper_char <$> chars s).

(** Removal of the longest prefix (suffix) of characters that satisfy [p]. *)
Fixpoint lstrip_by (p : string → bool) (l : list string) : list string :=
  match l with
  | [] => []
  | ch :: r => if p ch then lstrip_by p r else l
  end.

Fixpoint rstrip_by (p : string → bool) (l : list string) : list string :=
  match l with
  | [] => []
  | ch :: r =>
      match rstrip_by p r with
      | [] => if p ch then [] else [ch]
      | t => ch :: t
      end
  end.

(** [c in chars] for a character of one byte. *)
Fixpoint mem (c : ascii) (chars : string) : bool :=
  match chars with
  | EmptyString => false
  | String d r => if Ascii.eqb c d then true else mem c r
  end.

(** [s.strip()], [s.lstrip(cs)], [s.rstrip(cs)] *)
Definition strip (s : string) : string :=
  join (rstrip_by isspace (lstrip_by isspace (chars s))).
Definition lstrip (cs s : string) : string :=
  join (lstrip_by (λ ch, bool_decide (ch ∈ chars cs)) (chars s)).
Definition rstrip (cs s : string) : string :=
  join (rstrip_by (λ ch, bool_decide (ch ∈ chars cs)) (chars s)).

(** [s.endswith(suffix)] *)
Definition endswith (s suffix : string) : bool :=
  let n := String.length s in
  let k := String.length suffix in
  (k <=? n) && String.eqb (String.substring (n - k) k s) suffix.

(** [s.split(sep)] for a separator of one byte. *)
Fixpoint split_char (sep : ascii) (s : string) : list string :=
  match s with
  | EmptyString => [EmptyString]
  | String c r =>
      if Ascii.eqb c sep then EmptyString :: split_char sep r
      else
        match split_char sep r with
        | [] => [String c EmptyString]
        | p :: ps => String c p :: ps
        end
  end.

(** Truth value of a string: the empty string is false. *)
Definition truthy (s : string) : bool :=
  match s with EmptyString => false | _ => true end.

(** Every character of [s] satisfies [p]. *)
Definition all_chars (p : string → bool) (s : string) : bool := forallb p (chars s).

Definition first_char (s : string) : option string := head (chars s).
Definition last_char (s : string) : option string := last (chars s).

(** Characters that follow one another in a text: each entry is one
    character, and none but the first begins with a continuation byte. *)
Definition segmented (l : list string) : Prop :=
  Forall (λ g, chars g = [g]) l ∧ Forall (λ g, starts_inside g = false) (tail l).

End PyStr.

(** The two quote characters, [chr 34] and [chr 39]. *)
Definition dquote : ascii := "034"%char.
Definition squote : ascii := "039"%char.

(** The argument of [lstrip]/[rstrip] at app.py:120: a double and a single quote. *)
Definition quote_chars : string := String dquote (String squote EmptyString).

Definition is_quote (ch : string) : bool := bool_decide (ch ∈ PyStr.chars quote_chars).

(** Neither the first nor the last character of [s] satisfies [p]. *)
Definition clean_ends (p : string → bool) (s : string) : Prop :=
  (∀ ch, PyStr.first_char s = Some ch → p ch = false) ∧
  (∀ ch, PyStr.last_char s = Some ch → p ch = false).

(** ** Loader: normalisation of the correct-letter field (app.py:118-120) *)

Definition correct_letter_raw_of (cell : string) : string := PyStr.strip cell.

Definition correct_letter_of_raw (raw : string) : string :=
  PyStr.upper (PyStr.rstrip quote_chars (PyStr.lstrip quote_chars raw)).

Definition normalize_correct_letter (cell : string) : string :=
  correct_letter_of_raw (correct_letter_raw_of cell).

(** Reference reading of the specification's sentence, for comparison only:
    trim, remove one quote character at the front if there is one and one at
    the back if there is one, uppercase. *)
Definition drop_one_leading_quote (l : list string) : list string :=
  match l with
  | ch :: r => if is_quote ch then r else l
  | [] => []
  end.

Fixpoint drop_one_trailing_quote (l : list string) : list string :=
  match l with
  | [] => []
  | [ch] => if is_quote ch then [] else l
  | ch :: r => ch :: drop_one_trailing_quote r
  end.

Definition normalize_one_layer_spec (cell : string) : string :=
  PyStr.upper
    (PyStr.join
       (drop_one_trailing_quote (drop_one_leading_quote (PyStr.chars (PyStr.strip cell))))).

(** ** Loader: data model *)

(** A quiz question, the dictionary built at app.py:134-140. *)
Record Question := {
  original_index : nat;
  question : string;
  options : gmap string string;
  correct_option_letter : string;
  correct_answer_text : string;
}.

(** A parsed table: its number of columns and its data rows (the header row
    is consumed by the reader).  A cell is represented by its [str(...)]
    image, the only way the loader looks at it. *)
Record DataFrame := {
  df_columns : nat;
  df_rows : list (list string);
}.

(** An uploaded file: its name and what the pandas reader makes of its
    contents, a table or the text of the exception it raises. *)
Record UploadedFile := {
  uf_name : string;
  uf_table : string + DataFrame;
}.

(** Messages shown on the page. *)
Inductive Msg :=
| MsgWarning (text : string)
| MsgError (text : string)
| MsgInfo (text : string)
| MsgSuccess (text : string).

Global Instance Msg_eq_dec : EqDecision Msg.
Proof. solve_decision. Defined.

(** The four fatal outcomes of a load, as the specification names them. *)
Definition UnsupportedFormat : Msg :=
  MsgError "Unsupported file format. Please upload a CSV or XLSX file.".
Definition EmptyFile (fname : string) : Msg :=
  MsgError ("The file '" +:+ fname +:+ "' is empty.").
Definition TooFewColumns (n : nat) : Msg :=
  MsgError ("Uploaded file must contain at least 6 columns. Detected "
            +:+ pretty n +:+ " columns.").
Definition NoValidQuestions : Msg :=
  MsgError "No valid questions found in the uploaded file.".
Definition ReadFailure (exn : string) : Msg :=
  MsgError ("An error occurred while reading the file: " +:+ exn).

Definition expected_structure_info : Msg :=
  MsgInfo "Expected column structure (by position): Question (1st), Option A (2nd), Option B (3rd), Option C (4th), Option D (5th), Correct Answer Letter (6th).".

(** Column positions (app.py:14-19). *)
Definition COL_IDX_QUESTION : nat := 0.
Definition COL_IDX_OPTION_A : nat := 1.
Definition COL_IDX_OPTION_B : nat := 2.
Definition COL_IDX_OPTION_C : nat := 3.
Definition COL_IDX_OPTION_D : nat := 4.
Definition COL_IDX_CORRECT_ANSWER_LETTER : nat := 5.

(** [row.iloc[k]]: [None] stands for the IndexError of a position out of range. *)
Definition iloc (row : list string) (k : nat) : option string := row !! k.

Definition iloc_error : string := "single positional indexer is out-of-bounds".

Definition make_options (a b c d : string) : gmap string string :=
  <["A" := a]> (<["B" := b]> (<["C" := c]> (<["D" := d]> ∅))).

Definition invalid_letter_warning (index : nat) (raw letter : string) : Msg :=
  MsgWarning ("Row " +:+ pretty (index + 2) +:+ ": Invalid correct answer letter '"
              +:+ raw +:+ "' (parsed as '" +:+ letter +:+ "'). Skipping question.").

Definition empty_question_warning (index : nat) : Msg :=
  MsgWarning ("Row " +:+ pretty (index + 2) +:+ ": Empty question text. Skipping question.").

(** What one iteration of the loop at app.py:110-140 does with a row:
    it warns and goes on to the next row, or it appends a question. *)
Inductive RowOutcome :=
| RowSkipped (warning : Msg)
| RowParsed (q : Question).

Definition process_row (index : nat) (row : list string) : option RowOutcome :=
  a ← iloc row COL_IDX_OPTION_A;
  b ← iloc row COL_IDX_OPTION_B;
  c ← iloc row COL_IDX_OPTION_C;
  d ← iloc row COL_IDX_OPTION_D;
  let opts := make_options a b c d in
  cell ← iloc row COL_IDX_CORRECT_ANSWER_LETTER;
  let correct_letter_raw := correct_letter_raw_of cell in
  let correct_letter := correct_letter_of_raw correct_letter_raw in
  question_text ← iloc row COL_IDX_QUESTION;
  match opts !! correct_letter with
  | None => Some (RowSkipped (invalid_letter_warning index correct_letter_raw correct_letter))
  | Some text =>
      if negb (PyStr.truthy (PyStr.strip question_text))
      then Some (RowSkipped (empty_question_warning index))
      else Some (RowParsed {| original_index := index;
                              question := question_text;
                              options := opts;
                              correct_option_letter := correct_letter;
                              correct_answer_text := text |})
  end.

(** The loop over [df.iterrows()], from row label [index] on; the labels
    are the positions 0, 1, ... of the rows, the default index of the
    reader.  The messages stay on the page when a row raises; the list
    built so far is lost. *)
Fixpoint load_rows (index : nat) (rows : list (list string))
    (log : list Msg) (quiz_data : list Question) : list Msg * option (list Question) :=
  match rows with
  | [] => (log, Some quiz_data)
  | row :: rest =>
      match process_row index row with
      | None => (log, None)
      | Some (RowSkipped w) => load_rows (S index) rest (log ++ [w]) quiz_data
      | Some (RowParsed q) => load_rows (S index) rest log (quiz_data ++ [q])
      end
  end.

Definition supported_name (fname : string) : bool :=
  PyStr.endswith fname ".csv" || PyStr.endswith fname ".xlsx" || PyStr.endswith fname ".xls".

(** [df.empty]: one of the two axes has length zero. *)
Definition df_empty (df : DataFrame) : bool :=
  match df_rows df with [] => true | _ => df_columns df =? 0 end.

(** [load_quiz_data_from_file] (app.py:67-150): the messages shown and the
    value returned. *)
Definition load_quiz_data_from_file (f : UploadedFile) : list Msg * option (list Question) :=
  let fname := uf_name f in
  if supported_name fname then
    match uf_table f with
    | inl exn => ([ReadFailure exn], None)
    | inr df =>
        if df_empty df then ([EmptyFile fname], None)
        else if df_columns df <? 6
        then ([TooFewColumns (df_columns df); expected_structure_info], None)
        else
          match load_rows 0 (df_rows df) [] [] with
          | (log, None) => (log ++ [ReadFailure iloc_error], None)
          | (log, Some []) => (log ++ [NoValidQuestions], None)
          | (log, Some quiz_data) => (log, Some quiz_data)
          end
    end
  else ([UnsupportedFormat], None).

(** The option letters, the keys of every [options] dictionary. *)
Definition valid_letters : list string := ["A"; "B"; "C"; "D"].

(** The warnings the loop emits and the questions it keeps, row by row. *)
Fixpoint row_warnings (index : nat) (rows : list (list string)) : list Msg :=
  match rows with
  | [] => []
  | row :: rest =>
      match process_row index row with
      | Some (RowSkipped w) => w :: row_warnings (S index) rest
      | _ => row_warnings (S index) rest
      end
  end.

Fixpoint row_questions (index : nat) (rows : list (list string)) : list Question :=
  match rows with
  | [] => []
  | row :: rest =>
      match process_row index row with
      | Some (RowParsed q) => q :: row_questions (S index) rest
      | _ => row_questions (S index) rest
      end
  end.

(** A table as pandas builds it: every row has as many cells as there are
    columns. *)
Definition rectangular (df : DataFrame) : Prop :=
  Forall (λ row, length row = df_columns df) (df_rows df).

Definition csv_of (fname : string) (ncols : nat) (rows : list (list string)) : UploadedFile :=
  {| uf_name := fname; uf_table := inr {| df_columns := ncols; df_rows := rows |} |}.

(** ** Quiz session: data model *)

(** Entries of the two review lists (app.py:218-222 and 243-246). *)
Record CorrectEntry := {
  ce_question : string;
  ce_correct_answer : string;
}.

Record IncorrectEntry := {
  ie_question : string;
  ie_correct_answer : string;
  ie_your_answer : string;
}.

(** The quiz-state dictionary [st.session_state[SS_QUIZ_DATA]].  The key
    'results_recorded' is absent until [main] adds it with value [True];
    [results_recorded] tells whether it is present. *)
Record QuizData := {
  quiz_started : bool;
  correct_count : nat;
  incorrect_count : nat;
  correct_questions : list CorrectEntry;
  incorrect_questions : list IncorrectEntry;
  show_answer : bool;
  user_selected_option : option string;
  submitted : bool;
  show_answer_clicked : bool;
  used_questions : gset nat;
  current_options_display : option (list string);
  last_answer_correct : option bool;
  results_recorded : bool;
}.

(** [_get_default_quiz_state] (app.py:47-63) *)
Definition _get_default_quiz_state : QuizData :=
  {| quiz_started := true;
     correct_count := 0;
     incorrect_count := 0;
     correct_questions := [];
     incorrect_questions := [];
     show_answer := false;
     user_selected_option := None;
     submitted := false;
     show_answer_clicked := false;
     used_questions := ∅;
     current_options_display := None;
     last_answer_correct := None;
     results_recorded := false |}.

(** Assignment to one key of the dictionary. *)
Definition set_correct_count (v : nat) (qd : QuizData) : QuizData :=
  {| quiz_started := quiz_started qd;
     correct_count := v;
     incorrect_count := incorrect_count qd;
     correct_questions := correct_questions qd;
     incorrect_questions := incorrect_questions qd;
     show_answer := show_answer qd;
     user_selected_option := user_selected_option qd;
     submitted := submitted qd;
     show_answer_clicked := show_answer_clicked qd;
     used_questions := used_questions qd;
     current_options_display := current_options_display qd;
     last_answer_correct := last_answer_correct qd;
     results_recorded := results_recorded qd |}.

Definition set_incorrect_count (v : nat) (qd : QuizData) : QuizData :=
  {| quiz_started := quiz_started qd;
     correct_count := correct_count qd;
     incorrect_count := v;
     correct_questions := correct_questions qd;
     incorrect_questions := incorrect_questions qd;
     show_answer := show_answer qd;
     user_selected_option := user_selected_option qd;
     submitted := submitted qd;
     show_answer_clicked := show_answer_clicked qd;
     used_questions := used_questions qd;
     current_options_display := current_options_display qd;
     last_answer_correct := last_answer_correct qd;
     results_recorded := results_recorded qd |}.

Definition set_correct_questions (v : list CorrectEntry) (qd : QuizData) : QuizData :=
  {| quiz_started := quiz_started qd;
     correct_count := correct_count qd;
     incorrect_count := incorrect_count qd;
     correct_questions := v;
     incorrect_questions := incorrect_questions qd;
     show_answer := show_answer qd;
     user_selected_option := user_selected_option qd;
     submitted := submitted qd;
     show_answer_clicked := show_answer_clicked qd;
     used_questions := used_questions qd;
     current_options_display := current_options_display qd;
     last_answer_correct := last_answer_correct qd;
     results_recorded := results_recorded qd |}.

Definition set_incorrect_questions (v : list IncorrectEntry) (qd : QuizData) : QuizData :=
  {| quiz_started := quiz_started qd;
     correct_count := correct_count qd;
     incorrect_count := incorrect_count qd;
     correct_questions := correct_questions qd;
     incorrect_questions := v;
     show_answer := show_answer qd;
     user_selected_option := user_selected_option qd;
     submitted := submitted qd;
     show_answer_clicked := show_answer_clicked qd;
     used_questions := used_questions qd;
     current_options_display := current_options_display qd;
     last_answer_correct := last_answer_correct qd;
     results_recorded := results_recorded qd |}.

Definition set_show_answer (v : bool) (qd : QuizData) : QuizData :=
  {| quiz_started := quiz_started qd;
     correct_count := correct_count qd;
     incorrect_count := incorrect_count qd;
     correct_questions := correct_questions qd;
     incorrect_questions := incorrect_questions qd;
     show_answer := v;
     user_selected_option := user_selected_option qd;
     submitted := submitted qd;
     show_answer_clicked := show_answer_clicked qd;
     used_questions := used_questions qd;
     current_options_display := current_options_display qd;
     last_answer_correct := last_answer_correct qd;
     results_recorded := results_recorded qd |}.

Definition set_user_selected_option (v : option string) (qd : QuizData) : QuizData :=
  {| quiz_started := quiz_started qd;
     correct_count := correct_count qd;
     incorrect_count := incorrect_count qd;
     correct_questions := correct_questions qd;
     incorrect_questions := incorrect_questions qd;
     show_answer := show_answer qd;
     user_selected_option := v;
     submitted := submitted qd;
     show_answer_clicked := show_answer_clicked qd;
     used_questions := used_questions qd;
     current_options_display := current_options_display qd;
     last_answer_correct := last_answer_correct qd;
     results_recorded := results_recorded qd |}.

Definition set_submitted (v : bool) (qd : QuizData) : QuizData :=
  {| quiz_started := quiz_started qd;
     correct_count := correct_count qd;
     incorrect_count := incorrect_count qd;
     correct_questions := correct_questions qd;
     incorrect_questions := incorrect_questions qd;
     show_answer := show_answer qd;
     user_selected_option := user_selected_option qd;
     submitted := v;
     show_answer_clicked := show_answer_clicked qd;
     used_questions := used_questions qd;
     current_options_display := current_options_display qd;
     last_answer_correct := last_answer_correct qd;
     results_recorded := results_recorded qd |}.

Definition set_show_answer_clicked (v : bool) (qd : QuizData) : QuizData :=
  {| quiz_started := quiz_started qd;
     correct_count := correct_count qd;
     incorrect_count := incorrect_count qd;
     correct_questions := correct_questions qd;
     incorrect_questions := incorrect_questions qd;
     show_answer := show_answer qd;
     user_selected_option := user_selected_option qd;
     submitted := submitted qd;
     show_answer_clicked := v;
     used_questions := used_questions qd;
     current_options_display := current_options_display qd;
     last_answer_correct := last_answer_correct qd;
     results_recorded := results_recorded qd |}.

Definition set_used_questions (v : gset nat) (qd : QuizData) : QuizData :=
  {| quiz_started := quiz_started qd;
     correct_count := correct_count qd;
     incorrect_count := incorrect_count qd;
     correct_questions := correct_questions qd;
     incorrect_questions := incorrect_questions qd;
     show_answer := show_answer qd;
     user_selected_option := user_selected_option qd;
     submitted := submitted qd;
     show_answer_clicked := show_answer_clicked qd;
     used_questions := v;
     current_options_display := current_options_display qd;
     last_answer_correct := last_answer_correct qd;
     results_recorded := results_recorded qd |}.

Definition set_current_options_display (v : option (list string)) (qd : QuizData) : QuizData :=
  {| quiz_started := quiz_started qd;
     correct_count := correct_count qd;
     incorrect_count := incorrect_count qd;
     correct_questions := correct_questions qd;
     incorrect_questions := incorrect_questions qd;
     show_answer := show_answer qd;
     user_selected_option := user_selected_option qd;
     submitted := submitted qd;
     show_answer_clicked := show_answer_clicked qd;
     used_questions := used_questions qd;
     current_options_display := v;
     last_answer_correct := last_answer_correct qd;
     results_recorded := results_recorded qd |}.

Definition set_last_answer_correct (v : option bool) (qd : QuizData) : QuizData :=
  {| quiz_started := quiz_started qd;
     correct_count := correct_count qd;
     incorrect_count := incorrect_count qd;
     correct_questions := correct_questions qd;
     incorrect_questions := incorrect_questions qd;
     show_answer := show_answer qd;
     user_selected_option := user_selected_option qd;
     submitted := submitted qd;
     show_answer_clicked := show_answer_clicked qd;
     used_questions := used_questions qd;
     current_options_display := current_options_display qd;
     last_answer_correct := v;
     results_recorded := results_recorded qd |}.

Definition set_results_recorded (v : bool) (qd : QuizData) : QuizData :=
  {| quiz_started := quiz_started qd;
     correct_count := correct_count qd;
     incorrect_count := incorrect_count qd;
     correct_questions := correct_questions qd;
     incorrect_questions := incorrect_questions qd;
     show_answer := show_answer qd;
     user_selected_option := user_selected_option qd;
     submitted := submitted qd;
     show_answer_clicked := show_answer_clicked qd;
     used_questions := used_questions qd;
     current_options_display := current_options_display qd;
     last_answer_correct := last_answer_correct qd;
     results_recorded := v |}.

(** ** Quiz session: handlers *)




(** [check_answer] (app.py:201-205) *)
Definition check_answer (user_selected_option_letter : option string)
    (correct_letter : string) : bool :=
  match user_selected_option_letter with
  | None => false
  | Some letter =>
      bool_decide (PyStr.upper (PyStr.strip letter) = PyStr.upper (PyStr.strip correct_letter))
  end.

(** The text logged as 'Your Answer' (app.py:214-216). *)
Definition user_answer_text_of (current_card : Question)
    (user_selected_option_letter : option string) : string :=
  match user_selected_option_letter with
  | Some letter =>
      if PyStr.truthy letter then
        match options current_card !! letter with
        | Some text => text
        | None => "No answer"
        end
      else "No answer"
  | None => "No answer"
  end.

(** [handle_incorrect_answer] (app.py:208-222) on the quiz-state dictionary. *)
Definition handle_incorrect_answer (current_card : Question)
    (user_selected_option_letter : option string) (quiz_data : QuizData) : QuizData :=
  if decide (original_index current_card ∈ used_questions quiz_data) then quiz_data
  else
    let quiz_data := set_incorrect_count (incorrect_count quiz_data + 1) quiz_data in
    let user_answer_text := user_answer_text_of current_card user_selected_option_letter in
    set_incorrect_questions
      (incorrect_questions quiz_data ++
         [{| ie_question := question current_card;
             ie_correct_answer := correct_answer_text current_card;
             ie_your_answer := user_answer_text |}])
      quiz_data.

(** Body of [handle_submit] (app.py:231-254) once the card is fetched. *)
Definition submit_card (current_card : Question) (quiz_data : QuizData) : QuizData :=
  let user_selected_option_letter := user_selected_option quiz_data in
  let is_correct :=
    check_answer user_selected_option_letter (correct_option_letter current_card) in
  let quiz_data := set_last_answer_correct (Some is_correct) quiz_data in
  let quiz_data :=
    if is_correct then
      if decide (original_index current_card ∈ used_questions quiz_data) then quiz_data
      else
        let quiz_data := set_correct_count (correct_count quiz_data + 1) quiz_data in
        set_correct_questions
          (correct_questions quiz_data ++
             [{| ce_question := question current_card;
                 ce_correct_answer := correct_answer_text current_card |}])
          quiz_data
    else
      if decide (original_index current_card ∈ used_questions quiz_data) then quiz_data
      else handle_incorrect_answer current_card user_selected_option_letter quiz_data in
  let quiz_data := set_submitted true quiz_data in
  let quiz_data := set_show_answer true quiz_data in
  set_used_questions ({[original_index current_card]} ∪ used_questions quiz_data) quiz_data.

(** Body of [handle_show_answer] (app.py:264-280) once the card is fetched. *)
Definition show_answer_card (current_card : Question) (quiz_data : QuizData) : QuizData :=
  let quiz_data :=
    if decide (original_index current_card ∈ used_questions quiz_data) then quiz_data
    else set_last_answer_correct (Some false) quiz_data in
  let quiz_data := set_show_answer true quiz_data in
  let quiz_data := set_show_answer_clicked true quiz_data in
  let quiz_data :=
    if decide (original_index current_card ∈ used_questions quiz_data) then quiz_data
    else
      let user_selected_option_letter := user_selected_option quiz_data in
      let quiz_data :=
        handle_incorrect_answer current_card user_selected_option_letter quiz_data in
      set_used_questions ({[original_index current_card]} ∪ used_questions quiz_data)
        quiz_data in
  set_submitted true quiz_data.

(** Body of [handle_next_question] (app.py:286-292). *)
Definition next_question_flags (quiz_data : QuizData) : QuizData :=
  let quiz_data := set_show_answer false quiz_data in
  let quiz_data := set_submitted false quiz_data in
  let quiz_data := set_show_answer_clicked false quiz_data in
  let quiz_data := set_user_selected_option None quiz_data in
  let quiz_data := set_current_options_display None quiz_data in
  set_last_answer_correct None quiz_data.

(** The part of the quiz state that makes the tallies: the two counts and
    the two review lists. *)
Definition tallies (quiz_data : QuizData)
    : nat * nat * list CorrectEntry * list IncorrectEntry :=
  (correct_count quiz_data, incorrect_count quiz_data,
   correct_questions quiz_data, incorrect_questions quiz_data).

(** ** Results store *)

(** One row of the results file (app.py:375-382). *)
Record ResultRecord := {
  Timestamp : string;
  User : string;
  CorrectCount : nat;
  IncorrectCount : nat;
  TotalQuestions : nat;
  IncorrectDetails : string;
}.

(** [sep.join(parts)] *)
Fixpoint join (sep : string) (parts : list string) : string :=
  match parts with
  | [] => ""
  | [p] => p
  | p :: rest => p +:+ sep +:+ join sep rest
  end.

(** The f-string of app.py:371. *)
Definition format_incorrect (item : IncorrectEntry) : string :=
  "Q: " +:+ ie_question item +:+ " | A: " +:+ ie_correct_answer item
  +:+ " | Your: " +:+ ie_your_answer item.

Definition incorrect_questions_str (items : list IncorrectEntry) : string :=
  join "; " (map format_incorrect items).

(** ** The session state and one run of the script *)

(** What the main area of the page shows at the end of a run. *)
Inductive View :=
| ViewNothing
| ViewStartPrompt
| ViewQuestion (current_card_index : nat)
| ViewResults.

(** What persists between two runs of the script: the keys of
    [st.session_state] the quiz uses (a bank is loaded throughout), the
    rows of the results file, what the last run displayed, and whether the
    last run ended in [st.rerun()] (the run that follows then carries no
    click). *)
Record World := {
  w_user : option string;
  w_flashcards : list Question;
  w_quiz : QuizData;
  w_current : option nat;
  w_results : list ResultRecord;
  w_rerun : bool;
  w_view : View;
}.

Definition with_quiz (quiz_data : QuizData) (w : World) : World :=
  {| w_user := w_user w; w_flashcards := w_flashcards w; w_quiz := quiz_data;
     w_current := w_current w; w_results := w_results w; w_rerun := w_rerun w; w_view := w_view w |}.

Definition with_current (cur : option nat) (w : World) : World :=
  {| w_user := w_user w; w_flashcards := w_flashcards w; w_quiz := w_quiz w;
     w_current := cur; w_results := w_results w; w_rerun := w_rerun w; w_view := w_view w |}.

Definition with_user (user : option string) (w : World) : World :=
  {| w_user := user; w_flashcards := w_flashcards w; w_quiz := w_quiz w;
     w_current := w_current w; w_results := w_results w; w_rerun := w_rerun w; w_view := w_view w |}.

Definition with_results (results : list ResultRecord) (w : World) : World :=
  {| w_user := w_user w; w_flashcards := w_flashcards w; w_quiz := w_quiz w;
     w_current := w_current w; w_results := results; w_rerun := w_rerun w; w_view := w_view w |}.

Definition with_rerun (r : bool) (w : World) : World :=
  {| w_user := w_user w; w_flashcards := w_flashcards w; w_quiz := w_quiz w;
     w_current := w_current w; w_results := w_results w; w_rerun := r; w_view := w_view w |}.

Definition with_view (v : View) (w : World) : World :=
  {| w_user := w_user w; w_flashcards := w_flashcards w; w_quiz := w_quiz w;
     w_current := w_current w; w_results := w_results w; w_rerun := w_rerun w;
     w_view := v |}.

(** [st.rerun()] *)
Definition st_rerun (w : World) : World := with_rerun true w.

(** [start_quiz] (app.py:153-160), called with the flashcards of the session. *)
Definition start_quiz (w : World) : World :=
  st_rerun (with_current None (with_quiz _get_default_quiz_state w)).

(** [handle_submit], [handle_show_answer] (app.py:225-281): [None] is the
    IndexError of [flashcards[current_card_index]], raised before any
    assignment. *)
Definition handle_submit (current_card_index : nat) (w : World) : option World :=
  current_card ← w_flashcards w !! current_card_index;
  Some (st_rerun (with_quiz (submit_card current_card (w_quiz w)) w)).

Definition handle_show_answer (current_card_index : nat) (w : World) : option World :=
  current_card ← w_flashcards w !! current_card_index;
  Some (st_rerun (with_quiz (show_answer_card current_card (w_quiz w)) w)).

(** [handle_next_question] (app.py:284-296) *)
Definition handle_next_question (w : World) : World :=
  st_rerun (with_current None (with_quiz (next_question_flags (w_quiz w)) w)).

(** [record_quiz_attempt] (app.py:353-384); [now] is the time stamp read
    from the clock.  The results file is read and written back whole;
    failures of the file system, which the source reports with
    [st.error], are outside the model. *)
Definition record_quiz_attempt (now : string) (w : World) : World :=
  let quiz_data := w_quiz w in
  let flashcards := w_flashcards w in
  let user := default "Unknown" (w_user w) in
  if negb (PyStr.truthy user) || bool_decide (user = "Unknown") then w
  else
    let results := w_results w in
    with_results
      (results ++
         [{| Timestamp := now;
             User := user;
             CorrectCount := correct_count quiz_data;
             IncorrectCount := incorrect_count quiz_data;
             TotalQuestions := length flashcards;
             IncorrectDetails := incorrect_questions_str (incorrect_questions quiz_data) |}])
      w.

(** ** One run of [main] (app.py:405-635) *)

Inductive Click :=
| NoClick
| ClickStart
| ClickRestart
| ClickSubmit
| ClickShowAnswer
| ClickNext.

Global Instance Click_eq_dec : EqDecision Click.
Proof. solve_decision. Defined.

(** What the page sends to one run: the content of the name field, the
    position of the chosen radio option if any, the button clicked if any,
    and the two readings of the outside world, the random number behind
    [random.choice] and the clock. *)
Record UiInput := {
  ui_user_name : string;
  ui_radio : option nat;
  ui_click : Click;
  ui_random : nat;
  ui_now : string;
}.

(** [list(all_indices - used_indices)] (app.py:551-553): the positions
    [0 .. len(flashcards)-1] that are not in the used set. *)
Definition available_indices (flashcards : list Question) (used : gset nat) : list nat :=
  filter (λ i, i ∉ used) (seq 0 (length flashcards)).

(** [random.choice(seq)]: an element of a non-empty sequence. *)
Definition random_choice (rnd : nat) (l : list nat) : option nat :=
  l !! (rnd mod length l).

(** [s.split(':')[0]] *)
Fixpoint before_colon (s : string) : string :=
  match s with
  | EmptyString => EmptyString
  | String c r => if Ascii.eqb c ":" then EmptyString else String c (before_colon r)
  end.

(** The four radio labels of [display_question] (app.py:177-182). *)
Definition options_display_of (question_data : Question) : list string :=
  let opt k := default "" (options question_data !! k) in
  ["A: " +:+ opt "A"; "B: " +:+ opt "B"; "C: " +:+ opt "C"; "D: " +:+ opt "D"].

(** [display_question] (app.py:163-198): stores the labels and returns the
    letter of the chosen one. *)
Definition display_question (question_data : Question) (radio : option nat)
    (quiz_data : QuizData) : QuizData * option string :=
  let options_display := options_display_of question_data in
  let quiz_data := set_current_options_display (Some options_display) quiz_data in
  let selected_option_display := radio ≫= (options_display !!.) in
  (quiz_data, (λ s, PyStr.strip (before_colon s)) <$> selected_option_display).

(** The draw of app.py:563-569. *)
Definition select_current (rnd : nat) (available : list nat) (w : World) : World :=
  match w_current w with
  | Some _ => w
  | None =>
      let w := with_current (random_choice rnd available) w in
      let quiz_data := set_current_options_display None (w_quiz w) in
      let quiz_data := set_user_selected_option None quiz_data in
      with_quiz (set_last_answer_correct None quiz_data) w
  end.

(** The completion branch of app.py:555-560; the restart button is the one
    [display_quiz_results] shows. *)
Definition main_finished (click : Click) (now : string) (w : World) : World :=
  let w := with_view ViewResults w in
  if decide (click = ClickRestart) then start_quiz w
  else if results_recorded (w_quiz w) then w
  else
    let w := record_quiz_attempt now w in
    with_quiz (set_results_recorded true (w_quiz w)) w.

(** The question branch of app.py:561-618. *)
Definition main_question (click : Click) (radio : option nat) (rnd : nat)
    (available : list nat) (w : World) : World :=
  let w := select_current rnd available w in
  match w_current w with
  | None => w
  | Some current_card_index =>
      match w_flashcards w !! current_card_index with
      | None => w
      | Some current_card =>
          let '(quiz_data, user_selected_option_letter) :=
            display_question current_card radio (w_quiz w) in
          let quiz_data := set_user_selected_option user_selected_option_letter quiz_data in
          let w := with_view (ViewQuestion current_card_index) (with_quiz quiz_data w) in
          if submitted quiz_data || show_answer_clicked quiz_data then
            if decide (click = ClickNext) then handle_next_question w else w
          else if decide (click = ClickSubmit) then
            match user_selected_option_letter with
            | None => w
            | Some _ => default w (handle_submit current_card_index w)
            end
          else if decide (click = ClickShowAnswer) then
            default w (handle_show_answer current_card_index w)
          else w
      end
  end.

(** The user field of the sidebar (app.py:411-417). *)
Definition main_user (user_name : string) (w : World) : World :=
  let w := match w_user w with None => with_user (Some "") w | Some _ => w end in
  if PyStr.truthy user_name then with_user (Some user_name) w else w.

(** [main] (app.py:405-635), one run of the script, on a session with a
    bank loaded: the user field, the sidebar restart button, then the main
    area.  The handling of the file uploader (app.py:466-508), which
    replaces the whole session, and the history button are left out. *)
Definition main (ui : UiInput) (w : World) : World :=
  let click := if w_rerun w then NoClick else ui_click ui in
  let w := with_view ViewNothing (with_rerun false w) in
  let w := main_user (ui_user_name ui) w in
  let flashcards := w_flashcards w in
  let quiz_data := w_quiz w in
  if quiz_started quiz_data then
    let available := available_indices flashcards (used_questions quiz_data) in
    let is_finished := bool_decide (available = []) in
    if negb is_finished && bool_decide (click = ClickRestart) then start_quiz w
    else if is_finished then main_finished click (ui_now ui) w
    else main_question click (ui_radio ui) (ui_random ui) available w
  else
    let w := with_view ViewStartPrompt w in
    if decide (click = ClickStart) then start_quiz w else w.

(** A session: the runs of the script, one per input of the page. *)
Definition run_session (inputs : list UiInput) (w : World) : World :=
  foldl (λ w ui, main ui w) w inputs.

(** The state right after a successful load (app.py:476-483): the default
    quiz state with the started flag cleared. *)
Definition loaded_world (user : option string) (flashcards : list Question)
    (results : list ResultRecord) : World :=
  {| w_user := user;
     w_flashcards := flashcards;
     w_quiz := {| quiz_started := false; correct_count := 0; incorrect_count := 0;
                  correct_questions := []; incorrect_questions := [];
                  show_answer := false; user_selected_option := None;
                  submitted := false; show_answer_clicked := false;
                  used_questions := ∅; current_options_display := None;
                  last_answer_correct := None; results_recorded := false |};
     w_current := None;
     w_results := results;
     w_rerun := true;
     w_view := ViewNothing |}.

(** The state right after [start_quiz]. *)
Definition started_world (user : option string) (flashcards : list Question)
    (results : list ResultRecord) : World :=
  start_quiz (loaded_world user flashcards results).

Definition idle (name : string) : UiInput :=
  {| ui_user_name := name; ui_radio := None; ui_click := NoClick;
     ui_random := 0; ui_now := "" |}.

Definition press (name : string) (radio : option nat) (click : Click) (now : string) : UiInput :=
  {| ui_user_name := name; ui_radio := radio; ui_click := click;
     ui_random := 0; ui_now := now |}.

(** ** The session invariant *)

(** The two counts add up to the number of used indices, and every used
    index is the original index of a question of the bank. *)
Definition session_inv (flashcards : list Question) (quiz_data : QuizData) : Prop :=
  correct_count quiz_data + incorrect_count quiz_data = size (used_questions quiz_data) ∧
  ∀ x, x ∈ used_questions quiz_data → ∃ q, q ∈ flashcards ∧ original_index q = x.

Definition world_inv (w : World) : Prop := session_inv (w_flashcards w) (w_quiz w).

(** What the one-shot recording depends on: the recorded flag, the started
    flag and the rows of the results file. *)
Definition record_state (w : World) : bool * bool * list ResultRecord :=
  (results_recorded (w_quiz w), quiz_started (w_quiz w), w_results w).

(** The user names with which [record_quiz_attempt] declines to record. *)
Definition unusable_user (user : option string) : Prop :=
  user = None ∨ user = Some "" ∨ user = Some "Unknown".

(** A bank in which every question sits at the position its original
    index names: what a load gives when no row is skipped. *)
Definition aligned (flashcards : list Question) : Prop :=
  ∀ i q, flashcards !! i = Some q → original_index q = i.

(** ** Sample files and sessions *)

(** A two-question file, and the same file after a first row whose correct
    letter is invalid. *)
Definition sample_rows : list (list string) :=
  [["Capital of Italy?"; "Rome"; "Milan"; "Turin"; "Pisa"; "A"];
   ["Founder of Rome?"; "Nero"; "Cato"; "Romulus"; "Remus"; "'c'"]].

Definition skipped_rows : list (list string) :=
  [["Largest hill?"; "Palatine"; "Aventine"; "Capitoline"; "Esquiline"; "E"];
   ["Founder of Rome?"; "Nero"; "Cato"; "Romulus"; "Remus"; "'c'"]].

Definition bank_of_rows (rows : list (list string)) : list Question :=
  default [] (load_quiz_data_from_file (csv_of "rome.csv" 6 rows)).2.

Definition sample_bank : list Question := bank_of_rows sample_rows.
Definition skipped_bank : list Question := bank_of_rows skipped_rows.

Definition sample_card : Question :=
  {| original_index := 0;
     question := "Capital of Italy?";
     options := make_options "Rome" "Milan" "Turin" "Pisa";
     correct_option_letter := "A";
     correct_answer_text := "Rome" |}.

(** The sample quiz just started by user ann, first question on the page,
    with the radio option at position [k] chosen if [radio = Some k]. *)
Definition sample_question_shown (radio : option nat) : World :=
  run_session [press "ann" radio NoClick ""] (started_world (Some "ann") sample_bank []).

(** The sample quiz after a correct submit on its first question. *)
Definition sample_resolved : World :=
  default (sample_question_shown (Some 0)) (handle_submit 0 (sample_question_shown (Some 0))).

(** The same state with the pending selection changed to option B. *)
Definition sample_reselected : World :=
  with_quiz (set_user_selected_option (Some "B") (w_quiz sample_resolved)) sample_resolved.

(** A session on the file with a skipped row: the only question is shown,
    revealed, and left with the next button. *)
Definition skipped_session : list UiInput :=
  [idle "ann"; press "ann" None ClickShowAnswer "t1"; idle "ann";
   press "ann" None ClickNext "t2"].

(** A whole attempt on a two-question bank: the first question answered
    with option A, the second one revealed; [final_run] is the run that
    follows, the one that finds nothing left to draw. *)
Definition finishing_session (name : string) : list UiInput :=
  [idle name; press name (Some 0) ClickSubmit "t1"; idle name;
   press name None ClickNext "t2"; idle name;
   press name None ClickShowAnswer "t3"].

Definition final_run (name : string) : UiInput :=
  press name None NoClick "2026-11-04T12:00:00".

(** A two-question file whose second question text holds a semicolon. *)
Definition semicolon_rows : list (list string) :=
  [["Capital of Italy?"; "Rome"; "Milan"; "Turin"; "Pisa"; "A"];
   ["Veni; vidi?"; "vici"; "fugi"; "risi"; "dormivi"; "a"]].

Definition semicolon_bank : list Question := bank_of_rows semicolon_rows.

(** The sample attempt of a user who typed no name, up to the last click. *)
Definition anonymous_attempt : World :=
  run_session (finishing_session "") (started_world None sample_bank []).

(** ** Further notions used by the properties of the loader *)

(** What the loader guarantees of every question it keeps. *)
Definition well_formed_question (q : Question) : Prop :=
  correct_option_letter q ∈ valid_letters ∧
  dom (options q) = list_to_set valid_letters ∧
  options q !! correct_option_letter q = Some (correct_answer_text q) ∧
  PyStr.strip (question q) ≠ "".

(** A row that passes both checks of the loop body. *)
Definition valid_row (row : list string) : Prop :=
  ∃ qtext cell, row !! 0 = Some qtext ∧ row !! 5 = Some cell ∧
                normalize_correct_letter cell ∈ valid_letters ∧
                PyStr.strip qtext ≠ "".

(** ** Further notions used by the properties of the session *)

(** Each review list is as long as its count. *)
Definition logs_match_counts (quiz_data : QuizData) : Prop :=
  length (correct_questions quiz_data) = correct_count quiz_data ∧
  length (incorrect_questions quiz_data) = incorrect_count quiz_data.

(** The dictionary [b] continues the attempt of [a]: nothing is taken out
    of the used set, no count decreases, the review lists only grow at the
    end. *)
Definition attempt_grows (a b : QuizData) : Prop :=
  used_questions a ⊆ used_questions b ∧
  correct_count a ≤ correct_count b ∧ incorrect_count a ≤ incorrect_count b ∧
  correct_questions a `prefix_of` correct_questions b ∧
  incorrect_questions a `prefix_of` incorrect_questions b.

(** The phase of the displayed question: a reveal counts as a submission,
    and a submitted question is the current one, is shown with its answer
    and is in the used set. *)
Definition phase_inv (w : World) : Prop :=
  (show_answer_clicked (w_quiz w) = true → submitted (w_quiz w) = true) ∧
  (submitted (w_quiz w) = true →
   show_answer (w_quiz w) = true ∧
   ∃ i card, w_current w = Some i ∧ w_flashcards w !! i = Some card ∧
             original_index card ∈ used_questions (w_quiz w)).

(** ** The results file on disk *)

(** What [load_quiz_results] can find at [RESULTS_FILE]: no file, a file
    the reader rejects as empty ([pd.errors.EmptyDataError]), a file the
    reader fails on otherwise, or a table of rows (as the file stores
    them). *)
Inductive ResultsFile :=
| FileAbsent
| FileEmpty
| FileUnreadable (exn : string)
| FileRows (rows : list ResultRecord).

(** The outcome of writing the file: done, or an exception with its text
    and whatever it leaves on disk. *)
Inductive WriteOutcome :=
| WriteOk
| WriteFails (exn : string) (remains : ResultsFile).

(** [load_quiz_results] (app.py:331-341): the messages shown and the list
    returned. *)
Definition load_quiz_results (file : ResultsFile) : list Msg * list ResultRecord :=
  match file with
  | FileAbsent => ([], [])
  | FileEmpty => ([], [])
  | FileUnreadable exn => ([MsgError ("Error loading results file: " +:+ exn)], [])
  | FileRows rows => ([], rows)
  end.

(** [save_quiz_results] (app.py:344-350) *)
Definition save_quiz_results (results : list ResultRecord) (outcome : WriteOutcome)
    : list Msg * ResultsFile :=
  match outcome with
  | WriteOk => ([], FileRows results)
  | WriteFails exn remains => ([MsgError ("Error saving results file: " +:+ exn)], remains)
  end.

(** [record_quiz_attempt] (app.py:353-384) with the file behind it: the
    list it appends to is the one [load_quiz_results] returns, and the
    appended list goes to [save_quiz_results]. *)
Definition record_quiz_attempt_on_disk (now : string) (outcome : WriteOutcome)
    (w : World) (file : ResultsFile) : list Msg * ResultsFile :=
  let user := default "Unknown" (w_user w) in
  if negb (PyStr.truthy user) || bool_decide (user = "Unknown")
  then ([MsgWarning "User name not set. Results cannot be saved."], file)
  else
    let '(load_msgs, results) := load_quiz_results file in
    let results := w_results (record_quiz_attempt now (with_results results w)) in
    let '(save_msgs, file) := save_quiz_results results outcome in
    (load_msgs ++ save_msgs ++ [MsgSuccess "Quiz results recorded."], file).

(** The row [record_quiz_attempt] builds for a user. *)
Definition attempt_record (now user : string) (w : World) : ResultRecord :=
  {| Timestamp := now;
     User := user;
     CorrectCount := correct_count (w_quiz w);
     IncorrectCount := incorrect_count (w_quiz w);
     TotalQuestions := length (w_flashcards w);
     IncorrectDetails := incorrect_questions_str (incorrect_questions (w_quiz w)) |}.

(** ** The whole session state and the upload step of [main] *)

Definition set_quiz_started (v : bool) (qd : QuizData) : QuizData :=
  {| quiz_started := v;
     correct_count := correct_count qd;
     incorrect_count := incorrect_count qd;
     correct_questions := correct_questions qd;
     incorrect_questions := incorrect_questions qd;
     show_answer := show_answer qd;
     user_selected_option := user_selected_option qd;
     submitted := submitted qd;
     show_answer_clicked := show_answer_clicked qd;
     used_questions := used_questions qd;
     current_options_display := current_options_display qd;
     last_answer_correct := last_answer_correct qd;
     results_recorded := results_recorded qd |}.

(** The dictionary [main] installs for a bank not yet started
    (app.py:480-481 and 517-518). *)
Definition not_started_quiz_state : QuizData :=
  set_quiz_started false _get_default_quiz_state.

(** [st.session_state] with every key optional, as it is before and
    between uploads, the rows of the results file, and the rerun flag and
    the view of the last run. *)
Record App := {
  app_user : option string;
  app_flashcards : option (list Question);
  app_loaded_file_name : option string;
  app_quiz : option QuizData;
  app_current : option nat;
  app_results : list ResultRecord;
  app_rerun : bool;
  app_view : View;
}.

(** The state of a fresh browser session. *)
Definition initial_app (results : list ResultRecord) : App :=
  {| app_user := None; app_flashcards := None; app_loaded_file_name := None;
     app_quiz := None; app_current := None; app_results := results;
     app_rerun := false; app_view := ViewNothing |}.

(** The four [del st.session_state[...]] of app.py:486-494 and 501-507. *)
Definition upload_clear (a : App) : App :=
  {| app_user := app_user a; app_flashcards := None; app_loaded_file_name := None;
     app_quiz := None; app_current := None; app_results := app_results a;
     app_rerun := app_rerun a; app_view := app_view a |}.

(** The assignments of app.py:476-483 after a successful load. *)
Definition upload_install (fname : string) (bank : list Question) (a : App) : App :=
  {| app_user := app_user a; app_flashcards := Some bank;
     app_loaded_file_name := Some fname;
     app_quiz := Some not_started_quiz_state; app_current := None;
     app_results := app_results a; app_rerun := app_rerun a; app_view := app_view a |}.

(** The handling of the file uploader (app.py:465-508): the new state and
    whether [st.rerun()] ends the run.  A returned list counts as loaded
    when it is not empty. *)
Definition upload_step (uploaded_file : option UploadedFile) (a : App) : App * bool :=
  match uploaded_file with
  | Some f =>
      let current_file_name := uf_name f in
      let previous_file_name := app_loaded_file_name a in
      if match app_flashcards a with None => true | Some _ => false end
         || negb (bool_decide (Some current_file_name = previous_file_name))
      then
        match (load_quiz_data_from_file f).2 with
        | Some (q :: rest) => (upload_install current_file_name (q :: rest) a, true)
        | _ => (upload_clear a, false)
        end
      else (a, false)
  | None =>
      match app_flashcards a with
      | Some _ => (upload_clear a, true)
      | None => (a, false)
      end
  end.

(** The user field (app.py:411-417) on the whole state. *)
Definition app_user_step (user_name : string) (a : App) : App :=
  let user := match app_user a with None => Some "" | Some u => Some u end in
  let user := if PyStr.truthy user_name then Some user_name else user in
  {| app_user := user; app_flashcards := app_flashcards a;
     app_loaded_file_name := app_loaded_file_name a; app_quiz := app_quiz a;
     app_current := app_current a; app_results := app_results a;
     app_rerun := app_rerun a; app_view := app_view a |}.

Definition world_of (flashcards : list Question) (quiz_data : QuizData) (a : App) : World :=
  {| w_user := app_user a; w_flashcards := flashcards; w_quiz := quiz_data;
     w_current := app_current a; w_results := app_results a;
     w_rerun := app_rerun a; w_view := app_view a |}.

Definition app_of (w : World) (a : App) : App :=
  {| app_user := w_user w; app_flashcards := Some (w_flashcards w);
     app_loaded_file_name := app_loaded_file_name a; app_quiz := Some (w_quiz w);
     app_current := w_current w; app_results := w_results w;
     app_rerun := w_rerun w; app_view := w_view w |}.

Definition app_end_run (rerun : bool) (a : App) : App :=
  {| app_user := app_user a; app_flashcards := app_flashcards a;
     app_loaded_file_name := app_loaded_file_name a; app_quiz := app_quiz a;
     app_current := app_current a; app_results := app_results a;
     app_rerun := rerun; app_view := ViewNothing |}.

Definition without_click (ui : UiInput) : UiInput :=
  {| ui_user_name := ui_user_name ui; ui_radio := ui_radio ui; ui_click := NoClick;
     ui_random := ui_random ui; ui_now := ui_now ui |}.

(** One run of [main] (app.py:405-635) with the file uploader: the user
    field, the upload step, and, when a bank is in the session and the
    upload step did not end the run, the quiz part [main] above.  The
    start button exists only when the name of the loaded file is stored
    (app.py:541-546). *)
Definition app_main (uploaded_file : option UploadedFile) (ui : UiInput) (a : App) : App :=
  let a := app_user_step (ui_user_name ui) a in
  let '(a, rerun) := upload_step uploaded_file a in
  if rerun then app_end_run true a
  else
    match app_flashcards a with
    | Some flashcards =>
        let quiz_data := default not_started_quiz_state (app_quiz a) in
        let ui :=
          if negb (quiz_started quiz_data)
             && match app_loaded_file_name a with None => true | Some _ => false end
          then without_click ui else ui in
        app_of (main ui (world_of flashcards quiz_data a)) a
    | None => app_end_run false a
    end.

Definition run_app (steps : list (option UploadedFile * UiInput)) (a : App) : App :=
  foldl (λ a step, app_main step.1 step.2 a) a steps.

(** What holds of the session state between runs. *)
Definition app_inv (a : App) : Prop :=
  (is_Some (app_flashcards a) ↔ is_Some (app_loaded_file_name a)) ∧
  (app_flashcards a = None → app_quiz a = None ∧ app_current a = None) ∧
  (∀ bank, app_flashcards a = Some bank →
     bank ≠ [] ∧ Forall well_formed_question bank ∧ NoDup (map original_index bank) ∧
     (∀ i, app_current a = Some i → i < length bank) ∧
     (∀ quiz_data, app_quiz a = Some quiz_data → session_inv bank quiz_data)).

(** A sample upload, a file of the same name with other rows, and the
    state after the run that loads the first. *)
Definition sample_file : UploadedFile := csv_of "rome.csv" 6 sample_rows.
Definition changed_file : UploadedFile := csv_of "rome.csv" 6 skipped_rows.
Definition broken_file : UploadedFile := csv_of "hills.csv" 5 sample_rows.
Definition sample_app : App := app_main (Some sample_file) (idle "ann") (initial_app []).

(** The steps in which the uploader holds a file named [name]. *)
Definition holds_file (name : string) (step : option UploadedFile * UiInput) : Prop :=
  ∃ f, step.1 = Some f ∧ uf_name f = name.

(** * Properties *)

(** ** Characters, joining and stripping *)

Lemma append_cons c (a b : string) : String c a +:+ b = String c (a +:+ b).
Proof. reflexivity. Qed.

Lemma str_app_empty_r (a : string) : a +:+ "" = a.
Proof. induction a as [|c a IH]; [done|]. by rewrite append_cons, IH. Qed.

Lemma str_app_assoc (a b c : string) : (a +:+ b) +:+ c = a +:+ (b +:+ c).
Proof. induction a as [|d a IH]; [done|]. by rewrite !append_cons, IH. Qed.

Lemma chars_nil_inv s : PyStr.chars s = [] → s = "".
Proof.
  destruct s as [|c r]; [done|]. cbn [PyStr.chars].
  destruct (PyStr.starts_inside r); [destruct (PyStr.chars r)|]; done.
Qed.

(** The first character of a text begins with the first byte of the text. *)
Lemma chars_head s g gs :
  PyStr.chars s = g :: gs → PyStr.starts_inside g = PyStr.starts_inside s.
Proof.
  destruct s as [|c r]; [done|]. cbn [PyStr.chars].
  destruct (PyStr.starts_inside r); [destruct (PyStr.chars r)|]; intros [= <- <-]; done.
Qed.

Lemma join_cons g gs : PyStr.join (g :: gs) = g +:+ PyStr.join gs.
Proof. reflexivity. Qed.

Lemma join_app l1 l2 : PyStr.join (l1 ++ l2) = PyStr.join l1 +:+ PyStr.join l2.
Proof.
  induction l1 as [|g l1 IH]; [done|].
  cbn [app]. by rewrite !join_cons, IH, str_app_assoc.
Qed.

Lemma join_chars s : PyStr.join (PyStr.chars s) = s.
Proof.
  induction s as [|c r IH]; [done|]. cbn [PyStr.chars].
  destruct (PyStr.starts_inside r) eqn:Hr.
  - destruct (PyStr.chars r) as [|g gs] eqn:Hc.
    + apply chars_nil_inv in Hc. by subst r.
    + rewrite join_cons in *. by rewrite append_cons, IH.
  - rewrite join_cons, append_cons. by rewrite IH.
Qed.

Lemma starts_inside_app a b :
  PyStr.starts_inside (a +:+ b) =
  if PyStr.truthy a then PyStr.starts_inside a else PyStr.starts_inside b.
Proof. by destruct a. Qed.

Lemma starts_inside_app_false a b :
  PyStr.starts_inside a = false → PyStr.starts_inside b = false →
  PyStr.starts_inside (a +:+ b) = false.
Proof. intros Ha Hb. rewrite starts_inside_app. by destruct (PyStr.truthy a). Qed.

(** Appending a text that starts at a character boundary appends its
    characters. *)
Lemma chars_app a b :
  PyStr.starts_inside b = false → PyStr.chars (a +:+ b) = PyStr.chars a ++ PyStr.chars b.
Proof.
  intros Hb. induction a as [|c a IH]; [done|].
  rewrite append_cons. cbn [PyStr.chars]. rewrite starts_inside_app, IH.
  destruct a as [|d a'].
  - cbn. by rewrite Hb.
  - cbn [PyStr.truthy]. destruct (PyStr.starts_inside (String d a')) eqn:Hd; [|done].
    destruct (PyStr.chars (String d a')) as [|g gs] eqn:Hc; [|done].
    by apply chars_nil_inv in Hc.
Qed.

Lemma segmented_chars s : PyStr.segmented (PyStr.chars s).
Proof.
  induction s as [|c r [IH1 IH2]]; [split; constructor|].
  cbn [PyStr.chars]. destruct (PyStr.starts_inside r) eqn:Hr.
  - destruct (PyStr.chars r) as [|g gs] eqn:Hc; [split; repeat constructor|].
    pose proof (chars_head _ _ _ Hc) as Hg. rewrite Hr in Hg.
    apply Forall_cons in IH1 as [Hgg IH1]. cbn [tail] in IH2.
    split; [|done]. constructor; [|done].
    cbn [PyStr.chars]. by rewrite Hg, Hgg.
  - split; [by constructor|].
    cbn [tail]. destruct (PyStr.chars r) as [|g gs] eqn:Hc; [constructor|].
    constructor; [|done]. by rewrite (chars_head _ _ _ Hc).
Qed.

Lemma segmented_app a b :
  PyStr.segmented (a ++ b) → PyStr.segmented a ∧ PyStr.segmented b.
Proof.
  intros [H1 H2]. apply Forall_app in H1 as [Ha Hb]. destruct a as [|g a].
  - split; [split; constructor|]. by split.
  - cbn [app tail] in H2. apply Forall_app in H2 as [H2a H2b].
    split; [by split|]. split; [done|].
    destruct b as [|h b]; [constructor|]. by apply Forall_cons in H2b as [_ ?].
Qed.

(** The characters of joined characters are these characters. *)
Lemma chars_join l : PyStr.segmented l → PyStr.chars (PyStr.join l) = l.
Proof.
  intros [H1 H2]. induction l as [|g gs IH]; [done|].
  apply Forall_cons in H1 as [Hg H1]. cbn [tail] in H2.
  rewrite join_cons, chars_app.
  - rewrite Hg, IH; [done|done|].
    destruct gs as [|h gs]; [constructor|]. by apply Forall_cons in H2 as [_ ?].
  - destruct gs as [|h gs]; [done|].
    apply Forall_cons in H2 as [Hh _]. apply Forall_cons in H1 as [Hhh _].
    rewrite join_cons, starts_inside_app. by destruct h.
Qed.

Lemma head_app_list {A} (a b : list A) :
  head (a ++ b) = from_option Some (head b) (head a).
Proof. by destruct a. Qed.

Lemma last_app_list {A} (a b : list A) :
  last (a ++ b) = from_option Some (last a) (last b).
Proof. rewrite last_app. by destruct (last b). Qed.

Section Stripping.

Variable p : string → bool.

Lemma lstrip_by_all (w l : list string) :
  forallb p w = true → PyStr.lstrip_by p (w ++ l) = PyStr.lstrip_by p l.
Proof.
  induction w as [|c w IH]; [done|]. cbn [forallb app].
  intros [Hc Hw]%andb_true_iff. cbn [PyStr.lstrip_by]. rewrite Hc. auto.
Qed.

Lemma lstrip_by_clean (l : list string) :
  (∀ c, head l = Some c → p c = false) → PyStr.lstrip_by p l = l.
Proof.
  destruct l as [|c l]; [done|]. intros H. cbn [PyStr.lstrip_by].
  rewrite (H c); done.
Qed.

Lemma lstrip_by_all_nil (w : list string) :
  forallb p w = true → PyStr.lstrip_by p w = [].
Proof.
  induction w as [|c w IH]; [done|]. cbn [forallb].
  intros [Hc Hw]%andb_true_iff. cbn [PyStr.lstrip_by]. rewrite Hc. auto.
Qed.

Lemma rstrip_by_all_nil (w : list string) :
  forallb p w = true → PyStr.rstrip_by p w = [].
Proof.
  induction w as [|c w IH]; [done|]. cbn [forallb].
  intros [Hc Hw]%andb_true_iff. cbn [PyStr.rstrip_by]. by rewrite (IH Hw), Hc.
Qed.

Lemma rstrip_by_all (l w : list string) :
  forallb p w = true → PyStr.rstrip_by p (l ++ w) = PyStr.rstrip_by p l.
Proof.
  intros Hw. induction l as [|c l IH].
  - by apply rstrip_by_all_nil.
  - cbn [app PyStr.rstrip_by]. by rewrite IH.
Qed.

Lemma rstrip_by_clean (l : list string) :
  (∀ c, last l = Some c → p c = false) → PyStr.rstrip_by p l = l.
Proof.
  induction l as [|c l IH]; [done|]. intros H. cbn [PyStr.rstrip_by].
  destruct l as [|d t].
  - cbn. rewrite (H c); done.
  - rewrite IH; [done|]. intros e He. apply H. exact He.
Qed.

(** Stripping on both sides gives back a middle part with clean ends. *)
Lemma strip_by_sandwich (w1 mid w2 : list string) :
  forallb p w1 = true → forallb p w2 = true →
  (∀ c, head mid = Some c → p c = false) → (∀ c, last mid = Some c → p c = false) →
  PyStr.rstrip_by p (PyStr.lstrip_by p (w1 ++ mid ++ w2)) = mid.
Proof.
  intros H1 H2 Hf Hl. rewrite lstrip_by_all by done.
  destruct mid as [|c r].
  - cbn [app]. by rewrite lstrip_by_all_nil.
  - rewrite lstrip_by_clean.
    + rewrite rstrip_by_all by done. by apply rstrip_by_clean.
    + cbn. intros e [= <-]. by apply Hf.
Qed.

Lemma lstrip_by_split (l : list string) :
  ∃ w, l = w ++ PyStr.lstrip_by p l ∧ forallb p w = true.
Proof.
  induction l as [|c l (w&Hl&Hw)]; [by exists []|].
  cbn [PyStr.lstrip_by]. destruct (p c) eqn:Hc.
  - exists (c :: w). split; [cbn; by rewrite <- Hl|]. cbn. by rewrite Hc.
  - by exists [].
Qed.

Lemma rstrip_by_split (l : list string) :
  ∃ w, l = PyStr.rstrip_by p l ++ w ∧ forallb p w = true.
Proof.
  induction l as [|c l (w&Hl&Hw)]; [by exists []|].
  cbn [PyStr.rstrip_by]. destruct (PyStr.rstrip_by p l) as [|d t] eqn:Hr.
  - cbn [app] in Hl. subst l. destruct (p c) eqn:Hc.
    + exists (c :: w). split; [done|]. cbn. by rewrite Hc.
    + by exists w.
  - exists w. split; [|done].
    change ((c :: d :: t) ++ w) with (c :: ((d :: t) ++ w)). by rewrite <- Hl.
Qed.

Lemma segmented_lstrip_by l : PyStr.segmented l → PyStr.segmented (PyStr.lstrip_by p l).
Proof.
  intros Hl. destruct (lstrip_by_split l) as (w&Heq&_).
  rewrite Heq in Hl. by apply segmented_app in Hl as [_ ?].
Qed.

Lemma segmented_rstrip_by l : PyStr.segmented l → PyStr.segmented (PyStr.rstrip_by p l).
Proof.
  intros Hl. destruct (rstrip_by_split l) as (w&Heq&_).
  rewrite Heq in Hl. by apply segmented_app in Hl as [? _].
Qed.

(** A text whose characters all satisfy a test of whole characters starts
    at a character boundary. *)
Lemma all_chars_starts s :
  (∀ g, p g = true → PyStr.starts_inside g = false) →
  PyStr.all_chars p s = true → PyStr.starts_inside s = false.
Proof.
  intros Hp. unfold PyStr.all_chars.
  destruct (PyStr.chars s) as [|g gs] eqn:Hc.
  - apply chars_nil_inv in Hc. by subst.
  - cbn. intros [Hg _]%andb_true_iff. rewrite <- (chars_head _ _ _ Hc). auto.
Qed.

Lemma all_chars_join l :
  PyStr.segmented l → forallb p l = true → PyStr.all_chars p (PyStr.join l) = true.
Proof. intros Hl Hp. unfold PyStr.all_chars. by rewrite chars_join. Qed.


End Stripping.

(** White space characters and quote characters are whole characters. *)
Lemma isspace_whole ch :
  PyStr.isspace ch = true → PyStr.chars ch = [ch] ∧ PyStr.starts_inside ch = false.
Proof.
  intros H%bool_decide_eq_true_1.
  assert (Hall : Forall (λ g, PyStr.chars g = [g] ∧ PyStr.starts_inside g = false)
                   PyStr.whitespace).
  { apply (bool_decide_eq_true_1 _). vm_compute. reflexivity. }
  by apply (proj1 (Forall_forall _ _) Hall).
Qed.

Lemma is_quote_cases ch :
  is_quote ch = true ↔ ch = String dquote "" ∨ ch = String squote "".
Proof.
  unfold is_quote. rewrite bool_decide_eq_true.
  change (PyStr.chars quote_chars) with [String dquote ""; String squote ""].
  rewrite !elem_of_cons, elem_of_nil.
  split; [intros [?|[?|[]]]; auto|intros [?|?]; auto].
Qed.

Lemma is_quote_whole ch :
  is_quote ch = true → PyStr.chars ch = [ch] ∧ PyStr.starts_inside ch = false.
Proof. intros [->| ->]%is_quote_cases; done. Qed.

Lemma is_quote_not_space ch : is_quote ch = true → PyStr.isspace ch = false.
Proof. intros [->| ->]%is_quote_cases; vm_compute; reflexivity. Qed.

Lemma isspace_starts s :
  PyStr.all_chars PyStr.isspace s = true → PyStr.starts_inside s = false.
Proof. apply all_chars_starts. intros g Hg. by apply isspace_whole. Qed.

Lemma is_quote_starts s :
  PyStr.all_chars is_quote s = true → PyStr.starts_inside s = false.
Proof. apply all_chars_starts. intros g Hg. by apply is_quote_whole. Qed.

(** The characters of the stripped text are the stripped characters. *)
Lemma strip_chars s :
  PyStr.chars (PyStr.strip s)
  = PyStr.rstrip_by PyStr.isspace (PyStr.lstrip_by PyStr.isspace (PyStr.chars s)).
Proof.
  unfold PyStr.strip. apply chars_join.
  apply segmented_rstrip_by, segmented_lstrip_by, segmented_chars.
Qed.

(** The normalisation of the correct-letter field, on the characters of
    the cell: white space off both ends, then quote characters off both
    ends, then every character in upper case. *)
Lemma normalize_chars cell :
  normalize_correct_letter cell =
  PyStr.join
    (PyStr.upper_char <$>
       PyStr.rstrip_by is_quote
         (PyStr.lstrip_by is_quote
            (PyStr.rstrip_by PyStr.isspace
               (PyStr.lstrip_by PyStr.isspace (PyStr.chars cell))))).
Proof.
  unfold normalize_correct_letter, correct_letter_raw_of, correct_letter_of_raw.
  unfold PyStr.upper, PyStr.rstrip, PyStr.lstrip.
  change (λ ch, bool_decide (ch ∈ PyStr.chars quote_chars)) with is_quote.
  rewrite !chars_join
    by (repeat first [apply segmented_rstrip_by | apply segmented_lstrip_by
                     | apply segmented_chars]).
  by rewrite strip_chars.
Qed.

(** Quote characters around a bare core, white space around the quotes:
    the normalised letter is the core in upper case, whatever the number of
    quote characters on either side. *)
Lemma normalize_sandwich (ws1 q1 core q2 ws2 : string) :
  PyStr.all_chars PyStr.isspace ws1 = true →
  PyStr.all_chars PyStr.isspace ws2 = true →
  PyStr.all_chars is_quote q1 = true →
  PyStr.all_chars is_quote q2 = true →
  PyStr.starts_inside core = false →
  clean_ends PyStr.isspace core →
  clean_ends is_quote core →
  normalize_correct_letter (ws1 +:+ (q1 +:+ core +:+ q2) +:+ ws2) = PyStr.upper core.
Proof.
  intros Hw1 Hw2 Hq1 Hq2 Hcore [Hsf Hsl] [Hqf Hql].
  pose proof (isspace_starts _ Hw2) as Hs2.
  pose proof (is_quote_starts _ Hq1) as Hsq1.
  pose proof (is_quote_starts _ Hq2) as Hsq2.
  rewrite normalize_chars.
  rewrite !chars_app by (repeat apply starts_inside_app_false; done).
  unfold PyStr.all_chars, PyStr.first_char, PyStr.last_char in *.
  rewrite (strip_by_sandwich PyStr.isspace); [|done|done|..].
  - by rewrite (strip_by_sandwich is_quote).
  - intros c. rewrite !head_app_list.
    destruct (head (PyStr.chars q1)) as [a|] eqn:E1; cbn.
    { intros [= <-]. apply is_quote_not_space.
      destruct (PyStr.chars q1); [done|]. cbn in E1, Hq1.
      apply andb_true_iff in Hq1 as [? _]. congruence. }
    destruct (head (PyStr.chars core)) as [a|] eqn:E2; cbn.
    { intros [= <-]. by apply Hsf. }
    intros E3. apply is_quote_not_space.
    destruct (PyStr.chars q2); [done|]. cbn in E3, Hq2.
    apply andb_true_iff in Hq2 as [? _]. congruence.
  - intros c. rewrite !last_app_list.
    assert (Hlast : ∀ l a, forallb is_quote l = true → last l = Some a → is_quote a = true).
    { induction l as [|x l IH]; intros a; [done|]. cbn [forallb].
      intros [Hx Hl]%andb_true_iff. destruct l as [|y l']; [by intros [= <-]|].
      intros Ha. apply IH; [done|exact Ha]. }
    destruct (last (PyStr.chars q2)) as [a|] eqn:E1; cbn.
    { intros [= <-]. apply is_quote_not_space. by apply (Hlast _ _ Hq2). }
    destruct (last (PyStr.chars core)) as [a|] eqn:E2; cbn.
    { intros [= <-]. by apply Hsl. }
    intros E3. apply is_quote_not_space. by apply (Hlast _ _ Hq1).
Qed.

(** ** C3: normalisation of the correct-letter field *)

(** C3, as stated, fails: the loader does not stop after one layer of quote
    characters.  A field with two single quotes on each side of B
    normalises to the bare letter B, where removing exactly one layer
    leaves the letter inside one pair of quotes. *)
Lemma C3_one_layer_counterexample :
  normalize_correct_letter "''B''" = "B" ∧
  normalize_one_layer_spec "''B''" = "'B'" ∧
  normalize_correct_letter "''B''" ≠ normalize_one_layer_spec "''B''".
Proof. repeat split; [vm_compute; reflexivity..|vm_compute; discriminate]. Qed.

(** C3 (amended): the normalisation trims white space, strips every leading
    and every trailing quote character (single or double, any number of
    them), and uppercases what is left; so a field made of white space,
    quote characters, a core that neither starts nor ends with white space
    or a quote, quote characters and white space normalises to the core in
    upper case, and the double-quoted, the single-quoted and the bare
    letter B all normalise to B.  White space is Python's: a no-break space
    (U+00A0) after the letter is trimmed; white space inside the quotes is
    not, since the trim comes first; and the upper case is Python's: the
    letter e with acute accent (U+00E9) becomes U+00C9. *)
Theorem C3_normalize_strips_all_quotes :
  (∀ ws1 q1 core q2 ws2 : string,
     PyStr.all_chars PyStr.isspace ws1 = true →
     PyStr.all_chars PyStr.isspace ws2 = true →
     PyStr.all_chars is_quote q1 = true →
     PyStr.all_chars is_quote q2 = true →
     PyStr.starts_inside core = false →
     clean_ends PyStr.isspace core →
     clean_ends is_quote core →
     normalize_correct_letter (ws1 +:+ (q1 +:+ core +:+ q2) +:+ ws2) = PyStr.upper core) ∧
  normalize_correct_letter (String dquote ("B" +:+ String dquote "")) = "B" ∧
  normalize_correct_letter "'B'" = "B" ∧
  normalize_correct_letter "B" = "B" ∧
  normalize_correct_letter (PyStr.of_bytes [66; 194; 160]) = "B" ∧
  normalize_correct_letter "' B'" = " B" ∧
  normalize_correct_letter (PyStr.of_bytes [195; 169]) = PyStr.of_bytes [195; 137].
Proof.
  split; [|repeat split; vm_compute; reflexivity].
  intros. by apply normalize_sandwich.
Qed.

Lemma C3_normalize_witness :
  PyStr.all_chars PyStr.isspace (PyStr.of_bytes [32; 227; 128; 128]) = true ∧
  PyStr.all_chars is_quote ("'" +:+ String dquote "") = true ∧
  PyStr.starts_inside "b" = false ∧
  clean_ends PyStr.isspace "b" ∧
  clean_ends is_quote "b" ∧
  normalize_correct_letter
    (PyStr.of_bytes [32; 227; 128; 128]
     +:+ (("'" +:+ String dquote "") +:+ "b" +:+ "''")
     +:+ PyStr.of_bytes [194; 160; 9]) = "B".
Proof.
  assert (Hs : clean_ends PyStr.isspace "b")
    by (split; intros c [= <-]; reflexivity).
  assert (Hq : clean_ends is_quote "b")
    by (split; intros c [= <-]; reflexivity).
  split; [reflexivity|]. split; [reflexivity|]. split; [reflexivity|].
  split; [exact Hs|]. split; [exact Hq|].
  exact (proj1 C3_normalize_strips_all_quotes (PyStr.of_bytes [32; 227; 128; 128])
           ("'" +:+ String dquote "") "b" "''" (PyStr.of_bytes [194; 160; 9])
           eq_refl eq_refl eq_refl eq_refl eq_refl Hs Hq).
Defined.

(** ** C4: rows with an invalid correct letter *)

Lemma make_options_lookup_None a b c d (letter : string) :
  make_options a b c d !! letter = None ↔ letter ∉ valid_letters.
Proof.
  unfold make_options, valid_letters.
  rewrite !lookup_insert_None, lookup_empty, !not_elem_of_cons.
  split.
  - intros ((((_&?)&?)&?)&?). repeat split; try congruence. apply not_elem_of_nil.
  - intros (?&?&?&?&_). repeat split; congruence.
Qed.

(** The loop body on a row of at least six cells, in terms of its
    correct-letter cell and its question cell. *)
Lemma process_row_cases index (row : list string) :
  6 ≤ length row →
  ∃ qtext a b c d cell,
    row !! 0 = Some qtext ∧ row !! 5 = Some cell ∧
    process_row index row =
      Some (match make_options a b c d !! normalize_correct_letter cell with
            | None => RowSkipped (invalid_letter_warning index (PyStr.strip cell)
                                    (normalize_correct_letter cell))
            | Some text =>
                if negb (PyStr.truthy (PyStr.strip qtext))
                then RowSkipped (empty_question_warning index)
                else RowParsed {| original_index := index;
                                  question := qtext;
                                  options := make_options a b c d;
                                  correct_option_letter := normalize_correct_letter cell;
                                  correct_answer_text := text |}
            end).
Proof.
  intros Hlen.
  destruct row as [|qtext [|a [|b [|c [|d [|cell rest]]]]]]; cbn in Hlen; try lia.
  exists qtext, a, b, c, d, cell. repeat split.
  unfold process_row. cbn.
  fold (normalize_correct_letter cell).
  destruct (make_options a b c d !! normalize_correct_letter cell); [|done].
  by destruct (negb _).
Qed.

Lemma process_row_invalid_letter index (row : list string) cell :
  6 ≤ length row → row !! 5 = Some cell →
  normalize_correct_letter cell ∉ valid_letters →
  process_row index row =
    Some (RowSkipped (invalid_letter_warning index (PyStr.strip cell)
                        (normalize_correct_letter cell))).
Proof.
  intros Hlen Hcell Hbad.
  destruct (process_row_cases index row Hlen) as (qtext&a&b&c&d&cell'&_&Hc&->).
  assert (cell' = cell) as -> by congruence.
  apply (make_options_lookup_None a b c d) in Hbad. by rewrite Hbad.
Qed.

Lemma process_row_blank_question index (row : list string) qtext :
  6 ≤ length row → row !! 0 = Some qtext → PyStr.strip qtext = "" →
  ∃ w, process_row index row = Some (RowSkipped w).
Proof.
  intros Hlen Hq Hblank.
  destruct (process_row_cases index row Hlen) as (qtext'&a&b&c&d&cell&Hq'&_&->).
  assert (qtext' = qtext) as -> by congruence.
  rewrite Hblank.
  destruct (make_options a b c d !! normalize_correct_letter cell); cbn; eexists; reflexivity.
Qed.

Lemma process_row_valid index (row : list string) qtext cell :
  6 ≤ length row → row !! 0 = Some qtext → row !! 5 = Some cell →
  normalize_correct_letter cell ∈ valid_letters → PyStr.strip qtext ≠ "" →
  ∃ q, process_row index row = Some (RowParsed q) ∧ original_index q = index ∧
       question q = qtext ∧ correct_option_letter q = normalize_correct_letter cell.
Proof.
  intros Hlen Hq Hcell Hok Hnb.
  destruct (process_row_cases index row Hlen) as (qtext'&a&b&c&d&cell'&Hq'&Hc'&->).
  assert (qtext' = qtext) as -> by congruence.
  assert (cell' = cell) as -> by congruence.
  destruct (make_options a b c d !! normalize_correct_letter cell) as [text|] eqn:E.
  - destruct (PyStr.strip qtext) eqn:Es; [done|]. cbn. eauto.
  - apply make_options_lookup_None in E. done.
Qed.

Lemma process_row_parsed_index index (row : list string) q :
  process_row index row = Some (RowParsed q) → original_index q = index.
Proof.
  unfold process_row. intros H. simplify_option_eq.
  repeat case_match; simplify_eq; done.
Qed.

(** The loop, on rows of at least six cells, never raises: it emits the
    warnings of the rows it skips and keeps the questions of the others. *)
Lemma load_rows_eq (rows : list (list string)) index log quiz_data :
  Forall (λ row, 6 ≤ length row) rows →
  load_rows index rows log quiz_data =
    (log ++ row_warnings index rows, Some (quiz_data ++ row_questions index rows)).
Proof.
  intros Hrows. revert index log quiz_data.
  induction Hrows as [|row rest Hrow _ IH]; intros index log quiz_data.
  - cbn. by rewrite !app_nil_r.
  - cbn [load_rows row_warnings row_questions].
    destruct (process_row_cases index row Hrow) as (?&?&?&?&?&?&_&_&Hp).
    destruct (process_row index row) as [[w|q]|]; [| |discriminate].
    + rewrite IH. by rewrite <- app_assoc.
    + rewrite IH. by rewrite <- app_assoc.
Qed.

Lemma row_warnings_elem (rows : list (list string)) index i row w :
  rows !! i = Some row → process_row (index + i) row = Some (RowSkipped w) →
  w ∈ row_warnings index rows.
Proof.
  revert index i. induction rows as [|r rest IH]; intros index i; [done|].
  destruct i as [|i]; cbn [row_warnings].
  - intros [= ->]. rewrite Nat.add_0_r. intros ->. apply list_elem_of_here.
  - intros Hi Hp. replace (index + S i) with (S index + i) in Hp by lia.
    specialize (IH _ _ Hi Hp).
    destruct (process_row index r) as [[?|?]|]; [apply list_elem_of_further|..]; done.
Qed.

Lemma row_questions_elem (rows : list (list string)) index i row q :
  rows !! i = Some row → process_row (index + i) row = Some (RowParsed q) →
  q ∈ row_questions index rows.
Proof.
  revert index i. induction rows as [|r rest IH]; intros index i; [done|].
  destruct i as [|i]; cbn [row_questions].
  - intros [= ->]. rewrite Nat.add_0_r. intros ->. apply list_elem_of_here.
  - intros Hi Hp. replace (index + S i) with (S index + i) in Hp by lia.
    specialize (IH _ _ Hi Hp).
    destruct (process_row index r) as [[?|?]|]; [|apply list_elem_of_further|]; done.
Qed.

(** A kept question comes from the row whose label it carries. *)
Lemma row_questions_origin (rows : list (list string)) index q :
  q ∈ row_questions index rows →
  ∃ i row, rows !! i = Some row ∧ process_row (index + i) row = Some (RowParsed q).
Proof.
  revert index. induction rows as [|r rest IH]; intros index; cbn [row_questions].
  - by intros ?%elem_of_nil.
  - intros Hq.
    assert (Hrest : q ∈ row_questions (S index) rest →
                    ∃ i row, (r :: rest) !! i = Some row ∧
                             process_row (index + i) row = Some (RowParsed q)).
    { intros (i&row&Hi&Hp)%IH. exists (S i), row. split; [done|].
      by replace (index + S i) with (S index + i) by lia. }
    destruct (process_row index r) as [[w|q']|] eqn:E; [by apply Hrest| |by apply Hrest].
    apply elem_of_cons in Hq as [->|Hq]; [|by apply Hrest].
    exists 0, r. split; [done|]. by rewrite Nat.add_0_r.
Qed.

Lemma row_questions_nil (rows : list (list string)) index :
  (∀ i row, rows !! i = Some row → ∃ w, process_row (index + i) row = Some (RowSkipped w)) →
  row_questions index rows = [].
Proof.
  intros H. destruct (row_questions index rows) as [|q l] eqn:E; [done|].
  assert (Hq : q ∈ row_questions index rows) by (rewrite E; apply list_elem_of_here).
  apply row_questions_origin in Hq as (i&row&Hi&Hp).
  destruct (H _ _ Hi) as [w Hw]. congruence.
Qed.

(** What the loader returns on a well-formed table of at least six
    columns: the warnings of the skipped rows, then either the kept
    questions or, when none is kept, the NoValidQuestions failure. *)
Lemma load_well_formed fname ncols (rows : list (list string)) :
  supported_name fname = true → 6 ≤ ncols → rows ≠ [] →
  Forall (λ row, length row = ncols) rows →
  load_quiz_data_from_file (csv_of fname ncols rows) =
    match row_questions 0 rows with
    | [] => (row_warnings 0 rows ++ [NoValidQuestions], None)
    | quiz_data => (row_warnings 0 rows, Some quiz_data)
    end.
Proof.
  intros Hname Hcols Hne Hrect.
  unfold load_quiz_data_from_file, csv_of. cbn. rewrite Hname.
  unfold df_empty. cbn.
  destruct rows as [|r rest]; [done|].
  destruct (Nat.eqb_spec ncols 0); [lia|].
  destruct (Nat.leb_spec ncols 5); [lia|].
  rewrite load_rows_eq.
  - cbn [app]. destruct (row_questions 0 (r :: rest)); reflexivity.
  - eapply Forall_impl; [exact Hrect|]. cbn. lia.
Qed.

(** C4: on a table of at least six columns, a row whose normalised correct
    letter is not one of A, B, C, D is skipped with the warning that names
    spreadsheet row index + 2 and contributes no question; the rows that
    pass validation are still loaded; when no row passes, and only then,
    the load fails, with NoValidQuestions; a one-row file whose letter is E
    yields that failure.  The letter and the emptiness of the question
    text are judged after Python's trimming: a cell holding B followed by
    a no-break space (U+00A0) is the valid letter B, and a question text
    made of an ideographic space (U+3000) is empty. *)
Theorem C4_invalid_letter_rows_are_skipped fname ncols (rows : list (list string)) :
  supported_name fname = true → 6 ≤ ncols → rows ≠ [] →
  Forall (λ row, length row = ncols) rows →
  let '(log, result) := load_quiz_data_from_file (csv_of fname ncols rows) in
  (∀ index row cell,
     rows !! index = Some row → row !! 5 = Some cell →
     normalize_correct_letter cell ∉ valid_letters →
     MsgWarning ("Row " +:+ pretty (index + 2) +:+ ": Invalid correct answer letter '"
                 +:+ PyStr.strip cell +:+ "' (parsed as '"
                 +:+ normalize_correct_letter cell +:+ "'). Skipping question.") ∈ log ∧
     ∀ bank q, result = Some bank → q ∈ bank → original_index q ≠ index) ∧
  (∀ index row qtext cell,
     rows !! index = Some row → row !! 0 = Some qtext → row !! 5 = Some cell →
     normalize_correct_letter cell ∈ valid_letters → PyStr.strip qtext ≠ "" →
     ∃ bank q, result = Some bank ∧ q ∈ bank ∧ original_index q = index ∧
               question q = qtext ∧
               correct_option_letter q = normalize_correct_letter cell) ∧
  ((∀ index row, rows !! index = Some row →
      (∃ cell, row !! 5 = Some cell ∧ normalize_correct_letter cell ∉ valid_letters) ∨
      (∃ qtext, row !! 0 = Some qtext ∧ PyStr.strip qtext = "")) →
   result = None ∧ last log = Some NoValidQuestions) ∧
  (result = None → last log = Some NoValidQuestions) ∧
  load_quiz_data_from_file (csv_of "quiz.csv" 6 [["Q1"; "a"; "b"; "c"; "d"; "E"]]) =
    ([MsgWarning "Row 2: Invalid correct answer letter 'E' (parsed as 'E'). Skipping question.";
      NoValidQuestions], None) ∧
  load_quiz_data_from_file
    (csv_of "quiz.csv" 6
       [["Q1"; "a"; "b"; "c"; "d"; PyStr.of_bytes [66; 194; 160]];
        [PyStr.of_bytes [227; 128; 128]; "a"; "b"; "c"; "d"; "A"]]) =
    ([MsgWarning "Row 3: Empty question text. Skipping question."],
     Some [{| original_index := 0; question := "Q1";
              options := make_options "a" "b" "c" "d";
              correct_option_letter := "B"; correct_answer_text := "b" |}]).
Proof.
  intros Hname Hcols Hne Hrect.
  assert (Hsix : ∀ i row, rows !! i = Some row → 6 ≤ length row).
  { intros i row Hi. rewrite (Forall_lookup_1 _ _ _ _ Hrect Hi). done. }
  rewrite load_well_formed by done.
  assert (Hskip : ∀ index row cell,
     rows !! index = Some row → row !! 5 = Some cell →
     normalize_correct_letter cell ∉ valid_letters →
     invalid_letter_warning index (PyStr.strip cell) (normalize_correct_letter cell)
       ∈ row_warnings 0 rows ∧
     ∀ q, q ∈ row_questions 0 rows → original_index q ≠ index).
  { intros index row cell Hi Hc Hbad.
    pose proof (process_row_invalid_letter index row cell (Hsix _ _ Hi) Hc Hbad) as Hp.
    split; [by eapply (row_warnings_elem rows 0 index)|].
    intros q (i&row'&Hi'&Hp')%row_questions_origin Heq.
    change (0 + i) with i in Hp'.
    pose proof (process_row_parsed_index _ _ _ Hp') as Hidx.
    assert (i = index) as -> by congruence.
    assert (row' = row) as -> by congruence. congruence. }
  assert (Hkeep : ∀ index row qtext cell,
     rows !! index = Some row → row !! 0 = Some qtext → row !! 5 = Some cell →
     normalize_correct_letter cell ∈ valid_letters → PyStr.strip qtext ≠ "" →
     ∃ q, q ∈ row_questions 0 rows ∧ original_index q = index ∧
          question q = qtext ∧ correct_option_letter q = normalize_correct_letter cell).
  { intros index row qtext cell Hi Hq Hc Hok Hnb.
    destruct (process_row_valid index row qtext cell (Hsix _ _ Hi) Hq Hc Hok Hnb)
      as (q&Hp&?&?&?).
    exists q. split; [|done]. by eapply (row_questions_elem rows 0 index). }
  assert (Hnone : (∀ index row, rows !! index = Some row →
      (∃ cell, row !! 5 = Some cell ∧ normalize_correct_letter cell ∉ valid_letters) ∨
      (∃ qtext, row !! 0 = Some qtext ∧ PyStr.strip qtext = "")) →
      row_questions 0 rows = []).
  { intros Hall. apply row_questions_nil. intros i row Hi. cbn.
    destruct (Hall _ _ Hi) as [(cell&Hc&Hbad)|(qtext&Hq&Hblank)].
    - eexists. by apply (process_row_invalid_letter i row cell (Hsix _ _ Hi)).
    - by apply (process_row_blank_question i row qtext (Hsix _ _ Hi)). }
  destruct (row_questions 0 rows) as [|q0 bank0] eqn:Equestions.
  - split; [|split; [|split; [|split; [|split]]]].
    + intros index row cell Hi Hc Hbad.
      destruct (Hskip index row cell Hi Hc Hbad) as [Hw _].
      split; [|done]. apply elem_of_app. by left.
    + intros index row qtext cell Hi Hq Hc Hok Hnb.
      destruct (Hkeep index row qtext cell Hi Hq Hc Hok Hnb) as (q&Hin&_).
      by apply elem_of_nil in Hin.
    + intros _. split; [done|]. apply last_snoc.
    + intros _. apply last_snoc.
    + vm_compute. reflexivity.
    + vm_compute. reflexivity.
  - split; [|split; [|split; [|split; [|split]]]].
    + intros index row cell Hi Hc Hbad.
      destruct (Hskip index row cell Hi Hc Hbad) as [Hw Hq].
      split; [done|]. intros bank q [= <-]. apply Hq.
    + intros index row qtext cell Hi Hq Hc Hok Hnb.
      destruct (Hkeep index row qtext cell Hi Hq Hc Hok Hnb) as (q&Hin&?).
      exists (q0 :: bank0), q. done.
    + intros Hall. by specialize (Hnone Hall).
    + done.
    + vm_compute. reflexivity.
    + vm_compute. reflexivity.
Qed.

Lemma C4_two_row_file_witness :
  let rows := [["Q1"; "a"; "b"; "c"; "d"; "E"]; ["Q2"; "a"; "b"; "c"; "d"; "'c'"]] in
  supported_name "quiz.csv" = true ∧ 6 ≤ 6 ∧ rows ≠ [] ∧
  Forall (λ row : list string, length row = 6) rows ∧
  MsgWarning "Row 2: Invalid correct answer letter 'E' (parsed as 'E'). Skipping question."
    ∈ (load_quiz_data_from_file (csv_of "quiz.csv" 6 rows)).1 ∧
  ∃ bank q, (load_quiz_data_from_file (csv_of "quiz.csv" 6 rows)).2 = Some bank ∧
            q ∈ bank ∧ original_index q = 1 ∧ question q = "Q2" ∧
            correct_option_letter q = "C".
Proof.
  intros rows.
  assert (Hname : supported_name "quiz.csv" = true) by reflexivity.
  assert (Hne : rows ≠ []) by discriminate.
  assert (Hrect : Forall (λ row : list string, length row = 6) rows)
    by (repeat constructor).
  pose proof (C4_invalid_letter_rows_are_skipped "quiz.csv" 6 rows Hname (le_n 6) Hne Hrect)
    as Hthm.
  destruct (load_quiz_data_from_file (csv_of "quiz.csv" 6 rows)) as [log result].
  destruct Hthm as (Hskip&Hkeep&_).
  split; [exact Hname|]. split; [exact (le_n 6)|]. split; [exact Hne|].
  split; [exact Hrect|]. split.
  - refine (proj1 (Hskip 0 _ "E" eq_refl eq_refl _)).
    vm_compute. intros H. repeat (apply elem_of_cons in H as [H|H]; [discriminate|]).
    by apply elem_of_nil in H.
  - refine (Hkeep 1 _ "Q2" "'c'" eq_refl eq_refl eq_refl _ _); [|discriminate].
    vm_compute. apply list_elem_of_further, list_elem_of_further, list_elem_of_here.
Defined.

(** ** The handlers on the quiz state *)

Ltac unfold_handlers :=
  unfold submit_card, show_answer_card, next_question_flags, handle_incorrect_answer in *.

Ltac decide_used H :=
  match type of H with
  | ¬ ?P => repeat (rewrite (decide_False (P:=P)) by exact H; cbn)
  | ?P => repeat (rewrite (decide_True (P:=P)) by exact H; cbn)
  end.

(** Decidable facts about concrete states, by evaluation. *)
Ltac by_compute :=
  lazymatch goal with
  | |- ¬ ?P => apply (bool_decide_eq_false_1 P)
  | |- ?P => apply (bool_decide_eq_true_1 P)
  end;
  vm_compute; reflexivity.

Lemma tallies_inv a b :
  tallies a = tallies b →
  correct_count a = correct_count b ∧ incorrect_count a = incorrect_count b ∧
  correct_questions a = correct_questions b ∧
  incorrect_questions a = incorrect_questions b.
Proof. destruct a, b. unfold tallies. cbn. by intros [= -> -> -> ->]. Qed.

Lemma used_add_elem (x : nat) (s : gset nat) : x ∈ s → {[x]} ∪ s = s.
Proof. intros H. apply subseteq_union_1_L. by apply singleton_subseteq_l. Qed.

(** Once the card is in the used set, the tallies stay as they are. *)
Lemma handle_incorrect_answer_used card sel quiz_data :
  original_index card ∈ used_questions quiz_data →
  handle_incorrect_answer card sel quiz_data = quiz_data.
Proof. intros H. unfold handle_incorrect_answer. by rewrite decide_True. Qed.

Lemma submit_card_used card quiz_data :
  original_index card ∈ used_questions quiz_data →
  tallies (submit_card card quiz_data) = tallies quiz_data ∧
  used_questions (submit_card card quiz_data) = used_questions quiz_data ∧
  last_answer_correct (submit_card card quiz_data) =
    Some (check_answer (user_selected_option quiz_data) (correct_option_letter card)).
Proof.
  intros H. destruct quiz_data. unfold_handlers. cbn in *.
  destruct (check_answer _ _); cbn; decide_used H;
    (split; [done|split; [by apply used_add_elem|done]]).
Qed.

Lemma show_answer_card_used card quiz_data :
  original_index card ∈ used_questions quiz_data →
  tallies (show_answer_card card quiz_data) = tallies quiz_data ∧
  used_questions (show_answer_card card quiz_data) = used_questions quiz_data ∧
  last_answer_correct (show_answer_card card quiz_data) = last_answer_correct quiz_data.
Proof.
  intros H. destruct quiz_data. unfold_handlers. cbn in *.
  decide_used H. done.
Qed.

(** A first resolution of the card. *)
Lemma submit_card_fresh_correct card quiz_data :
  original_index card ∉ used_questions quiz_data →
  check_answer (user_selected_option quiz_data) (correct_option_letter card) = true →
  correct_count (submit_card card quiz_data) = correct_count quiz_data + 1 ∧
  incorrect_count (submit_card card quiz_data) = incorrect_count quiz_data ∧
  correct_questions (submit_card card quiz_data) =
    correct_questions quiz_data ++
      [{| ce_question := question card; ce_correct_answer := correct_answer_text card |}] ∧
  incorrect_questions (submit_card card quiz_data) = incorrect_questions quiz_data ∧
  used_questions (submit_card card quiz_data) =
    {[original_index card]} ∪ used_questions quiz_data ∧
  last_answer_correct (submit_card card quiz_data) = Some true.
Proof.
  intros H Hc. destruct quiz_data. unfold_handlers. cbn in *.
  rewrite Hc. cbn. decide_used H. done.
Qed.

Lemma submit_card_fresh_incorrect card quiz_data :
  original_index card ∉ used_questions quiz_data →
  check_answer (user_selected_option quiz_data) (correct_option_letter card) = false →
  correct_count (submit_card card quiz_data) = correct_count quiz_data ∧
  incorrect_count (submit_card card quiz_data) = incorrect_count quiz_data + 1 ∧
  correct_questions (submit_card card quiz_data) = correct_questions quiz_data ∧
  incorrect_questions (submit_card card quiz_data) =
    incorrect_questions quiz_data ++
      [{| ie_question := question card;
          ie_correct_answer := correct_answer_text card;
          ie_your_answer := user_answer_text_of card (user_selected_option quiz_data) |}] ∧
  used_questions (submit_card card quiz_data) =
    {[original_index card]} ∪ used_questions quiz_data ∧
  last_answer_correct (submit_card card quiz_data) = Some false.
Proof.
  intros H Hc. destruct quiz_data. unfold_handlers. cbn in *.
  rewrite Hc. cbn. decide_used H. done.
Qed.

Lemma show_answer_card_fresh card quiz_data :
  original_index card ∉ used_questions quiz_data →
  correct_count (show_answer_card card quiz_data) = correct_count quiz_data ∧
  incorrect_count (show_answer_card card quiz_data) = incorrect_count quiz_data + 1 ∧
  correct_questions (show_answer_card card quiz_data) = correct_questions quiz_data ∧
  incorrect_questions (show_answer_card card quiz_data) =
    incorrect_questions quiz_data ++
      [{| ie_question := question card;
          ie_correct_answer := correct_answer_text card;
          ie_your_answer := user_answer_text_of card (user_selected_option quiz_data) |}] ∧
  used_questions (show_answer_card card quiz_data) =
    {[original_index card]} ∪ used_questions quiz_data ∧
  last_answer_correct (show_answer_card card quiz_data) = Some false.
Proof.
  intros H. destruct quiz_data. unfold_handlers. cbn in *.
  decide_used H. done.
Qed.

(** After either handler the card is in the used set. *)
Lemma submit_card_marks_used card quiz_data :
  original_index card ∈ used_questions (submit_card card quiz_data).
Proof.
  destruct quiz_data. unfold_handlers. cbn.
  by apply elem_of_union_l, elem_of_singleton_2.
Qed.

Lemma show_answer_card_marks_used card quiz_data :
  original_index card ∈ used_questions (show_answer_card card quiz_data).
Proof.
  destruct (decide (original_index card ∈ used_questions quiz_data)) as [H|H].
  - destruct (show_answer_card_used card quiz_data H) as (_&Hu&_). by rewrite Hu.
  - destruct (show_answer_card_fresh card quiz_data H) as (_&_&_&_&Hu&_). rewrite Hu.
    by apply elem_of_union_l, elem_of_singleton_2.
Qed.

Lemma handle_submit_some i w card :
  w_flashcards w !! i = Some card →
  handle_submit i w = Some (st_rerun (with_quiz (submit_card card (w_quiz w)) w)).
Proof. intros H. unfold handle_submit. rewrite H. reflexivity. Qed.

Lemma handle_show_answer_some i w card :
  w_flashcards w !! i = Some card →
  handle_show_answer i w = Some (st_rerun (with_quiz (show_answer_card card (w_quiz w)) w)).
Proof. intros H. unfold handle_show_answer. rewrite H. reflexivity. Qed.

(** ** C5, C6, C7, C10: submit and show answer on one question *)










(** C6: once the original index of a question is in the used set, neither
    submit nor show answer changes the two counts or the two review lists;
    so submitting and then revealing a fresh question, or revealing and
    then submitting it, counts and logs it exactly once. *)
Theorem C6_no_double_counting :
  (∀ w i card,
     w_flashcards w !! i = Some card →
     original_index card ∈ used_questions (w_quiz w) →
     (∃ w1, handle_submit i w = Some w1 ∧ tallies (w_quiz w1) = tallies (w_quiz w)) ∧
     (∃ w2, handle_show_answer i w = Some w2 ∧ tallies (w_quiz w2) = tallies (w_quiz w))) ∧
  (∀ w i card,
     w_flashcards w !! i = Some card →
     original_index card ∉ used_questions (w_quiz w) →
     ∃ w1 w2 w3 w4,
       handle_submit i w = Some w1 ∧ handle_show_answer i w1 = Some w2 ∧
       handle_show_answer i w = Some w3 ∧ handle_submit i w3 = Some w4 ∧
       tallies (w_quiz w2) = tallies (w_quiz w1) ∧
       tallies (w_quiz w4) = tallies (w_quiz w3) ∧
       (∀ wk, wk = w1 ∨ wk = w3 →
          correct_count (w_quiz wk) + incorrect_count (w_quiz wk) =
            correct_count (w_quiz w) + incorrect_count (w_quiz w) + 1 ∧
          length (correct_questions (w_quiz wk)) + length (incorrect_questions (w_quiz wk)) =
            length (correct_questions (w_quiz w)) + length (incorrect_questions (w_quiz w)) + 1)).
Proof.
  split.
  - intros w i card Hcard Hused. split.
    + exists (st_rerun (with_quiz (submit_card card (w_quiz w)) w)).
      split; [unfold handle_submit; rewrite Hcard; reflexivity|].
      cbn [w_quiz st_rerun with_rerun with_quiz]. by apply submit_card_used.
    + exists (st_rerun (with_quiz (show_answer_card card (w_quiz w)) w)).
      split; [unfold handle_show_answer; rewrite Hcard; reflexivity|].
      cbn [w_quiz st_rerun with_rerun with_quiz]. by apply show_answer_card_used.
  - intros w i card Hcard Hfresh.
    set (w1 := st_rerun (with_quiz (submit_card card (w_quiz w)) w)).
    set (w3 := st_rerun (with_quiz (show_answer_card card (w_quiz w)) w)).
    exists w1, (st_rerun (with_quiz (show_answer_card card (w_quiz w1)) w1)),
           w3, (st_rerun (with_quiz (submit_card card (w_quiz w3)) w3)).
    assert (Hs : ∀ v, w_flashcards v = w_flashcards w →
                      handle_submit i v = Some (st_rerun (with_quiz (submit_card card (w_quiz v)) v)))
      by (intros v Hv; unfold handle_submit; rewrite Hv, Hcard; reflexivity).
    assert (Hr : ∀ v, w_flashcards v = w_flashcards w →
                      handle_show_answer i v =
                        Some (st_rerun (with_quiz (show_answer_card card (w_quiz v)) v)))
      by (intros v Hv; unfold handle_show_answer; rewrite Hv, Hcard; reflexivity).
    split; [by apply Hs|]. split; [by apply Hr|].
    split; [by apply Hr|]. split; [by apply Hs|].
    subst w1 w3. cbn [w_quiz st_rerun with_rerun with_quiz].
    split; [apply show_answer_card_used, submit_card_marks_used|].
    split; [apply submit_card_used, show_answer_card_marks_used|].
    intros wk [->| ->]; cbn [w_quiz st_rerun with_rerun with_quiz].
    + destruct (check_answer (user_selected_option (w_quiz w)) (correct_option_letter card))
        eqn:Hc.
      * destruct (submit_card_fresh_correct card _ Hfresh Hc) as (E1&E2&E3&E4&_).
        rewrite E1, E2, E3, E4, length_app. cbn. lia.
      * destruct (submit_card_fresh_incorrect card _ Hfresh Hc) as (E1&E2&E3&E4&_).
        rewrite E1, E2, E3, E4, length_app. cbn. lia.
    + destruct (show_answer_card_fresh card _ Hfresh) as (E1&E2&E3&E4&_).
      rewrite E1, E2, E3, E4, length_app. cbn. lia.
Qed.

Lemma C6_no_double_counting_witness :
  (w_flashcards sample_resolved !! 0 = Some sample_card ∧
   original_index sample_card ∈ used_questions (w_quiz sample_resolved) ∧
   ∃ w2, handle_show_answer 0 sample_resolved = Some w2 ∧
         tallies (w_quiz w2) = tallies (w_quiz sample_resolved)) ∧
  (w_flashcards (sample_question_shown (Some 1)) !! 0 = Some sample_card ∧
   (original_index sample_card ∉ used_questions (w_quiz (sample_question_shown (Some 1)))) ∧
   ∃ w1 w2, handle_submit 0 (sample_question_shown (Some 1)) = Some w1 ∧
            handle_show_answer 0 w1 = Some w2 ∧
            tallies (w_quiz w2) = tallies (w_quiz w1)).
Proof.
  assert (H1 : w_flashcards sample_resolved !! 0 = Some sample_card)
    by (vm_compute; reflexivity).
  assert (H2 : original_index sample_card ∈ used_questions (w_quiz sample_resolved))
    by by_compute.
  assert (H3 : w_flashcards (sample_question_shown (Some 1)) !! 0 = Some sample_card)
    by (vm_compute; reflexivity).
  assert (H4 : original_index sample_card
                 ∉ used_questions (w_quiz (sample_question_shown (Some 1))))
    by by_compute.
  split.
  - split; [exact H1|]. split; [exact H2|].
    exact (proj2 (proj1 C6_no_double_counting _ 0 sample_card H1 H2)).
  - split; [exact H3|]. split; [exact H4|].
    destruct (proj2 C6_no_double_counting _ 0 sample_card H3 H4)
      as (w1&w2&w3&w4&Ha&Hb&_&_&Hc&_).
    exists w1, w2. split; [exact Ha|]. split; [exact Hb|exact Hc].
Defined.

Lemma user_answer_text_of_valid card letter text :
  letter ∈ valid_letters → options card !! letter = Some text →
  user_answer_text_of card (Some letter) = text.
Proof.
  intros Hl Ho. unfold user_answer_text_of. rewrite Ho.
  unfold valid_letters in Hl.
  repeat (apply elem_of_cons in Hl as [->|Hl]; [done|]).
  by apply elem_of_nil in Hl.
Qed.

(** C7: show answer on a question not yet used records one incorrect
    resolution: the incorrect count grows by one, the last outcome is
    incorrect, the index joins the used set, and the entry appended to the
    incorrect list carries as user answer the option text of the pending
    selection when that is one of the option letters, and the text
    No answer when nothing is selected; so revealing right after the
    question is drawn, with no selection made, logs No answer. *)
Theorem C7_reveal_logs_pending_selection :
  (∀ w i card,
     w_flashcards w !! i = Some card →
     original_index card ∉ used_questions (w_quiz w) →
     ∃ w' your,
       handle_show_answer i w = Some w' ∧
       incorrect_count (w_quiz w') = incorrect_count (w_quiz w) + 1 ∧
       correct_count (w_quiz w') = correct_count (w_quiz w) ∧
       correct_questions (w_quiz w') = correct_questions (w_quiz w) ∧
       incorrect_questions (w_quiz w') =
         incorrect_questions (w_quiz w) ++
           [{| ie_question := question card;
               ie_correct_answer := correct_answer_text card;
               ie_your_answer := your |}] ∧
       last_answer_correct (w_quiz w') = Some false ∧
       used_questions (w_quiz w') = {[original_index card]} ∪ used_questions (w_quiz w) ∧
       (user_selected_option (w_quiz w) = None → your = "No answer") ∧
       (∀ letter text,
          user_selected_option (w_quiz w) = Some letter →
          letter ∈ valid_letters → options card !! letter = Some text →
          your = text)) ∧
  incorrect_questions
    (w_quiz (run_session [idle "ann"; press "ann" None ClickShowAnswer ""]
               (started_world (Some "ann") sample_bank []))) =
    [{| ie_question := "Capital of Italy?";
        ie_correct_answer := "Rome";
        ie_your_answer := "No answer" |}].
Proof.
  split; [|vm_compute; reflexivity].
  intros w i card Hcard Hfresh.
  exists (st_rerun (with_quiz (show_answer_card card (w_quiz w)) w)),
         (user_answer_text_of card (user_selected_option (w_quiz w))).
  split; [unfold handle_show_answer; rewrite Hcard; reflexivity|].
  cbn [w_quiz st_rerun with_rerun with_quiz].
  destruct (show_answer_card_fresh card _ Hfresh) as (E1&E2&E3&E4&Hu&Hl).
  repeat split; try done.
  - by intros ->.
  - intros letter text -> Hv Ho. by apply user_answer_text_of_valid.
Qed.

Lemma C7_reveal_witness :
  w_flashcards (sample_question_shown (Some 1)) !! 0 = Some sample_card ∧
  (original_index sample_card ∉ used_questions (w_quiz (sample_question_shown (Some 1)))) ∧
  user_selected_option (w_quiz (sample_question_shown (Some 1))) = Some "B" ∧
  "B" ∈ valid_letters ∧ options sample_card !! "B" = Some "Milan" ∧
  ∃ w', handle_show_answer 0 (sample_question_shown (Some 1)) = Some w' ∧
        incorrect_count (w_quiz w') = 1 ∧
        incorrect_questions (w_quiz w') =
          [{| ie_question := "Capital of Italy?";
              ie_correct_answer := "Rome";
              ie_your_answer := "Milan" |}].
Proof.
  assert (H1 : w_flashcards (sample_question_shown (Some 1)) !! 0 = Some sample_card)
    by (vm_compute; reflexivity).
  assert (H2 : original_index sample_card
                 ∉ used_questions (w_quiz (sample_question_shown (Some 1))))
    by by_compute.
  assert (H3 : user_selected_option (w_quiz (sample_question_shown (Some 1))) = Some "B")
    by (vm_compute; reflexivity).
  assert (H4 : "B" ∈ valid_letters) by by_compute.
  assert (H5 : options sample_card !! "B" = Some "Milan") by (vm_compute; reflexivity).
  split; [exact H1|]. split; [exact H2|]. split; [exact H3|].
  split; [exact H4|]. split; [exact H5|].
  destruct (proj1 C7_reveal_logs_pending_selection _ 0 sample_card H1 H2)
    as (w'&your&Hs&Hn&_&_&Hlog&_&_&_&Hsel).
  exists w'. split; [exact Hs|]. split; [exact Hn|].
  rewrite Hlog, (Hsel "B" "Milan" H3 H4 H5). reflexivity.
Defined.

(** C10: submit on a question whose original index is already in the used
    set leaves the two counts, the two review lists and the used set as
    they are, and still stores as last outcome the fresh evaluation of the
    pending selection; a second submit with another selection can thus turn
    a correct outcome into an incorrect one with no tally changed. *)
Theorem C10_resubmit_overwrites_outcome_only :
  (∀ w i card,
     w_flashcards w !! i = Some card →
     original_index card ∈ used_questions (w_quiz w) →
     ∃ w', handle_submit i w = Some w' ∧
           tallies (w_quiz w') = tallies (w_quiz w) ∧
           used_questions (w_quiz w') = used_questions (w_quiz w) ∧
           last_answer_correct (w_quiz w') =
             Some (check_answer (user_selected_option (w_quiz w))
                     (correct_option_letter card))) ∧
  (∃ w', handle_submit 0 sample_reselected = Some w' ∧
         last_answer_correct (w_quiz sample_reselected) = Some true ∧
         last_answer_correct (w_quiz w') = Some false ∧
         tallies (w_quiz w') = tallies (w_quiz sample_reselected) ∧
         used_questions (w_quiz w') = used_questions (w_quiz sample_reselected)).
Proof.
  assert (Hgen : ∀ w i card,
     w_flashcards w !! i = Some card →
     original_index card ∈ used_questions (w_quiz w) →
     ∃ w', handle_submit i w = Some w' ∧
           tallies (w_quiz w') = tallies (w_quiz w) ∧
           used_questions (w_quiz w') = used_questions (w_quiz w) ∧
           last_answer_correct (w_quiz w') =
             Some (check_answer (user_selected_option (w_quiz w))
                     (correct_option_letter card))).
  { intros w i card Hcard Hused.
    exists (st_rerun (with_quiz (submit_card card (w_quiz w)) w)).
    split; [unfold handle_submit; rewrite Hcard; reflexivity|].
    cbn [w_quiz st_rerun with_rerun with_quiz]. by apply submit_card_used. }
  split; [exact Hgen|].
  assert (H1 : w_flashcards sample_reselected !! 0 = Some sample_card)
    by (vm_compute; reflexivity).
  assert (H2 : original_index sample_card ∈ used_questions (w_quiz sample_reselected))
    by by_compute.
  destruct (Hgen _ 0 sample_card H1 H2) as (w'&Hs&Ht&Hu&Hl).
  exists w'. repeat split; try done.
Qed.

Lemma C10_resubmit_witness :
  w_flashcards sample_reselected !! 0 = Some sample_card ∧
  original_index sample_card ∈ used_questions (w_quiz sample_reselected) ∧
  ∃ w', handle_submit 0 sample_reselected = Some w' ∧
        tallies (w_quiz w') = tallies (w_quiz sample_reselected) ∧
        last_answer_correct (w_quiz w') = Some false.
Proof.
  assert (H1 : w_flashcards sample_reselected !! 0 = Some sample_card)
    by (vm_compute; reflexivity).
  assert (H2 : original_index sample_card ∈ used_questions (w_quiz sample_reselected))
    by by_compute.
  split; [exact H1|]. split; [exact H2|].
  destruct (proj1 C10_resubmit_overwrites_outcome_only _ 0 sample_card H1 H2)
    as (w'&Hs&Ht&_&Hl).
  exists w'. split; [exact Hs|]. split; [exact Ht|]. rewrite Hl. reflexivity.
Defined.

(** ** C2: the session invariant *)

Lemma size_add_fresh (x : nat) (s : gset nat) : x ∉ s → size ({[x]} ∪ s) = S (size s).
Proof.
  intros H. rewrite size_union by (by apply disjoint_singleton_l).
  by rewrite size_singleton.
Qed.

(** The invariant only reads the counts and the used set. *)
Lemma session_inv_ext flashcards quiz_data quiz_data' :
  correct_count quiz_data' = correct_count quiz_data →
  incorrect_count quiz_data' = incorrect_count quiz_data →
  used_questions quiz_data' = used_questions quiz_data →
  session_inv flashcards quiz_data → session_inv flashcards quiz_data'.
Proof. unfold session_inv. by intros -> -> ->. Qed.

Lemma session_inv_default flashcards : session_inv flashcards _get_default_quiz_state.
Proof.
  split; cbn; [by rewrite size_empty|]. intros x Hx. by apply not_elem_of_empty in Hx.
Qed.

Lemma session_inv_resolve flashcards card quiz_data quiz_data' :
  card ∈ flashcards →
  original_index card ∉ used_questions quiz_data →
  correct_count quiz_data' + incorrect_count quiz_data' =
    correct_count quiz_data + incorrect_count quiz_data + 1 →
  used_questions quiz_data' = {[original_index card]} ∪ used_questions quiz_data →
  session_inv flashcards quiz_data → session_inv flashcards quiz_data'.
Proof.
  intros Hcard Hfresh Hcount Hused [Hsize Hsub]. split.
  - rewrite Hcount, Hused, size_add_fresh by done. lia.
  - rewrite Hused. intros x [->%elem_of_singleton|Hx]%elem_of_union; eauto.
Qed.

Lemma submit_card_inv flashcards card quiz_data :
  card ∈ flashcards →
  session_inv flashcards quiz_data → session_inv flashcards (submit_card card quiz_data).
Proof.
  intros Hcard Hinv.
  destruct (decide (original_index card ∈ used_questions quiz_data)) as [Hused|Hfresh].
  - destruct (submit_card_used card quiz_data Hused) as (Ht&Hu&_).
    apply tallies_inv in Ht as (E1&E2&_). by eapply session_inv_ext.
  - destruct (check_answer (user_selected_option quiz_data) (correct_option_letter card))
      eqn:Hc.
    + destruct (submit_card_fresh_correct card quiz_data Hfresh Hc) as (E1&E2&_&_&Hu&_).
      eapply session_inv_resolve; [done..| |done|done]. lia.
    + destruct (submit_card_fresh_incorrect card quiz_data Hfresh Hc) as (E1&E2&_&_&Hu&_).
      eapply session_inv_resolve; [done..| |done|done]. lia.
Qed.

Lemma show_answer_card_inv flashcards card quiz_data :
  card ∈ flashcards →
  session_inv flashcards quiz_data → session_inv flashcards (show_answer_card card quiz_data).
Proof.
  intros Hcard Hinv.
  destruct (decide (original_index card ∈ used_questions quiz_data)) as [Hused|Hfresh].
  - destruct (show_answer_card_used card quiz_data Hused) as (Ht&Hu&_).
    apply tallies_inv in Ht as (E1&E2&_). by eapply session_inv_ext.
  - destruct (show_answer_card_fresh card quiz_data Hfresh) as (E1&E2&_&_&Hu&_).
    eapply session_inv_resolve; [done..| |done|done]. lia.
Qed.

(** The operations of a session keep the bank and the invariant. *)
Lemma start_quiz_inv w : world_inv (start_quiz w) ∧ w_flashcards (start_quiz w) = w_flashcards w.
Proof. split; [apply session_inv_default|done]. Qed.

Lemma handle_submit_inv i w w' :
  handle_submit i w = Some w' → world_inv w →
  world_inv w' ∧ w_flashcards w' = w_flashcards w.
Proof.
  unfold handle_submit. destruct (w_flashcards w !! i) as [card|] eqn:Hcard; [|done].
  cbn. intros [= <-] Hinv. split; [|done].
  apply submit_card_inv; [|done]. by eapply list_elem_of_lookup_2.
Qed.

Lemma handle_show_answer_inv i w w' :
  handle_show_answer i w = Some w' → world_inv w →
  world_inv w' ∧ w_flashcards w' = w_flashcards w.
Proof.
  unfold handle_show_answer. destruct (w_flashcards w !! i) as [card|] eqn:Hcard; [|done].
  cbn. intros [= <-] Hinv. split; [|done].
  apply show_answer_card_inv; [|done]. by eapply list_elem_of_lookup_2.
Qed.

Lemma handle_next_question_inv w :
  world_inv w →
  world_inv (handle_next_question w) ∧ w_flashcards (handle_next_question w) = w_flashcards w.
Proof. intros Hinv. split; [|done]. by eapply session_inv_ext. Qed.

Lemma record_quiz_attempt_quiz now w :
  w_quiz (record_quiz_attempt now w) = w_quiz w ∧
  w_flashcards (record_quiz_attempt now w) = w_flashcards w ∧
  w_current (record_quiz_attempt now w) = w_current w ∧
  w_user (record_quiz_attempt now w) = w_user w.
Proof. unfold record_quiz_attempt. by destruct (_ || _). Qed.

Lemma main_user_same name w :
  w_quiz (main_user name w) = w_quiz w ∧
  w_flashcards (main_user name w) = w_flashcards w ∧
  w_current (main_user name w) = w_current w ∧
  w_results (main_user name w) = w_results w.
Proof. unfold main_user. by destruct (w_user w), (PyStr.truthy name). Qed.

Lemma main_finished_inv click now w :
  world_inv w →
  world_inv (main_finished click now w) ∧
  w_flashcards (main_finished click now w) = w_flashcards w.
Proof.
  intros Hinv. unfold main_finished.
  destruct (decide (click = ClickRestart)).
  { destruct (start_quiz_inv (with_view ViewResults w)). split; done. }
  cbn. destruct (results_recorded (w_quiz w)); [done|].
  destruct (record_quiz_attempt_quiz now (with_view ViewResults w)) as (Hq&Hf&_).
  unfold world_inv. cbn. rewrite Hq, Hf. cbn. split; [|done].
  by eapply session_inv_ext.
Qed.

Lemma select_current_inv rnd available w :
  world_inv w →
  world_inv (select_current rnd available w) ∧
  w_flashcards (select_current rnd available w) = w_flashcards w.
Proof.
  intros Hinv. unfold select_current. destruct (w_current w); [done|].
  split; [|done]. by eapply session_inv_ext.
Qed.

Lemma main_question_inv click radio rnd available w :
  world_inv w →
  world_inv (main_question click radio rnd available w) ∧
  w_flashcards (main_question click radio rnd available w) = w_flashcards w.
Proof.
  intros Hinv. unfold main_question.
  destruct (select_current_inv rnd available w Hinv) as [Hinv1 Hf1].
  destruct (w_current (select_current rnd available w)) as [i|]; [|done].
  destruct (w_flashcards (select_current rnd available w) !! i) as [card|]; [|done].
  unfold display_question.
  set (w1 := with_view _ _).
  assert (Hinv2 : world_inv w1) by (by eapply session_inv_ext).
  assert (Hf2 : w_flashcards w1 = w_flashcards w) by done.
  destruct (_ || _).
  - destruct (decide (click = ClickNext)); [|done].
    destruct (handle_next_question_inv w1 Hinv2) as [? ?]. split; [done|congruence].
  - destruct (decide (click = ClickSubmit)).
    + destruct (_ <$> _); [|done].
      destruct (handle_submit i w1) as [w2|] eqn:E; [|done].
      destruct (handle_submit_inv _ _ _ E Hinv2) as [? ?]. split; [done|]. cbn. congruence.
    + destruct (decide (click = ClickShowAnswer)); [|done].
      destruct (handle_show_answer i w1) as [w2|] eqn:E; [|done].
      destruct (handle_show_answer_inv _ _ _ E Hinv2) as [? ?]. split; [done|]. cbn. congruence.
Qed.

Lemma main_inv ui w :
  world_inv w →
  world_inv (main ui w) ∧ w_flashcards (main ui w) = w_flashcards w.
Proof.
  intros Hinv. unfold main.
  set (click := if w_rerun w then NoClick else ui_click ui).
  set (w0 := with_view ViewNothing (with_rerun false w)).
  destruct (main_user_same (ui_user_name ui) w0) as (Hq&Hf&_).
  assert (Hinv1 : world_inv (main_user (ui_user_name ui) w0)).
  { unfold world_inv. by rewrite Hq, Hf. }
  assert (Hf1 : w_flashcards (main_user (ui_user_name ui) w0) = w_flashcards w)
    by (by rewrite Hf).
  destruct (quiz_started _).
  - destruct (_ && _).
    { destruct (start_quiz_inv (main_user (ui_user_name ui) w0)). split; [done|congruence]. }
    destruct (bool_decide _).
    + destruct (main_finished_inv click (ui_now ui) _ Hinv1). split; [done|congruence].
    + destruct (main_question_inv click (ui_radio ui) (ui_random ui)
                  (available_indices (w_flashcards (main_user (ui_user_name ui) w0))
                     (used_questions (w_quiz (main_user (ui_user_name ui) w0))))
                  _ Hinv1).
      split; [done|congruence].
  - destruct (decide (click = ClickStart)).
    + destruct (start_quiz_inv (with_view ViewStartPrompt (main_user (ui_user_name ui) w0))).
      split; [done|]. cbn. congruence.
    + split; [|done]. done.
Qed.

Lemma run_session_inv inputs w :
  world_inv w →
  world_inv (run_session inputs w) ∧ w_flashcards (run_session inputs w) = w_flashcards w.
Proof.
  revert w. induction inputs as [|ui inputs IH]; intros w Hinv; [done|].
  change (run_session (ui :: inputs) w) with (run_session inputs (main ui w)).
  destruct (main_inv ui w Hinv) as [H1 H2].
  destruct (IH _ H1) as [H3 H4]. split; [done|congruence].
Qed.

(** C2: in every session, that is from the state a loaded bank starts in
    and after any sequence of runs of the script (start, restart, radio
    selection, submit, show answer, next), the bank is unchanged, the two
    counts add up to the size of the used set, and every used index is the
    original index of a question of the bank; and each single operation
    (start, selecting an answer, submit, show answer, next) keeps these
    facts true. *)
Theorem C2_counts_match_used_set :
  (∀ user flashcards results inputs,
     let w := run_session inputs (loaded_world user flashcards results) in
     w_flashcards w = flashcards ∧
     correct_count (w_quiz w) + incorrect_count (w_quiz w) = size (used_questions (w_quiz w)) ∧
     ∀ x, x ∈ used_questions (w_quiz w) → ∃ q, q ∈ flashcards ∧ original_index q = x) ∧
  (∀ w w' i selection,
     world_inv w →
     w' = start_quiz w ∨
     w' = with_quiz (set_user_selected_option selection (w_quiz w)) w ∨
     handle_submit i w = Some w' ∨
     handle_show_answer i w = Some w' ∨
     w' = handle_next_question w →
     w_flashcards w' = w_flashcards w ∧
     correct_count (w_quiz w') + incorrect_count (w_quiz w') =
       size (used_questions (w_quiz w')) ∧
     ∀ x, x ∈ used_questions (w_quiz w') →
          ∃ q, q ∈ w_flashcards w' ∧ original_index q = x).
Proof.
  split.
  - intros user flashcards results inputs w.
    assert (Hinit : world_inv (loaded_world user flashcards results)).
    { split; cbn; [by rewrite size_empty|]. intros x Hx. by apply not_elem_of_empty in Hx. }
    destruct (run_session_inv inputs _ Hinit) as [[Hsize Hsub] Hf].
    fold w in Hsize, Hsub, Hf. cbn in Hf. rewrite Hf in Hsub. done.
  - intros w w' i selection Hinv Hop.
    assert (world_inv w' ∧ w_flashcards w' = w_flashcards w) as [[Hsize Hsub] Hf].
    { destruct Hop as [->|[->|[Hs|[Hs| ->]]]].
      - apply start_quiz_inv.
      - split; [|done]. by eapply session_inv_ext.
      - by eapply handle_submit_inv.
      - by eapply handle_show_answer_inv.
      - by apply handle_next_question_inv. }
    done.
Qed.

Lemma C2_counts_match_used_set_witness :
  world_inv (sample_question_shown (Some 1)) ∧
  ∃ w', handle_show_answer 0 (sample_question_shown (Some 1)) = Some w' ∧
        correct_count (w_quiz w') + incorrect_count (w_quiz w') =
          size (used_questions (w_quiz w')) ∧
        size (used_questions (w_quiz w')) = 1.
Proof.
  assert (Hinv : world_inv (sample_question_shown (Some 1))).
  { split; [vm_compute; reflexivity|].
    intros x Hx. exfalso. revert Hx. apply not_elem_of_empty. }
  split; [exact Hinv|].
  exists (default (sample_question_shown (Some 1))
            (handle_show_answer 0 (sample_question_shown (Some 1)))).
  assert (Hs : handle_show_answer 0 (sample_question_shown (Some 1)) =
               Some (default (sample_question_shown (Some 1))
                       (handle_show_answer 0 (sample_question_shown (Some 1)))))
    by (vm_compute; reflexivity).
  split; [exact Hs|].
  split; [|vm_compute; reflexivity].
  exact (proj1 (proj2 (proj2 C2_counts_match_used_set _ _ 0 None Hinv
                         (or_intror (or_intror (or_intror (or_introl Hs))))))).
Defined.

(** ** C1: the draw of the next question *)

Lemma available_indices_spec flashcards (used : gset nat) i :
  i ∈ available_indices flashcards used ↔ i < length flashcards ∧ i ∉ used.
Proof.
  unfold available_indices. rewrite list_elem_of_filter, elem_of_seq. split.
  - intros [? ?]. split; [lia|done].
  - intros [? ?]. split; [done|lia].
Qed.

Lemma random_choice_elem rnd (l : list nat) :
  l ≠ [] → ∃ i, random_choice rnd l = Some i ∧ i ∈ l.
Proof.
  intros Hne. unfold random_choice.
  assert (Hlt : rnd mod length l < length l).
  { apply Nat.mod_upper_bound. destruct l; [done|]. cbn. lia. }
  destruct (lookup_lt_is_Some_2 l _ Hlt) as [i Hi].
  exists i. split; [done|]. by eapply list_elem_of_lookup_2.
Qed.

(** Every available position can come out of the draw. *)
Lemma random_choice_any (l : list nat) i :
  i ∈ l → ∃ rnd, random_choice rnd l = Some i.
Proof.
  intros [k Hk]%list_elem_of_lookup_1. exists k. unfold random_choice.
  rewrite Nat.mod_small; [done|]. by eapply lookup_lt_Some.
Qed.

(** On an aligned bank the draw picks a position whose question is not
    yet resolved, and an empty list of available positions means that
    every question is resolved. *)
Lemma draw_fresh_when_aligned rnd w :
  aligned (w_flashcards w) → w_current w = None →
  available_indices (w_flashcards w) (used_questions (w_quiz w)) ≠ [] →
  ∃ i q,
    w_current (select_current rnd
                 (available_indices (w_flashcards w) (used_questions (w_quiz w))) w) = Some i ∧
    w_flashcards w !! i = Some q ∧
    original_index q ∉ used_questions (w_quiz w).
Proof.
  intros Hal Hcur Hne. unfold select_current. rewrite Hcur. cbn.
  destruct (random_choice_elem rnd _ Hne) as (i&Hi&Hin).
  apply available_indices_spec in Hin as [Hlt Hfresh].
  destruct (lookup_lt_is_Some_2 _ _ Hlt) as [q Hq].
  exists i, q. split; [done|]. split; [done|]. by rewrite (Hal i q Hq).
Qed.

Lemma finished_when_aligned w :
  aligned (w_flashcards w) →
  available_indices (w_flashcards w) (used_questions (w_quiz w)) = [] →
  ∀ q, q ∈ w_flashcards w → original_index q ∈ used_questions (w_quiz w).
Proof.
  intros Hal Hnil q [i Hi]%list_elem_of_lookup_1.
  destruct (decide (original_index q ∈ used_questions (w_quiz w))) as [|Hout]; [done|].
  exfalso. rewrite (Hal i q Hi) in Hout.
  assert (Hin : i ∈ available_indices (w_flashcards w) (used_questions (w_quiz w))).
  { apply available_indices_spec. split; [by eapply lookup_lt_Some|done]. }
  rewrite Hnil in Hin. by apply elem_of_nil in Hin.
Qed.

(** A run shows the results only when no position is available. *)
Lemma main_question_view click radio rnd available w :
  w_view w ≠ ViewResults →
  w_view (main_question click radio rnd available w) ≠ ViewResults.
Proof.
  intros Hv. unfold main_question.
  assert (Hsel : w_view (select_current rnd available w) = w_view w).
  { unfold select_current. by destruct (w_current w). }
  destruct (w_current (select_current rnd available w)) as [i|]; [|by rewrite Hsel].
  destruct (w_flashcards (select_current rnd available w) !! i) as [card|] eqn:Hcard;
    [|by rewrite Hsel].
  unfold display_question.
  set (w1 := with_view _ _).
  assert (Hcard1 : w_flashcards w1 !! i = Some card) by exact Hcard.
  destruct (_ || _).
  - by destruct (decide (click = ClickNext)).
  - destruct (decide (click = ClickSubmit)).
    + destruct (_ <$> _); [|done].
      unfold handle_submit. rewrite Hcard1. done.
    + destruct (decide (click = ClickShowAnswer)); [|done].
      unfold handle_show_answer. rewrite Hcard1. done.
Qed.

Lemma main_view_results ui w :
  w_view (main ui w) = ViewResults →
  quiz_started (w_quiz w) = true ∧
  available_indices (w_flashcards w) (used_questions (w_quiz w)) = [].
Proof.
  unfold main.
  set (click := if w_rerun w then NoClick else ui_click ui).
  set (w0 := with_view ViewNothing (with_rerun false w)).
  destruct (main_user_same (ui_user_name ui) w0) as (Hq&Hf&_).
  assert (Hview : w_view (main_user (ui_user_name ui) w0) = ViewNothing).
  { unfold main_user. by destruct (w_user w0), (PyStr.truthy _). }
  rewrite Hq, Hf. cbn [w_quiz w_flashcards w0 with_view with_rerun].
  destruct (quiz_started (w_quiz w)).
  - destruct (bool_decide _) eqn:Hfin.
    + intros _. split; [done|]. by apply bool_decide_eq_true_1 in Hfin.
    + cbn [negb andb]. destruct (bool_decide (click = ClickRestart)).
      * cbn. by rewrite Hview.
      * intros Hres. exfalso. revert Hres. apply main_question_view. by rewrite Hview.
  - destruct (decide (click = ClickStart)); cbn; done.
Qed.

Lemma run_session_snoc inputs ui w :
  run_session (inputs ++ [ui]) w = main ui (run_session inputs w).
Proof. unfold run_session. by rewrite foldl_app. Qed.

Lemma started_world_inv user flashcards results :
  world_inv (started_world user flashcards results) ∧
  w_flashcards (started_world user flashcards results) = flashcards.
Proof. split; [apply session_inv_default|done]. Qed.

(** C1 fails on the code for a bank loaded from a file with a skipped row.
    The file [skipped_rows] has an invalid first row, so its only question
    sits at position 0 with original index 1.  After that question is
    revealed and the next button pressed, every question of the bank is
    resolved, yet position 0 is still available (the used set holds the
    original index 1, the available positions are computed from
    [range(len(flashcards))]): whatever the random number, the next run
    draws position 0 and shows the resolved question again, and no run of
    any session on this bank ever reaches the results page. *)
Theorem C1_skipped_row_draw_repeats :
  let w := run_session skipped_session (started_world (Some "ann") skipped_bank []) in
  map original_index skipped_bank = [1] ∧
  w_current w = None ∧
  used_questions (w_quiz w) = {[1]} ∧
  (∀ q, q ∈ skipped_bank → original_index q ∈ used_questions (w_quiz w)) ∧
  available_indices (w_flashcards w) (used_questions (w_quiz w)) = [0] ∧
  (∀ rnd, random_choice rnd
            (available_indices (w_flashcards w) (used_questions (w_quiz w))) = Some 0) ∧
  (let w' := main (idle "ann") w in
   w_current w' = Some 0 ∧ w_view w' = ViewQuestion 0 ∧
   ∃ q, w_flashcards w' !! 0 = Some q ∧ original_index q ∈ used_questions (w_quiz w')) ∧
  (∀ user results inputs,
     w_view (run_session inputs (started_world user skipped_bank results)) ≠ ViewResults).
Proof.
  intros w.
  assert (Hbank : map original_index skipped_bank = [1]) by (vm_compute; reflexivity).
  assert (Hused : used_questions (w_quiz w) = {[1]}) by (vm_compute; reflexivity).
  assert (Havail : available_indices (w_flashcards w) (used_questions (w_quiz w)) = [0])
    by (vm_compute; reflexivity).
  split; [exact Hbank|]. split; [vm_compute; reflexivity|]. split; [exact Hused|].
  split.
  { intros q Hq. rewrite Hused. apply elem_of_singleton.
    assert (Hin : original_index q ∈ map original_index skipped_bank)
      by (by apply list_elem_of_fmap_2).
    rewrite Hbank in Hin. by apply list_elem_of_singleton in Hin. }
  split; [exact Havail|]. split.
  { intros rnd. rewrite Havail. unfold random_choice. cbn [length].
    by rewrite Nat.mod_1_r. }
  split.
  { split; [vm_compute; reflexivity|]. split; [vm_compute; reflexivity|].
    exists (default sample_card (skipped_bank !! 0)).
    split; [vm_compute; reflexivity|]. by_compute. }
  intros user results inputs.
  induction inputs as [|ui inputs IH] using rev_ind; [discriminate|].
  rewrite run_session_snoc. intros Hres.
  apply main_view_results in Hres as [_ Hnil].
  destruct (started_world_inv user skipped_bank results) as [Hinv0 Hf0].
  destruct (run_session_inv inputs _ Hinv0) as [[_ Hsub] Hf].
  rewrite Hf0 in Hf.
  assert (Hin : 0 ∈ available_indices
                      (w_flashcards (run_session inputs (started_world user skipped_bank results)))
                      (used_questions
                         (w_quiz (run_session inputs (started_world user skipped_bank results))))).
  { apply available_indices_spec. rewrite Hf. split; [vm_compute; lia|].
    intros H0. destruct (Hsub 0 H0) as (q&Hq&Hidx). rewrite Hf in Hq.
    assert (Hin : original_index q ∈ map original_index skipped_bank)
      by (by apply list_elem_of_fmap_2).
    rewrite Hbank, Hidx in Hin. by apply list_elem_of_singleton in Hin. }
  rewrite Hnil in Hin. by apply elem_of_nil in Hin.
Qed.

(** The question branch shows the question at the current position. *)
Lemma main_question_shows click radio rnd available w i q :
  w_current (select_current rnd available w) = Some i →
  w_flashcards w !! i = Some q →
  w_view (main_question click radio rnd available w) = ViewQuestion i.
Proof.
  intros Hcur Hq. unfold main_question. rewrite Hcur.
  assert (Hf : w_flashcards (select_current rnd available w) = w_flashcards w).
  { unfold select_current. by destruct (w_current w). }
  rewrite Hf, Hq. unfold display_question.
  set (w1 := with_view _ _).
  assert (Hq1 : w_flashcards w1 !! i = Some q) by (subst w1; cbn; by rewrite Hf).
  destruct (_ || _).
  - by destruct (decide (click = ClickNext)).
  - destruct (decide (click = ClickSubmit)).
    + destruct (_ <$> _); [|done]. by rewrite (handle_submit_some _ _ _ Hq1).
    + destruct (decide (click = ClickShowAnswer)); [|done].
      by rewrite (handle_show_answer_some _ _ _ Hq1).
Qed.

(** On an aligned bank C1 holds: a run that has to draw offers a question
    not yet resolved, and a run that finds no position available shows the
    results and offers no question. *)
Lemma aligned_run_offers_fresh ui w :
  aligned (w_flashcards w) → quiz_started (w_quiz w) = true →
  w_current w = None → ui_click ui ≠ ClickRestart →
  (available_indices (w_flashcards w) (used_questions (w_quiz w)) ≠ [] →
   ∃ i q, w_view (main ui w) = ViewQuestion i ∧
          w_flashcards w !! i = Some q ∧
          original_index q ∉ used_questions (w_quiz w)) ∧
  (available_indices (w_flashcards w) (used_questions (w_quiz w)) = [] →
   w_view (main ui w) = ViewResults ∧
   ∀ q, q ∈ w_flashcards w → original_index q ∈ used_questions (w_quiz w)).
Proof.
  intros Hal Hst Hcur Hui. unfold main.
  set (click := if w_rerun w then NoClick else ui_click ui).
  assert (Hclick : click ≠ ClickRestart) by (subst click; by destruct (w_rerun w)).
  set (w0 := with_view ViewNothing (with_rerun false w)).
  destruct (main_user_same (ui_user_name ui) w0) as (Hq&Hf&Hc&_).
  set (w1 := main_user (ui_user_name ui) w0) in *.
  assert (Hq1 : w_quiz w1 = w_quiz w) by (by rewrite Hq).
  assert (Hf1 : w_flashcards w1 = w_flashcards w) by (by rewrite Hf).
  assert (Hc1 : w_current w1 = None) by (by rewrite Hc).
  rewrite Hq1, Hf1, Hst.
  rewrite (bool_decide_eq_false_2 (click = ClickRestart)) by done.
  rewrite andb_false_r. split.
  - intros Hne. rewrite bool_decide_eq_false_2 by done.
    assert (Hal1 : aligned (w_flashcards w1)) by (by rewrite Hf1).
    destruct (draw_fresh_when_aligned (ui_random ui) w1 Hal1 Hc1) as (i&q&Hi&Hqi&Hfresh).
    { by rewrite Hf1, Hq1. }
    rewrite Hf1, Hq1 in *. exists i, q. split; [|done].
    apply (main_question_shows _ _ _ _ _ i q); [done|by rewrite Hf1].
  - intros Hnil. rewrite bool_decide_eq_true_2 by done. split.
    + unfold main_finished. rewrite decide_False by done.
      cbn [w_quiz with_view]. destruct (results_recorded (w_quiz w1)); [done|].
      cbn [w_view with_quiz].
      unfold record_quiz_attempt. by destruct (_ || _).
    + by apply finished_when_aligned.
Qed.

(** ** C8, C9: recording of a finished attempt *)

Lemma submit_card_flags card quiz_data :
  results_recorded (submit_card card quiz_data) = results_recorded quiz_data ∧
  quiz_started (submit_card card quiz_data) = quiz_started quiz_data.
Proof.
  destruct (decide (original_index card ∈ used_questions quiz_data)) as [H|H];
    destruct quiz_data; unfold_handlers; cbn in *;
    destruct (check_answer _ _); cbn; decide_used H; done.
Qed.

Lemma show_answer_card_flags card quiz_data :
  results_recorded (show_answer_card card quiz_data) = results_recorded quiz_data ∧
  quiz_started (show_answer_card card quiz_data) = quiz_started quiz_data.
Proof.
  destruct (decide (original_index card ∈ used_questions quiz_data)) as [H|H];
    destruct quiz_data; unfold_handlers; cbn in *; decide_used H; done.
Qed.

Lemma select_current_record_state rnd available w :
  record_state (select_current rnd available w) = record_state w.
Proof. unfold select_current. by destruct (w_current w). Qed.

(** The question branch never touches the results file or the two flags. *)
Lemma main_question_record_state click radio rnd available w :
  record_state (main_question click radio rnd available w) = record_state w.
Proof.
  unfold main_question.
  pose proof (select_current_record_state rnd available w) as Hsel.
  destruct (w_current (select_current rnd available w)) as [i|]; [|done].
  destruct (w_flashcards (select_current rnd available w) !! i) as [card|] eqn:Hcard;
    [|done].
  unfold display_question.
  set (w1 := with_view _ _).
  assert (Hcard1 : w_flashcards w1 !! i = Some card) by exact Hcard.
  assert (H1 : record_state w1 = record_state w) by (rewrite <- Hsel; done).
  destruct (_ || _).
  - destruct (decide (click = ClickNext)); [|done]. rewrite <- H1. done.
  - destruct (decide (click = ClickSubmit)).
    + destruct (_ <$> _); [|done].
      rewrite (handle_submit_some _ _ _ Hcard1). cbn [from_option id].
      rewrite <- H1. unfold record_state, id. cbn [w_quiz w_results st_rerun with_rerun with_quiz].
      by destruct (submit_card_flags card (w_quiz w1)) as [-> ->].
    + destruct (decide (click = ClickShowAnswer)); [|done].
      rewrite (handle_show_answer_some _ _ _ Hcard1). cbn [from_option id].
      rewrite <- H1. unfold record_state, id. cbn [w_quiz w_results st_rerun with_rerun with_quiz].
      by destruct (show_answer_card_flags card (w_quiz w1)) as [-> ->].
Qed.

(** [record_quiz_attempt] appends one row or, for an unusable user name,
    leaves the state as it is. *)
Lemma record_quiz_attempt_unusable now w :
  unusable_user (w_user w) → record_quiz_attempt now w = w.
Proof. unfold record_quiz_attempt. by intros [->|[->| ->]]. Qed.

Lemma record_quiz_attempt_usable now w user :
  w_user w = Some user → user ≠ "" → user ≠ "Unknown" →
  w_results (record_quiz_attempt now w) =
    w_results w ++
      [{| Timestamp := now;
          User := user;
          CorrectCount := correct_count (w_quiz w);
          IncorrectCount := incorrect_count (w_quiz w);
          TotalQuestions := length (w_flashcards w);
          IncorrectDetails := incorrect_questions_str (incorrect_questions (w_quiz w)) |}].
Proof.
  intros Hu Hne Hnu. unfold record_quiz_attempt. rewrite Hu. cbn [default].
  destruct user as [|c s]; [done|]. cbn [PyStr.truthy negb orb].
  by rewrite bool_decide_eq_false_2.
Qed.

Lemma record_quiz_attempt_results now w :
  w_results (record_quiz_attempt now w) = w_results w ∨
  ∃ rec, w_results (record_quiz_attempt now w) = w_results w ++ [rec].
Proof. unfold record_quiz_attempt. destruct (_ || _); [by left|right; by eexists]. Qed.

Lemma main_finished_record click now w :
  click ≠ ClickRestart →
  quiz_started (w_quiz (main_finished click now w)) = quiz_started (w_quiz w) ∧
  results_recorded (w_quiz (main_finished click now w)) = true ∧
  (results_recorded (w_quiz w) = true →
   w_results (main_finished click now w) = w_results w) ∧
  (w_results (main_finished click now w) = w_results w ∨
   ∃ rec, w_results (main_finished click now w) = w_results w ++ [rec]).
Proof.
  intros Hclick. unfold main_finished. rewrite decide_False by done.
  cbn [w_quiz with_view].
  destruct (results_recorded (w_quiz w)) eqn:Hflag.
  - cbn. repeat split; try done. by left.
  - destruct (record_quiz_attempt_quiz now (with_view ViewResults w)) as (Hq&_).
    cbn [w_quiz with_quiz w_results]. rewrite Hq. cbn.
    repeat split; try done.
    apply (record_quiz_attempt_results now (with_view ViewResults w)).
Qed.

(** The effect of one run, restart apart, on the recording state: a set
    flag freezes the results file; a flag still clear after the run means
    that nothing was appended; a flag set by the run comes with at most one
    appended row. *)
Lemma main_record ui w :
  ui_click ui ≠ ClickRestart →
  (results_recorded (w_quiz w) = true → quiz_started (w_quiz w) = true →
   record_state (main ui w) = record_state w) ∧
  (results_recorded (w_quiz (main ui w)) = false →
   w_results (main ui w) = w_results w) ∧
  (results_recorded (w_quiz (main ui w)) = true →
   results_recorded (w_quiz w) = false →
   quiz_started (w_quiz (main ui w)) = true ∧
   (w_results (main ui w) = w_results w ∨
    ∃ rec, w_results (main ui w) = w_results w ++ [rec])).
Proof.
  intros Hui. unfold main.
  set (click := if w_rerun w then NoClick else ui_click ui).
  assert (Hclick : click ≠ ClickRestart) by (subst click; by destruct (w_rerun w)).
  set (w0 := with_view ViewNothing (with_rerun false w)).
  destruct (main_user_same (ui_user_name ui) w0) as (Hq&Hf&_&Hr).
  set (w1 := main_user (ui_user_name ui) w0) in *.
  assert (Hq1 : w_quiz w1 = w_quiz w) by (by rewrite Hq).
  assert (Hr1 : w_results w1 = w_results w) by (by rewrite Hr).
  assert (Hs1 : record_state w1 = record_state w)
    by (unfold record_state; by rewrite Hq1, Hr1).
  rewrite Hq1.
  destruct (quiz_started (w_quiz w)) eqn:Hstarted.
  - rewrite (bool_decide_eq_false_2 (click = ClickRestart)) by done.
    rewrite andb_false_r.
    destruct (bool_decide _).
    + destruct (main_finished_record click (ui_now ui) w1 Hclick) as (Hst&Hfl&Hkeep&Happ).
      rewrite Hq1, Hr1 in *. split; [|split].
      * intros Hflag _. unfold record_state. by rewrite Hfl, Hst, Hstarted, Hflag, Hkeep.
      * intros Hflag. congruence.
      * intros _ _. split; [congruence|done].
    + pose proof (main_question_record_state click (ui_radio ui) (ui_random ui)
                    (available_indices (w_flashcards w1) (used_questions (w_quiz w))) w1)
        as Hmq.
      rewrite Hs1 in Hmq. unfold record_state in Hmq.
      injection Hmq as Hmq1 Hmq2 Hmq3. split; [|split].
      * intros _ _. unfold record_state. by rewrite Hmq1, Hmq2, Hmq3.
      * done.
      * intros Hfl Hflag. congruence.
  - split; [done|]. destruct (decide (click = ClickStart)).
    + cbn. split; [done|]. done.
    + cbn [w_quiz w_results with_view]. rewrite Hq1, Hr1. split; [done|].
      intros Hfl Hflag. congruence.
Qed.

(** From a loaded bank, any sequence of runs without a restart appends at
    most one row to the results file, and only with the flag set. *)
Lemma run_session_one_append inputs w results :
  Forall (λ ui, ui_click ui ≠ ClickRestart) inputs →
  (results_recorded (w_quiz w) = false ∧ w_results w = results) ∨
  (results_recorded (w_quiz w) = true ∧ quiz_started (w_quiz w) = true ∧
   (w_results w = results ∨ ∃ rec, w_results w = results ++ [rec])) →
  (results_recorded (w_quiz (run_session inputs w)) = false ∧
   w_results (run_session inputs w) = results) ∨
  (results_recorded (w_quiz (run_session inputs w)) = true ∧
   quiz_started (w_quiz (run_session inputs w)) = true ∧
   (w_results (run_session inputs w) = results ∨
    ∃ rec, w_results (run_session inputs w) = results ++ [rec])).
Proof.
  intros Hall. revert w. induction Hall as [|ui inputs Hui _ IH]; intros w HK; [done|].
  change (run_session (ui :: inputs) w) with (run_session inputs (main ui w)).
  apply IH. destruct (main_record ui w Hui) as (Hfrozen&Hclear&Hset).
  destruct (results_recorded (w_quiz (main ui w))) eqn:Hfl'.
  - right. destruct HK as [[Hfl Hres]|(Hfl&Hst&Hres)].
    + destruct (Hset eq_refl Hfl) as [Hst' Happ]. rewrite Hres in Happ. done.
    + specialize (Hfrozen Hfl Hst). unfold record_state in Hfrozen.
      injection Hfrozen as _ Hst' Hres'. rewrite Hst', Hres'. done.
  - left. split; [done|]. rewrite (Hclear eq_refl).
    destruct HK as [[Hfl Hres]|(Hfl&Hst&Hres)]; [done|].
    specialize (Hfrozen Hfl Hst). unfold record_state in Hfrozen.
    injection Hfrozen as Hfl'' _ _. congruence.
Qed.

(** Once the flag is set, later runs without a restart leave the results
    file as it is. *)
Lemma run_session_frozen inputs w :
  Forall (λ ui, ui_click ui ≠ ClickRestart) inputs →
  results_recorded (w_quiz w) = true → quiz_started (w_quiz w) = true →
  record_state (run_session inputs w) = record_state w.
Proof.
  intros Hall. revert w. induction Hall as [|ui inputs Hui _ IH]; intros w Hfl Hst; [done|].
  change (run_session (ui :: inputs) w) with (run_session inputs (main ui w)).
  destruct (main_record ui w Hui) as (Hfrozen&_).
  specialize (Hfrozen Hfl Hst). rewrite <- Hfrozen.
  unfold record_state in Hfrozen. injection Hfrozen as Hfl' Hst' _.
  apply IH; congruence.
Qed.

Lemma mem_append c (a b : string) :
  PyStr.mem c (a +:+ b) = PyStr.mem c a || PyStr.mem c b.
Proof.
  induction a as [|d a IH]; [done|].
  change (String d a +:+ b) with (String d (a +:+ b)). cbn [PyStr.mem].
  by destruct (Ascii.eqb c d).
Qed.

Lemma split_char_absent c (s : string) :
  PyStr.mem c s = false → PyStr.split_char c s = [s].
Proof.
  induction s as [|d s IH]; [done|]. cbn [PyStr.mem PyStr.split_char].
  rewrite Ascii.eqb_sym. destruct (Ascii.eqb d c); [done|].
  intros H. by rewrite (IH H).
Qed.

Lemma format_incorrect_semicolon_free item :
  PyStr.mem ";" (ie_question item) = false →
  PyStr.mem ";" (ie_correct_answer item) = false →
  PyStr.mem ";" (ie_your_answer item) = false →
  PyStr.mem ";" (format_incorrect item) = false.
Proof.
  intros Hq Ha Hy. unfold format_incorrect.
  rewrite !mem_append, Hq, Ha, Hy. reflexivity.
Qed.

(** C8, as stated, fails for the last part: with one question missed, the
    details string is one entry, yet it is not free of semicolons when the
    question text holds one.  On the two-question file [semicolon_rows],
    with one correct and one incorrect answer, the record has the counts
    1, 1 and 2 and its details split at the semicolon into two segments. *)
Lemma C8_semicolon_counterexample :
  let w := run_session (finishing_session "ann" ++ [final_run "ann"])
             (started_world (Some "ann") semicolon_bank []) in
  length semicolon_bank = 2 ∧
  length (incorrect_questions (w_quiz w)) = 1 ∧
  ∃ rec, w_results w = [rec] ∧
         CorrectCount rec = 1 ∧ IncorrectCount rec = 1 ∧ TotalQuestions rec = 2 ∧
         IncorrectDetails rec = "Q: Veni; vidi? | A: vici | Your: No answer" ∧
         PyStr.mem ";" (IncorrectDetails rec) = true ∧
         PyStr.split_char ";" (IncorrectDetails rec) =
           ["Q: Veni"; " vidi? | A: vici | Your: No answer"].
Proof.
  intros w. split; [vm_compute; reflexivity|]. split; [vm_compute; reflexivity|].
  exists {| Timestamp := "2026-11-04T12:00:00"; User := "ann";
            CorrectCount := 1; IncorrectCount := 1; TotalQuestions := 2;
            IncorrectDetails := "Q: Veni; vidi? | A: vici | Your: No answer" |}.
  repeat split; vm_compute; reflexivity.
Qed.

(** C8 (amended): in a session, that is from a state with the recorded
    flag clear (a bank just loaded, a quiz just started or restarted) and
    as long as no restart is clicked, at most one row is appended to the
    results file, and none once the recorded flag is set; the row appended for a user with a usable name carries the
    time stamp, the name, the two counts, the number of questions of the
    bank and, as details, the entries
    Q: question | A: correct answer | Your: user answer of the incorrect
    list joined by a semicolon and a blank.  For a two-question attempt
    with one correct and one incorrect answer the counts are 1, 1 and 2
    and the details are that single entry, with no separator added; it
    holds no semicolon, and so is one segment, whenever the question text,
    the correct answer text and the user answer text hold none. *)
Theorem C8_one_record_per_finished_session :
  (∀ w inputs,
     Forall (λ ui, ui_click ui ≠ ClickRestart) inputs →
     results_recorded (w_quiz w) = false →
     w_results (run_session inputs w) = w_results w ∨
     ∃ rec, w_results (run_session inputs w) = w_results w ++ [rec]) ∧
  (∀ w inputs,
     Forall (λ ui, ui_click ui ≠ ClickRestart) inputs →
     results_recorded (w_quiz w) = true → quiz_started (w_quiz w) = true →
     w_results (run_session inputs w) = w_results w) ∧
  (∀ now w user,
     w_user w = Some user → user ≠ "" → user ≠ "Unknown" →
     ∃ rec, w_results (record_quiz_attempt now w) = w_results w ++ [rec] ∧
            Timestamp rec = now ∧ User rec = user ∧
            CorrectCount rec = correct_count (w_quiz w) ∧
            IncorrectCount rec = incorrect_count (w_quiz w) ∧
            TotalQuestions rec = length (w_flashcards w) ∧
            IncorrectDetails rec =
              join "; "
                (map (λ item, "Q: " +:+ ie_question item +:+ " | A: "
                              +:+ ie_correct_answer item +:+ " | Your: "
                              +:+ ie_your_answer item)
                   (incorrect_questions (w_quiz w)))) ∧
  (∀ now w user item,
     w_user w = Some user → user ≠ "" → user ≠ "Unknown" →
     length (w_flashcards w) = 2 →
     correct_count (w_quiz w) = 1 → incorrect_count (w_quiz w) = 1 →
     incorrect_questions (w_quiz w) = [item] →
     ∃ rec, w_results (record_quiz_attempt now w) = w_results w ++ [rec] ∧
            CorrectCount rec = 1 ∧ IncorrectCount rec = 1 ∧ TotalQuestions rec = 2 ∧
            IncorrectDetails rec =
              "Q: " +:+ ie_question item +:+ " | A: " +:+ ie_correct_answer item
              +:+ " | Your: " +:+ ie_your_answer item ∧
            (PyStr.mem ";" (ie_question item) = false →
             PyStr.mem ";" (ie_correct_answer item) = false →
             PyStr.mem ";" (ie_your_answer item) = false →
             PyStr.mem ";" (IncorrectDetails rec) = false ∧
             PyStr.split_char ";" (IncorrectDetails rec) = [IncorrectDetails rec])) ∧
  w_results (run_session (finishing_session "ann" ++ [final_run "ann"; idle "ann"; idle "ann"])
               (started_world (Some "ann") sample_bank [])) =
    [{| Timestamp := "2026-11-04T12:00:00"; User := "ann";
        CorrectCount := 1; IncorrectCount := 1; TotalQuestions := 2;
        IncorrectDetails := "Q: Founder of Rome? | A: Romulus | Your: No answer" |}].
Proof.
  split; [|split; [|split; [|split]]].
  - intros w inputs Hall Hfl.
    destruct (run_session_one_append inputs w (w_results w) Hall
                (or_introl (conj Hfl eq_refl)))
      as [[_ Hres]|(_&_&Hres)]; [by left|exact Hres].
  - intros w inputs Hall Hfl Hst.
    pose proof (run_session_frozen inputs w Hall Hfl Hst) as Hrs.
    unfold record_state in Hrs. by injection Hrs as _ _ Hres.
  - intros now w user Hu Hne Hnu. eexists. split.
    + by apply record_quiz_attempt_usable.
    + done.
  - intros now w user item Hu Hne Hnu Hlen Hc Hi Hlog. eexists. split.
    + by apply record_quiz_attempt_usable.
    + cbn [CorrectCount IncorrectCount TotalQuestions IncorrectDetails].
      rewrite Hlen, Hc, Hi, Hlog. repeat split; try done.
      * by apply (format_incorrect_semicolon_free item).
      * by apply split_char_absent, (format_incorrect_semicolon_free item).
  - vm_compute. reflexivity.
Qed.

Lemma C8_one_record_witness :
  Forall (λ ui, ui_click ui ≠ ClickRestart) (finishing_session "ann" ++ [final_run "ann"]) ∧
  (w_results (run_session (finishing_session "ann" ++ [final_run "ann"])
                (loaded_world (Some "ann") sample_bank [])) = [] ∨
   ∃ rec, w_results (run_session (finishing_session "ann" ++ [final_run "ann"])
                       (loaded_world (Some "ann") sample_bank [])) = [] ++ [rec]) ∧
  (let w := run_session (finishing_session "ann") (started_world (Some "ann") sample_bank []) in
   w_user w = Some "ann" ∧ length (w_flashcards w) = 2 ∧
   correct_count (w_quiz w) = 1 ∧ incorrect_count (w_quiz w) = 1 ∧
   ∃ rec, w_results (record_quiz_attempt "now" w) = w_results w ++ [rec] ∧
          CorrectCount rec = 1 ∧ IncorrectCount rec = 1 ∧ TotalQuestions rec = 2 ∧
          IncorrectDetails rec = "Q: Founder of Rome? | A: Romulus | Your: No answer" ∧
          PyStr.split_char ";" (IncorrectDetails rec) = [IncorrectDetails rec]).
Proof.
  assert (Hall : Forall (λ ui, ui_click ui ≠ ClickRestart)
                   (finishing_session "ann" ++ [final_run "ann"]))
    by (repeat constructor; discriminate).
  split; [exact Hall|]. split.
  - exact (proj1 C8_one_record_per_finished_session
             (loaded_world (Some "ann") sample_bank []) _ Hall eq_refl).
  - intros w.
    assert (Hu : w_user w = Some "ann") by (vm_compute; reflexivity).
    assert (Hlen : length (w_flashcards w) = 2) by (vm_compute; reflexivity).
    assert (Hc : correct_count (w_quiz w) = 1) by (vm_compute; reflexivity).
    assert (Hi : incorrect_count (w_quiz w) = 1) by (vm_compute; reflexivity).
    assert (Hlog : incorrect_questions (w_quiz w) =
                   [{| ie_question := "Founder of Rome?"; ie_correct_answer := "Romulus";
                       ie_your_answer := "No answer" |}]) by (vm_compute; reflexivity).
    split; [exact Hu|]. split; [exact Hlen|]. split; [exact Hc|]. split; [exact Hi|].
    destruct (proj1 (proj2 (proj2 (proj2 C8_one_record_per_finished_session)))
                "now" w "ann" _ Hu ltac:(discriminate) ltac:(discriminate) Hlen Hc Hi Hlog)
      as (rec&Hres&H1&H2&H3&Hd&Hfree).
    exists rec. split; [exact Hres|]. split; [exact H1|]. split; [exact H2|].
    split; [exact H3|]. split; [exact Hd|].
    exact (proj2 (Hfree eq_refl eq_refl eq_refl)).
Defined.

Lemma main_user_view_rerun name w v r :
  w_user (main_user name (with_view v (with_rerun r w))) = w_user (main_user name w).
Proof. unfold main_user. cbn. by destruct (w_user w), (PyStr.truthy name). Qed.

(** The finishing run of an attempt whose user name is unusable. *)
Lemma main_finish_unusable ui w :
  quiz_started (w_quiz w) = true →
  available_indices (w_flashcards w) (used_questions (w_quiz w)) = [] →
  results_recorded (w_quiz w) = false →
  unusable_user (w_user (main_user (ui_user_name ui) w)) →
  ui_click ui ≠ ClickRestart →
  w_view (main ui w) = ViewResults ∧
  record_state (main ui w) = (true, true, w_results w).
Proof.
  intros Hst Hnil Hfl Huser Hui. unfold main.
  set (click := if w_rerun w then NoClick else ui_click ui).
  assert (Hclick : click ≠ ClickRestart) by (subst click; by destruct (w_rerun w)).
  set (w0 := with_view ViewNothing (with_rerun false w)).
  destruct (main_user_same (ui_user_name ui) w0) as (Hq&Hf&_&Hr).
  pose proof (main_user_view_rerun (ui_user_name ui) w ViewNothing false) as Hu.
  fold w0 in Hu.
  set (w1 := main_user (ui_user_name ui) w0) in *.
  assert (Hq1 : w_quiz w1 = w_quiz w) by (by rewrite Hq).
  assert (Hf1 : w_flashcards w1 = w_flashcards w) by (by rewrite Hf).
  assert (Hr1 : w_results w1 = w_results w) by (by rewrite Hr).
  rewrite Hq1, Hf1, Hst, Hnil.
  rewrite (bool_decide_eq_true_2 ([] = [])) by done. cbn [negb andb].
  unfold main_finished. rewrite decide_False by done.
  cbn [w_quiz with_view]. rewrite Hq1, Hfl.
  rewrite record_quiz_attempt_unusable by (cbn [w_user with_view]; by rewrite Hu).
  unfold record_state. cbn. rewrite Hq1, Hr1. cbn. by rewrite Hst.
Qed.

(** C9: with the user name unset, empty or equal to Unknown,
    [record_quiz_attempt] returns the state unchanged; the finishing run
    then shows the results, appends nothing and still sets the recorded
    flag, so that no later run of the session, whatever name is typed by
    then, appends the attempt to the results file. *)
Theorem C9_unusable_user_never_recorded :
  (∀ now w,
     w_user w = None ∨ w_user w = Some "" ∨ w_user w = Some "Unknown" →
     record_quiz_attempt now w = w) ∧
  (∀ w ui later,
     quiz_started (w_quiz w) = true →
     available_indices (w_flashcards w) (used_questions (w_quiz w)) = [] →
     results_recorded (w_quiz w) = false →
     unusable_user (w_user (main_user (ui_user_name ui) w)) →
     ui_click ui ≠ ClickRestart →
     Forall (λ ui, ui_click ui ≠ ClickRestart) later →
     w_view (main ui w) = ViewResults ∧
     results_recorded (w_quiz (main ui w)) = true ∧
     w_results (main ui w) = w_results w ∧
     w_results (run_session later (main ui w)) = w_results w).
Proof.
  split; [intros now w; apply record_quiz_attempt_unusable|].
  intros w ui later Hst Hnil Hfl Huser Hui Hlater.
  destruct (main_finish_unusable ui w Hst Hnil Hfl Huser Hui) as [Hview Hrs].
  unfold record_state in Hrs. injection Hrs as Hfl' Hst' Hres'.
  split; [done|]. split; [done|]. split; [done|].
  pose proof (run_session_frozen later _ Hlater Hfl' Hst') as Hfrozen.
  unfold record_state in Hfrozen. injection Hfrozen as _ _ Hres''. congruence.
Qed.

Lemma C9_unusable_user_witness :
  quiz_started (w_quiz anonymous_attempt) = true ∧
  available_indices (w_flashcards anonymous_attempt)
    (used_questions (w_quiz anonymous_attempt)) = [] ∧
  results_recorded (w_quiz anonymous_attempt) = false ∧
  unusable_user (w_user (main_user (ui_user_name (final_run "")) anonymous_attempt)) ∧
  Forall (λ ui, ui_click ui ≠ ClickRestart) [idle "ann"; final_run "ann"] ∧
  w_user (run_session [idle "ann"; final_run "ann"]
            (main (final_run "") anonymous_attempt)) = Some "ann" ∧
  w_results (run_session [idle "ann"; final_run "ann"]
               (main (final_run "") anonymous_attempt)) = [].
Proof.
  assert (H1 : quiz_started (w_quiz anonymous_attempt) = true) by (vm_compute; reflexivity).
  assert (H2 : available_indices (w_flashcards anonymous_attempt)
                 (used_questions (w_quiz anonymous_attempt)) = [])
    by (vm_compute; reflexivity).
  assert (H3 : results_recorded (w_quiz anonymous_attempt) = false)
    by (vm_compute; reflexivity).
  assert (H4 : unusable_user (w_user (main_user (ui_user_name (final_run ""))
                                        anonymous_attempt)))
    by (right; left; vm_compute; reflexivity).
  assert (H5 : ui_click (final_run "") ≠ ClickRestart) by discriminate.
  assert (H6 : Forall (λ ui, ui_click ui ≠ ClickRestart) [idle "ann"; final_run "ann"])
    by (repeat constructor; discriminate).
  split; [exact H1|]. split; [exact H2|]. split; [exact H3|]. split; [exact H4|].
  split; [exact H6|]. split; [vm_compute; reflexivity|].
  exact (proj2 (proj2 (proj2 (proj2 C9_unusable_user_never_recorded
                                anonymous_attempt (final_run "") _ H1 H2 H3 H4 H5 H6)))).
Defined.

(** * Further properties *)

(** ** The loader on arbitrary files *)

(** When the loop returns a list, no row raised, and the list and the
    messages are those of [row_questions] and [row_warnings]. *)
Lemma load_rows_Some (rows : list (list string)) index log quiz_data log' bank :
  load_rows index rows log quiz_data = (log', Some bank) →
  log' = log ++ row_warnings index rows ∧ bank = quiz_data ++ row_questions index rows.
Proof.
  revert index log quiz_data.
  induction rows as [|row rest IH]; intros index log quiz_data; cbn [load_rows row_warnings row_questions].
  - intros [= <- <-]. by rewrite !app_nil_r.
  - destruct (process_row index row) as [[w|q]|]; [| |done].
    + intros H. destruct (IH _ _ _ H) as [-> ->]. by rewrite <- app_assoc.
    + intros H. destruct (IH _ _ _ H) as [-> ->]. by rewrite <- app_assoc.
Qed.

Lemma load_Some f bank :
  (load_quiz_data_from_file f).2 = Some bank →
  ∃ df, uf_table f = inr df ∧ supported_name (uf_name f) = true ∧
        df_rows df ≠ [] ∧ 6 ≤ df_columns df ∧
        bank = row_questions 0 (df_rows df) ∧ bank ≠ [] ∧
        (load_quiz_data_from_file f).1 = row_warnings 0 (df_rows df).
Proof.
  unfold load_quiz_data_from_file.
  destruct (supported_name (uf_name f)); [|done].
  destruct (uf_table f) as [exn|df]; [done|].
  unfold df_empty. destruct (df_rows df) as [|r rest] eqn:Hrows; [done|].
  destruct (Nat.eqb_spec (df_columns df) 0); [done|].
  destruct (Nat.ltb_spec (df_columns df) 6); [done|].
  destruct (load_rows 0 (r :: rest) [] []) as [log [qd|]] eqn:Hload; [|done].
  destruct (load_rows_Some _ _ _ _ _ _ Hload) as [-> ->]. cbn [app] in *.
  destruct (row_questions 0 (r :: rest)) as [|q0 qs] eqn:Hq; [done|].
  cbn. intros [= <-]. exists df. rewrite Hrows. done.
Qed.

(** The loop body keeps a row only as a well-formed question that carries
    the label of the row and its question cell. *)
Lemma process_row_parsed index (row : list string) q :
  process_row index row = Some (RowParsed q) →
  original_index q = index ∧ well_formed_question q ∧ row !! 0 = Some (question q).
Proof.
  unfold process_row, iloc, COL_IDX_OPTION_A, COL_IDX_OPTION_B, COL_IDX_OPTION_C,
    COL_IDX_OPTION_D, COL_IDX_CORRECT_ANSWER_LETTER, COL_IDX_QUESTION.
  destruct (row !! 1) as [a|]; [|done]. destruct (row !! 2) as [b|]; [|done].
  destruct (row !! 3) as [c|]; [|done]. destruct (row !! 4) as [d|]; [|done].
  destruct (row !! 5) as [cell|]; [|done]. destruct (row !! 0) as [qtext|]; [|done].
  cbn. fold (normalize_correct_letter cell).
  destruct (make_options a b c d !! normalize_correct_letter cell) as [text|] eqn:Hopt;
    [|done].
  destruct (PyStr.strip qtext) eqn:Hstrip; [done|]. cbn [negb PyStr.truthy].
  intros [= <-]. unfold well_formed_question.
  cbn [original_index question options correct_option_letter correct_answer_text].
  split; [done|]. split; [|done].
  split; [|split; [|split]].
  - destruct (decide (normalize_correct_letter cell ∈ valid_letters)) as [|Hn]; [done|].
    apply (make_options_lookup_None a b c d) in Hn. congruence.
  - unfold make_options, valid_letters. rewrite !dom_insert_L, dom_empty_L.
    cbn [list_to_set foldr]. set_solver.
  - done.
  - by rewrite Hstrip.
Qed.

Lemma row_questions_lookup (rows : list (list string)) index i q :
  row_questions index rows !! i = Some q →
  index + i ≤ original_index q ∧ original_index q < index + length rows ∧
  well_formed_question q ∧
  ∃ row, rows !! (original_index q - index) = Some row ∧
         process_row (original_index q) row = Some (RowParsed q).
Proof.
  revert index i. induction rows as [|row rest IH]; intros index i; [done|].
  cbn [row_questions length].
  assert (Hrest : ∀ k, row_questions (S index) rest !! k = Some q →
            index + k < original_index q ∧ original_index q < index + S (length rest) ∧
            well_formed_question q ∧
            ∃ row', (row :: rest) !! (original_index q - index) = Some row' ∧
                    process_row (original_index q) row' = Some (RowParsed q)).
  { intros k (H1&H2&H3&row'&H4&H5)%IH. split; [lia|]. split; [lia|]. split; [done|].
    exists row'. split; [|done].
    replace (original_index q - index) with (S (original_index q - S index)) by lia.
    done. }
  destruct (process_row index row) as [[w|q']|] eqn:Hp.
  - intros H. destruct (Hrest _ H) as (?&?&?&?). split; [lia|]. done.
  - destruct i as [|i].
    + intros [= ->]. destruct (process_row_parsed _ _ _ Hp) as (Hidx&Hwf&_).
      split; [lia|]. split; [lia|]. split; [done|].
      exists row. rewrite Hidx, Nat.sub_diag. done.
    + cbn. intros H. destruct (Hrest _ H) as (?&?&?&?). split; [lia|]. done.
  - intros H. destruct (Hrest _ H) as (?&?&?&?). split; [lia|]. done.
Qed.

Lemma row_questions_increasing (rows : list (list string)) index i j q1 q2 :
  row_questions index rows !! i = Some q1 → row_questions index rows !! j = Some q2 →
  i < j → original_index q1 < original_index q2.
Proof.
  revert index i j. induction rows as [|row rest IH]; intros index i j; [done|].
  cbn [row_questions].
  destruct (process_row index row) as [[w|q']|] eqn:Hp; try by apply IH.
  destruct i as [|i], j as [|j]; try lia.
  - cbn. intros [= ->] H2 _. destruct (process_row_parsed _ _ _ Hp) as (Hidx&_).
    apply row_questions_lookup in H2. lia.
  - cbn. intros H1 H2 Hlt. apply (IH (S index) i j); [done|done|lia].
Qed.

(** X1: whatever the uploaded file, a bank the loader returns is not empty
    and holds only well-formed questions: the correct letter is one of A,
    B, C, D, the options are exactly those four keys, the correct answer
    text is the option under the correct letter, and the question text is
    not blank. *)
Theorem X1_loaded_bank_well_formed f bank :
  (load_quiz_data_from_file f).2 = Some bank →
  bank ≠ [] ∧ Forall well_formed_question bank.
Proof.
  intros (df&_&_&_&_&->&Hne&_)%load_Some. split; [done|].
  apply Forall_lookup. intros i q Hq.
  by destruct (row_questions_lookup _ _ _ _ Hq) as (_&_&Hwf&_).
Qed.

Lemma X1_loaded_bank_well_formed_witness :
  (load_quiz_data_from_file (csv_of "rome.csv" 6 skipped_rows)).2 = Some skipped_bank ∧
  skipped_bank ≠ [] ∧ Forall well_formed_question skipped_bank.
Proof.
  assert (H : (load_quiz_data_from_file (csv_of "rome.csv" 6 skipped_rows)).2
              = Some skipped_bank) by (vm_compute; reflexivity).
  split; [exact H|]. exact (X1_loaded_bank_well_formed _ _ H).
Defined.

(** X2: in a returned bank the original indices are the labels of the rows
    the questions come from: each is below the number of data rows and at
    least the position of the question in the bank, the row it names holds
    the question text in its first cell, and the indices increase strictly
    along the bank, so no two questions share one. *)
Theorem X2_loaded_bank_indices f bank :
  (load_quiz_data_from_file f).2 = Some bank →
  ∃ df, uf_table f = inr df ∧
    (∀ i q, bank !! i = Some q →
       i ≤ original_index q ∧ original_index q < length (df_rows df) ∧
       ∃ row, df_rows df !! original_index q = Some row ∧ row !! 0 = Some (question q)) ∧
    (∀ i j q1 q2, bank !! i = Some q1 → bank !! j = Some q2 → i < j →
       original_index q1 < original_index q2) ∧
    NoDup (map original_index bank).
Proof.
  intros (df&Hdf&_&_&_&->&_&_)%load_Some. exists df. split; [done|].
  assert (Hinc : ∀ i j q1 q2,
            row_questions 0 (df_rows df) !! i = Some q1 →
            row_questions 0 (df_rows df) !! j = Some q2 → i < j →
            original_index q1 < original_index q2)
    by (intros i j q1 q2; apply row_questions_increasing).
  split; [|split; [exact Hinc|]].
  - intros i q Hq.
    destruct (row_questions_lookup _ _ _ _ Hq) as (H1&H2&_&row&Hrow&Hp).
    split; [lia|]. split; [lia|]. exists row. rewrite Nat.sub_0_r in Hrow.
    split; [done|]. by destruct (process_row_parsed _ _ _ Hp) as (_&_&?).
  - apply NoDup_alt. intros i j x Hi Hj.
    change (map original_index ?l) with (original_index <$> l) in Hi, Hj.
    destruct (proj1 (list_lookup_fmap_Some _ _ _ _) Hi) as (q1&Heq1&Hq1).
    destruct (proj1 (list_lookup_fmap_Some _ _ _ _) Hj) as (q2&Heq2&Hq2).
    destruct (Nat.lt_trichotomy i j) as [Hlt|[->|Hgt]]; [|done|].
    + pose proof (Hinc _ _ _ _ Hq1 Hq2 Hlt). lia.
    + pose proof (Hinc _ _ _ _ Hq2 Hq1 Hgt). lia.
Qed.

Lemma X2_loaded_bank_indices_witness :
  (load_quiz_data_from_file (csv_of "rome.csv" 6 skipped_rows)).2 = Some skipped_bank ∧
  NoDup (map original_index skipped_bank).
Proof.
  assert (H : (load_quiz_data_from_file (csv_of "rome.csv" 6 skipped_rows)).2
              = Some skipped_bank) by (vm_compute; reflexivity).
  split; [exact H|].
  destruct (X2_loaded_bank_indices _ _ H) as (df&_&_&_&Hnd). exact Hnd.
Defined.

Lemma load_rows_counts (rows : list (list string)) index log quiz_data log' bank :
  load_rows index rows log quiz_data = (log', Some bank) →
  length (row_warnings index rows) + length (row_questions index rows) = length rows ∧
  Forall (λ m, ∃ text, m = MsgWarning text) (row_warnings index rows).
Proof.
  revert index log quiz_data.
  induction rows as [|row rest IH]; intros index log quiz_data;
    cbn [load_rows row_warnings row_questions length].
  - intros _. split; [done|constructor].
  - destruct (process_row index row) as [[w|q]|] eqn:Hp; [| |done].
    + intros H. destruct (IH _ _ _ H) as [Hlen Hall]. split; [cbn; lia|].
      constructor; [|done].
      unfold process_row in Hp. simplify_option_eq.
      repeat case_match; simplify_eq; eexists; reflexivity.
    + intros H. destruct (IH _ _ _ H) as [Hlen Hall]. split; [cbn; lia|done].
Qed.

(** X3: when a load succeeds, every data row is accounted for once: the
    messages shown are warnings, one per skipped row, and the number of
    warnings plus the number of questions kept is the number of rows. *)
Theorem X3_rows_are_kept_or_warned f bank :
  (load_quiz_data_from_file f).2 = Some bank →
  ∃ df, uf_table f = inr df ∧
        length (load_quiz_data_from_file f).1 + length bank = length (df_rows df) ∧
        Forall (λ m, ∃ text, m = MsgWarning text) (load_quiz_data_from_file f).1.
Proof.
  intros Hload. destruct (load_Some _ _ Hload) as (df&Hdf&Hname&Hne&Hcols&->&_&Hlog).
  exists df. split; [done|]. rewrite Hlog.
  destruct (load_rows 0 (df_rows df) [] []) as [log' [qd|]] eqn:Hrows.
  - by apply load_rows_counts in Hrows.
  - exfalso. revert Hload. unfold load_quiz_data_from_file.
    rewrite Hname, Hdf. destruct (df_empty df); [done|].
    destruct (df_columns df <? 6); [done|]. by rewrite Hrows.
Qed.

Lemma X3_rows_are_kept_or_warned_witness :
  (load_quiz_data_from_file (csv_of "rome.csv" 6 skipped_rows)).2 = Some skipped_bank ∧
  length (load_quiz_data_from_file (csv_of "rome.csv" 6 skipped_rows)).1
    + length skipped_bank = 2.
Proof.
  assert (H : (load_quiz_data_from_file (csv_of "rome.csv" 6 skipped_rows)).2
              = Some skipped_bank) by (vm_compute; reflexivity).
  split; [exact H|].
  destruct (X3_rows_are_kept_or_warned _ _ H) as (df&Hdf&Hlen&_).
  injection Hdf as <-. exact Hlen.
Defined.

(** X4: a row whose correct letter is valid and whose question text is
    blank after trimming (of Python's white space, which includes the
    no-break and the ideographic space) is skipped with the warning
    Row index + 2: Empty question text, and contributes no question; the
    letter is checked first, so a table made of one row that fails both
    checks shows the invalid-letter warning, then NoValidQuestions, and not
    the empty-question warning. *)
Theorem X4_blank_question_rows_are_skipped fname ncols (rows : list (list string)) :
  supported_name fname = true → 6 ≤ ncols → rows ≠ [] →
  Forall (λ row, length row = ncols) rows →
  (∀ index row qtext cell,
     rows !! index = Some row → row !! 0 = Some qtext → row !! 5 = Some cell →
     normalize_correct_letter cell ∈ valid_letters → PyStr.strip qtext = "" →
     MsgWarning ("Row " +:+ pretty (index + 2) +:+ ": Empty question text. Skipping question.")
       ∈ (load_quiz_data_from_file (csv_of fname ncols rows)).1 ∧
     ∀ bank q, (load_quiz_data_from_file (csv_of fname ncols rows)).2 = Some bank →
               q ∈ bank → original_index q ≠ index) ∧
  (∀ row qtext cell,
     rows = [row] → row !! 0 = Some qtext → row !! 5 = Some cell →
     normalize_correct_letter cell ∉ valid_letters → PyStr.strip qtext = "" →
     load_quiz_data_from_file (csv_of fname ncols rows) =
       ([invalid_letter_warning 0 (PyStr.strip cell) (normalize_correct_letter cell);
         NoValidQuestions], None)).
Proof.
  intros Hname Hcols Hne Hrect.
  assert (Hsix : ∀ i row, rows !! i = Some row → 6 ≤ length row).
  { intros i row Hi. rewrite (Forall_lookup_1 _ _ _ _ Hrect Hi). done. }
  rewrite load_well_formed by done. split.
  - intros index row qtext cell Hi Hq Hc Hok Hblank.
    assert (Hp : process_row index row = Some (RowSkipped (empty_question_warning index))).
    { destruct (process_row_cases index row (Hsix _ _ Hi)) as (qtext'&a&b&c&d&cell'&Hq'&Hc'&->).
      assert (qtext' = qtext) as -> by congruence.
      assert (cell' = cell) as -> by congruence.
      destruct (make_options a b c d !! normalize_correct_letter cell) eqn:E.
      - by rewrite Hblank.
      - apply make_options_lookup_None in E. done. }
    assert (Hw : empty_question_warning index ∈ row_warnings 0 rows)
      by (by eapply (row_warnings_elem rows 0 index)).
    assert (Hnot : ∀ q, q ∈ row_questions 0 rows → original_index q ≠ index).
    { intros q (i&row'&Hi'&Hp')%row_questions_origin Heq.
      change (0 + i) with i in Hp'.
      pose proof (process_row_parsed_index _ _ _ Hp') as Hidx.
      assert (i = index) as -> by congruence.
      assert (row' = row) as -> by congruence. congruence. }
    destruct (row_questions 0 rows) as [|q0 qs]; cbn [fst snd].
    + split; [apply elem_of_app; by left|done].
    + split; [done|]. intros bank q [= <-]. apply Hnot.
  - intros row qtext cell -> Hq Hc Hbad Hblank.
    pose proof (process_row_invalid_letter 0 row cell (Hsix 0 row eq_refl) Hc Hbad) as Hp.
    cbn [row_questions row_warnings]. rewrite Hp. reflexivity.
Qed.

Lemma X4_blank_question_witness :
  let rows := [[PyStr.of_bytes [32; 227; 128; 128; 194; 160]; "a"; "b"; "c"; "d";
                PyStr.of_bytes [98; 194; 160]];
               ["Q2"; "a"; "b"; "c"; "d"; "C"]] in
  supported_name "quiz.csv" = true ∧ 6 ≤ 6 ∧ rows ≠ [] ∧
  Forall (λ row : list string, length row = 6) rows ∧
  MsgWarning "Row 2: Empty question text. Skipping question."
    ∈ (load_quiz_data_from_file (csv_of "quiz.csv" 6 rows)).1.
Proof.
  intros rows.
  assert (Hname : supported_name "quiz.csv" = true) by reflexivity.
  assert (Hne : rows ≠ []) by discriminate.
  assert (Hrect : Forall (λ row : list string, length row = 6) rows)
    by (repeat constructor).
  split; [exact Hname|]. split; [exact (le_n 6)|]. split; [exact Hne|].
  split; [exact Hrect|].
  refine (proj1 (proj1 (X4_blank_question_rows_are_skipped "quiz.csv" 6 rows
                          Hname (le_n 6) Hne Hrect) 0 _
                   (PyStr.of_bytes [32; 227; 128; 128; 194; 160])
                   (PyStr.of_bytes [98; 194; 160]) eq_refl eq_refl eq_refl _ eq_refl)).
  by_compute.
Defined.

Lemma process_row_take index (row : list string) :
  process_row index (take 6 row) = process_row index row.
Proof.
  unfold process_row, iloc, COL_IDX_OPTION_A, COL_IDX_OPTION_B, COL_IDX_OPTION_C,
    COL_IDX_OPTION_D, COL_IDX_CORRECT_ANSWER_LETTER, COL_IDX_QUESTION.
  by rewrite !lookup_take_lt by lia.
Qed.

Lemma row_results_take (rows : list (list string)) index :
  row_warnings index (take 6 <$> rows) = row_warnings index rows ∧
  row_questions index (take 6 <$> rows) = row_questions index rows.
Proof.
  revert index. induction rows as [|row rest IH]; intros index; [done|].
  cbn [fmap list_fmap row_warnings row_questions]. rewrite process_row_take.
  destruct (IH (S index)) as [-> ->]. done.
Qed.

(** X5: columns beyond the sixth are ignored: a table of at least six
    columns loads to the same messages and the same bank as the table cut
    down to its first six columns. *)
Theorem X5_columns_beyond_sixth_ignored fname ncols (rows : list (list string)) :
  supported_name fname = true → 6 ≤ ncols → rows ≠ [] →
  Forall (λ row, length row = ncols) rows →
  load_quiz_data_from_file (csv_of fname ncols rows) =
  load_quiz_data_from_file (csv_of fname 6 (take 6 <$> rows)).
Proof.
  intros Hname Hcols Hne Hrect.
  rewrite !load_well_formed; try done.
  - by destruct (row_results_take rows 0) as [-> ->].
  - by destruct rows.
  - apply Forall_fmap. eapply Forall_impl; [exact Hrect|].
    cbn. intros row Hlen. rewrite length_take. lia.
Qed.

Lemma X5_columns_beyond_sixth_witness :
  let rows := [["Q1"; "a"; "b"; "c"; "d"; "B"; "note"; "7"]] in
  supported_name "quiz.xlsx" = true ∧ 6 ≤ 8 ∧ rows ≠ [] ∧
  Forall (λ row : list string, length row = 8) rows ∧
  load_quiz_data_from_file (csv_of "quiz.xlsx" 8 rows) =
  load_quiz_data_from_file (csv_of "quiz.xlsx" 6 [["Q1"; "a"; "b"; "c"; "d"; "B"]]).
Proof.
  intros rows.
  assert (Hname : supported_name "quiz.xlsx" = true) by reflexivity.
  assert (Hcols : 6 ≤ 8) by lia.
  assert (Hne : rows ≠ []) by discriminate.
  assert (Hrect : Forall (λ row : list string, length row = 8) rows)
    by (repeat constructor).
  split; [exact Hname|]. split; [exact Hcols|]. split; [exact Hne|].
  split; [exact Hrect|].
  exact (X5_columns_beyond_sixth_ignored "quiz.xlsx" 8 rows Hname Hcols Hne Hrect).
Defined.

Lemma valid_row_parsed index (row : list string) :
  6 ≤ length row →
  valid_row row ↔ ∃ q, process_row index row = Some (RowParsed q).
Proof.
  intros Hlen. split.
  - intros (qtext&cell&Hq&Hc&Hok&Hnb).
    destruct (process_row_valid index row qtext cell Hlen Hq Hc Hok Hnb) as (q&Hp&_).
    by exists q.
  - intros [q Hp].
    destruct (process_row_cases index row Hlen) as (qtext&a&b&c&d&cell&Hq&Hc&Hp').
    rewrite Hp in Hp'. exists qtext, cell. split; [done|]. split; [done|].
    destruct (make_options a b c d !! normalize_correct_letter cell) eqn:E; [|done].
    split.
    + destruct (decide (normalize_correct_letter cell ∈ valid_letters)) as [|Hn]; [done|].
      apply (make_options_lookup_None a b c d) in Hn. congruence.
    + intros Hblank. rewrite Hblank in Hp'. done.
Qed.

(** The two checks follow Python's trimming: a letter cell B followed by
    a no-break space passes, a question text made of an ideographic space
    does not. *)
Lemma valid_row_unicode :
  valid_row ["Q1"; "a"; "b"; "c"; "d"; PyStr.of_bytes [66; 194; 160]] ∧
  ¬ valid_row [PyStr.of_bytes [227; 128; 128]; "a"; "b"; "c"; "d"; "B"].
Proof.
  split.
  - exists "Q1", (PyStr.of_bytes [66; 194; 160]).
    split; [reflexivity|]. split; [reflexivity|]. split; [by_compute|].
    vm_compute. discriminate.
  - intros (qtext&cell&[= <-]&_&_&Hnb). apply Hnb. vm_compute. reflexivity.
Qed.

(** X6: on a rectangular table the load succeeds exactly when the file
    name has a supported extension, the table has a data row and at least
    six columns, and some row passes both checks (the letter cell
    normalises to A, B, C or D and the question text is not blank, both
    under Python's trimming). *)
Theorem X6_load_succeeds_iff fname ncols (rows : list (list string)) :
  Forall (λ row, length row = ncols) rows →
  is_Some (load_quiz_data_from_file (csv_of fname ncols rows)).2 ↔
  supported_name fname = true ∧ rows ≠ [] ∧ 6 ≤ ncols ∧ Exists valid_row rows.
Proof.
  intros Hrect. split.
  - intros [bank Hload].
    destruct (load_Some _ _ Hload) as (df&Hdf&Hname&Hne&Hcols&Hbank&Hnn&_).
    injection Hdf as <-. cbn in *. repeat split; try done.
    destruct bank as [|q0 qs]; [done|].
    assert (Hin : q0 ∈ row_questions 0 rows) by (rewrite <- Hbank; apply list_elem_of_here).
    apply row_questions_origin in Hin as (i&row&Hi&Hp).
    apply Exists_exists. exists row. split; [by eapply list_elem_of_lookup_2|].
    apply (valid_row_parsed (0 + i)); [|by eexists].
    rewrite (Forall_lookup_1 _ _ _ _ Hrect Hi). done.
  - intros (Hname&Hne&Hcols&Hex).
    rewrite load_well_formed by done.
    apply Exists_exists in Hex as (row&[i Hi]%list_elem_of_lookup_1&Hvalid).
    assert (Hlen : 6 ≤ length row) by (rewrite (Forall_lookup_1 _ _ _ _ Hrect Hi); done).
    apply (valid_row_parsed i row Hlen) in Hvalid as [q Hp].
    pose proof (row_questions_elem rows 0 i row q Hi Hp) as Hin.
    destruct (row_questions 0 rows); [by apply elem_of_nil in Hin|].
    by eexists.
Qed.

Lemma X6_load_succeeds_witness :
  Forall (λ row : list string, length row = 6) sample_rows ∧
  is_Some (load_quiz_data_from_file (csv_of "rome.csv" 6 sample_rows)).2.
Proof.
  assert (Hrect : Forall (λ row : list string, length row = 6) sample_rows)
    by (repeat constructor).
  split; [exact Hrect|].
  apply (X6_load_succeeds_iff "rome.csv" 6 sample_rows Hrect).
  split; [reflexivity|]. split; [discriminate|]. split; [lia|].
  apply Exists_cons_hd. exists "Capital of Italy?", "A".
  split; [reflexivity|]. split; [reflexivity|]. split; [by_compute|discriminate].
Defined.

Lemma row_questions_all_valid (rows : list (list string)) index :
  Forall (λ row, 6 ≤ length row ∧ valid_row row) rows →
  row_warnings index rows = [] ∧
  map original_index (row_questions index rows) = seq index (length rows).
Proof.
  intros Hall. revert index. induction Hall as [|row rest [Hlen Hv] _ IH]; intros index; [done|].
  cbn [row_warnings row_questions length seq].
  apply (valid_row_parsed index row Hlen) in Hv as [q Hp]. rewrite Hp.
  destruct (IH (S index)) as [-> Hmap]. split; [done|].
  cbn [map]. rewrite Hmap. by rewrite (process_row_parsed_index _ _ _ Hp).
Qed.

(** X7: a file in which every row passes both checks loads without a
    warning into a bank with one question per row, each at the position
    its original index names (an aligned bank, on which the draw of the
    next question works by original index as well as by position). *)
Theorem X7_clean_file_loads_aligned fname ncols (rows : list (list string)) :
  supported_name fname = true → 6 ≤ ncols → rows ≠ [] →
  Forall (λ row, length row = ncols) rows →
  Forall valid_row rows →
  ∃ bank, load_quiz_data_from_file (csv_of fname ncols rows) = ([], Some bank) ∧
          length bank = length rows ∧ aligned bank.
Proof.
  intros Hname Hcols Hne Hrect Hvalid.
  rewrite load_well_formed by done.
  destruct (row_questions_all_valid rows 0) as [Hw Hmap].
  { apply Forall_and. split; [|done]. eapply Forall_impl; [exact Hrect|]. cbn. lia. }
  rewrite Hw.
  assert (Hlen : length (row_questions 0 rows) = length rows).
  { rewrite <- (length_map original_index), Hmap. apply length_seq. }
  destruct (row_questions 0 rows) as [|q0 qs] eqn:Hq.
  { destruct rows; [done|]. cbn in Hlen. lia. }
  exists (q0 :: qs). split; [done|]. split; [done|].
  intros i q Hi.
  assert (Hx : map original_index (q0 :: qs) !! i = Some (original_index q)).
  { change (map original_index ?l) with (original_index <$> l).
    by rewrite list_lookup_fmap, Hi. }
  rewrite Hmap in Hx. apply lookup_seq in Hx. lia.
Qed.

Lemma X7_clean_file_witness :
  supported_name "rome.csv" = true ∧ 6 ≤ 6 ∧ sample_rows ≠ [] ∧
  Forall (λ row : list string, length row = 6) sample_rows ∧
  Forall valid_row sample_rows ∧
  ∃ bank, load_quiz_data_from_file (csv_of "rome.csv" 6 sample_rows) = ([], Some bank) ∧
          length bank = 2 ∧ aligned bank.
Proof.
  assert (Hname : supported_name "rome.csv" = true) by reflexivity.
  assert (Hne : sample_rows ≠ []) by discriminate.
  assert (Hrect : Forall (λ row : list string, length row = 6) sample_rows)
    by (repeat constructor).
  assert (Hvalid : Forall valid_row sample_rows).
  { repeat constructor.
    - exists "Capital of Italy?", "A".
      split; [reflexivity|]. split; [reflexivity|]. split; [by_compute|discriminate].
    - exists "Founder of Rome?", "'c'".
      split; [reflexivity|]. split; [reflexivity|]. split; [by_compute|discriminate]. }
  split; [exact Hname|]. split; [exact (le_n 6)|]. split; [exact Hne|].
  split; [exact Hrect|]. split; [exact Hvalid|].
  exact (X7_clean_file_loads_aligned "rome.csv" 6 sample_rows Hname (le_n 6) Hne Hrect Hvalid).
Defined.
(** ** Which correct-letter cells the loader accepts *)

Lemma table_get_elem ch table v : PyStr.table_get ch table = Some v → (ch, v) ∈ table.
Proof.
  induction table as [|[k w] rest IH]; [done|]. cbn [PyStr.table_get].
  destruct (String.eqb_spec ch k) as [->|_].
  - intros [= ->]. apply list_elem_of_here.
  - intros H. apply list_elem_of_further. by apply IH.
Qed.

(** No character has an empty upper case image. *)
Lemma upper_char_nonempty ch : ch ≠ "" → PyStr.upper_char ch ≠ "".
Proof.
  intros Hne. unfold PyStr.upper_char.
  destruct (PyStr.table_get ch PyStr.upper_table) as [v|] eqn:Hget; [|done].
  apply table_get_elem in Hget. cbn [default].
  assert (Hall : Forall (λ kv : string * string, kv.2 ≠ "") PyStr.upper_table).
  { apply (bool_decide_eq_true_1 _). vm_compute. reflexivity. }
  exact (proj1 (Forall_forall _ _) Hall _ Hget).
Qed.

(** The characters whose upper case image is an option letter are the
    eight letters a-d and A-D. *)
Lemma upper_char_letter ch :
  PyStr.upper_char ch ∈ valid_letters →
  ch ∈ ["A"; "B"; "C"; "D"; "a"; "b"; "c"; "d"].
Proof.
  unfold PyStr.upper_char.
  destruct (PyStr.table_get ch PyStr.upper_table) as [v|] eqn:Hget; cbn [default].
  - apply table_get_elem in Hget. intros Hv.
    assert (Hall : Forall (λ kv : string * string,
                             kv.2 ∈ valid_letters → kv.1 ∈ ["a"; "b"; "c"; "d"])
                     PyStr.upper_table).
    { apply (bool_decide_eq_true_1 _). vm_compute. reflexivity. }
    pose proof (proj1 (Forall_forall _ _) Hall _ Hget Hv) as Hk. cbn in Hk.
    do 4 apply list_elem_of_further. exact Hk.
  - unfold valid_letters. rewrite !elem_of_cons. tauto.
Qed.

Lemma join_upper_nil l :
  Forall (λ g, g ≠ "") l → PyStr.join (PyStr.upper_char <$> l) = "" → l = [].
Proof.
  destruct l as [|g l]; [done|]. intros [Hg _]%Forall_cons.
  cbn [fmap list_fmap]. rewrite join_cons.
  pose proof (upper_char_nonempty g Hg) as Hu.
  destruct (PyStr.upper_char g); done.
Qed.

Lemma segmented_nonempty l : PyStr.segmented l → Forall (λ g, g ≠ "") l.
Proof.
  intros [H _]. eapply Forall_impl; [exact H|]. cbn. by intros g Hg ->.
Qed.

(** A list of characters whose upper case is an option letter is one of
    the eight letters. *)
Lemma upper_letter_inv l :
  PyStr.segmented l → PyStr.join (PyStr.upper_char <$> l) ∈ valid_letters →
  ∃ c, l = [String c ""] ∧ PyStr.mem c "ABCDabcd" = true.
Proof.
  intros Hseg Hup. pose proof (segmented_nonempty l Hseg) as Hne.
  destruct l as [|g l].
  { exfalso. revert Hup. cbn. unfold valid_letters.
    rewrite !elem_of_cons, elem_of_nil. intros [H|[H|[H|[H|[]]]]]; discriminate. }
  apply Forall_cons in Hne as [Hg Hl].
  cbn [fmap list_fmap] in Hup. rewrite join_cons in Hup.
  pose proof (upper_char_nonempty g Hg) as Hu.
  assert (Hsingle : PyStr.upper_char g ∈ valid_letters ∧
                    PyStr.join (PyStr.upper_char <$> l) = "").
  { destruct (PyStr.upper_char g) as [|x t]; [done|].
    revert Hup. unfold valid_letters. rewrite append_cons, !elem_of_cons, elem_of_nil.
    intros [H|[H|[H|[H|[]]]]]; injection H as -> Ht;
      destruct t; try discriminate; cbn in Ht; (split; [|exact Ht]);
      rewrite ?elem_of_cons; tauto. }
  destruct Hsingle as [Hletter Hrest].
  apply (join_upper_nil l Hl) in Hrest as ->.
  apply upper_char_letter in Hletter.
  rewrite !elem_of_cons, elem_of_nil in Hletter.
  destruct Hletter as [->|[->|[->|[->|[->|[->|[->|[->|[]]]]]]]]];
    eexists; (split; [reflexivity|reflexivity]).
Qed.

Lemma letter_char_cases c :
  PyStr.mem c "ABCDabcd" = true → PyStr.upper (String c "") ∈ valid_letters.
Proof.
  intros H. apply (bool_decide_eq_true_1 _).
  revert H. destruct c as [[] [] [] [] [] [] [] []]; vm_compute; intros H; done.
Qed.

Lemma letter_char_clean c :
  PyStr.mem c "ABCDabcd" = true →
  PyStr.starts_inside (String c "") = false ∧
  clean_ends PyStr.isspace (String c "") ∧ clean_ends is_quote (String c "").
Proof.
  intros H.
  assert (Hc : PyStr.starts_inside (String c "") = false ∧
               PyStr.isspace (String c "") = false ∧ is_quote (String c "") = false).
  { revert H. destruct c as [[] [] [] [] [] [] [] []]; vm_compute; intros H; done. }
  destruct Hc as (Hi&Hs&Hq). split; [done|].
  assert (Hchars : PyStr.chars (String c "") = [String c ""]) by reflexivity.
  unfold clean_ends, PyStr.first_char, PyStr.last_char. rewrite Hchars. cbn.
  split; split; intros e [= <-]; done.
Qed.

(** X8: the loader accepts a correct-letter cell exactly when it is one
    of the letters A, B, C, D in either case, wrapped in any number of
    quote characters (single or double, possibly none, not necessarily
    matching), wrapped in any amount of white space (Python's: the ASCII
    blanks and separators, U+0085, U+00A0 and the Unicode spaces); white
    space between the quotes and the letter makes the cell invalid, and no
    letter outside ASCII has one of the four as its upper case. *)
Theorem X8_accepted_letter_cells cell :
  normalize_correct_letter cell ∈ valid_letters ↔
  ∃ ws1 q1 c q2 ws2,
    cell = ws1 +:+ (q1 +:+ String c "" +:+ q2) +:+ ws2 ∧
    PyStr.all_chars PyStr.isspace ws1 = true ∧ PyStr.all_chars PyStr.isspace ws2 = true ∧
    PyStr.all_chars is_quote q1 = true ∧ PyStr.all_chars is_quote q2 = true ∧
    PyStr.mem c "ABCDabcd" = true.
Proof.
  split.
  - rewrite normalize_chars. intros Hnorm.
    pose proof (segmented_chars cell) as Hseg.
    destruct (lstrip_by_split PyStr.isspace (PyStr.chars cell)) as (W1&Hcell&HW1).
    set (L1 := PyStr.lstrip_by PyStr.isspace (PyStr.chars cell)) in *.
    destruct (rstrip_by_split PyStr.isspace L1) as (W2&HL1&HW2).
    set (L2 := PyStr.rstrip_by PyStr.isspace L1) in *.
    destruct (lstrip_by_split is_quote L2) as (Q1&HL2&HQ1).
    set (L3 := PyStr.lstrip_by is_quote L2) in *.
    destruct (rstrip_by_split is_quote L3) as (Q2&HL3&HQ2).
    set (L4 := PyStr.rstrip_by is_quote L3) in *.
    rewrite Hcell in Hseg. apply segmented_app in Hseg as [SW1 SL1].
    rewrite HL1 in SL1. apply segmented_app in SL1 as [SL2 SW2].
    rewrite HL2 in SL2. apply segmented_app in SL2 as [SQ1 SL3].
    rewrite HL3 in SL3. apply segmented_app in SL3 as [SL4 SQ2].
    destruct (upper_letter_inv L4 SL4 Hnorm) as (c&HL4&Hc).
    exists (PyStr.join W1), (PyStr.join Q1), c, (PyStr.join Q2), (PyStr.join W2).
    split; [|by rewrite !all_chars_join].
    rewrite <- (join_chars cell), Hcell, HL1, HL2, HL3, HL4.
    rewrite !join_app. cbn [PyStr.join foldr]. by rewrite str_app_empty_r.
  - intros (ws1&q1&c&q2&ws2&->&Hws1&Hws2&Hq1&Hq2&Hc).
    destruct (letter_char_clean c Hc) as (Hi&Hcs&Hcq).
    rewrite (normalize_sandwich ws1 q1 (String c "") q2 ws2) by done.
    by apply letter_char_cases.
Qed.

(** Two cells outside ASCII: a letter followed by a no-break space is
    accepted, an accented letter is not. *)
Lemma accepted_letter_cells_unicode :
  normalize_correct_letter (PyStr.of_bytes [66; 194; 160]) ∈ valid_letters ∧
  normalize_correct_letter (PyStr.of_bytes [195; 169]) ∉ valid_letters.
Proof. split; by_compute. Qed.

(** ** The question page *)

Lemma display_question_letter question_data radio quiz_data :
  (display_question question_data radio quiz_data).2 = radio ≫= (valid_letters !!.).
Proof.
  unfold display_question, options_display_of. cbn [snd].
  destruct radio as [[|[|[|[|k]]]]|]; reflexivity.
Qed.

(** X9: [display_question] returns the letter of the chosen radio
    position, A to D, whatever the option texts are (empty, or holding
    colons themselves), and nothing when no option is chosen. *)
Theorem X9_display_question_returns_letter question_data radio quiz_data :
  (display_question question_data radio quiz_data).2 =
    match radio with
    | Some 0 => Some "A" | Some 1 => Some "B" | Some 2 => Some "C" | Some 3 => Some "D"
    | _ => None
    end.
Proof.
  rewrite display_question_letter.
  destruct radio as [[|[|[|[|k]]]]|]; reflexivity.
Qed.

Lemma check_answer_letters (letter correct : string) :
  letter ∈ valid_letters → correct ∈ valid_letters →
  check_answer (Some letter) correct = bool_decide (letter = correct).
Proof.
  unfold valid_letters. rewrite !elem_of_cons, !elem_of_nil.
  intros [->|[->|[->|[->|[]]]]] [->|[->|[->|[->|[]]]]]; reflexivity.
Qed.

(** The state of the quiz dictionary once [main] has displayed the current
    question with the given radio choice. *)
Lemma main_question_displayed click radio rnd available w i card :
  w_current w = Some i → w_flashcards w !! i = Some card →
  submitted (w_quiz w) = false → show_answer_clicked (w_quiz w) = false →
  main_question click radio rnd available w =
    let quiz_data :=
      set_user_selected_option (radio ≫= (valid_letters !!.))
        (set_current_options_display (Some (options_display_of card)) (w_quiz w)) in
    let w1 := with_view (ViewQuestion i) (with_quiz quiz_data w) in
    if decide (click = ClickSubmit) then
      match radio ≫= (valid_letters !!.) with
      | None => w1
      | Some _ => st_rerun (with_quiz (submit_card card quiz_data) w1)
      end
    else if decide (click = ClickShowAnswer) then
      st_rerun (with_quiz (show_answer_card card quiz_data) w1)
    else w1.
Proof.
  intros Hcur Hcard Hsub Hshow. unfold main_question.
  assert (Hsel : select_current rnd available w = w)
    by (unfold select_current; by rewrite Hcur).
  rewrite Hsel, Hcur, Hcard.
  pose proof (display_question_letter card radio (w_quiz w)) as Hletter.
  destruct (display_question card radio (w_quiz w)) as [qd letter] eqn:Hd.
  cbn [snd] in Hletter. subst letter.
  assert (qd = set_current_options_display (Some (options_display_of card)) (w_quiz w))
    as -> by (unfold display_question in Hd; by injection Hd as <- _).
  cbn zeta.
  assert (Hflags : submitted (set_user_selected_option (radio ≫= (valid_letters !!.))
                     (set_current_options_display (Some (options_display_of card)) (w_quiz w)))
                   || show_answer_clicked (set_user_selected_option (radio ≫= (valid_letters !!.))
                     (set_current_options_display (Some (options_display_of card)) (w_quiz w)))
                   = false) by (cbn; by rewrite Hsub, Hshow).
  rewrite Hflags.
  destruct (decide (click = ClickSubmit)).
  - destruct (radio ≫= (valid_letters !!.)); [|done].
    by rewrite (handle_submit_some i _ card).
  - destruct (decide (click = ClickShowAnswer)); [|done].
    by rewrite (handle_show_answer_some i _ card).
Qed.

Lemma main_started_unfinished ui w :
  quiz_started (w_quiz w) = true → w_rerun w = false → ui_click ui ≠ ClickRestart →
  available_indices (w_flashcards w) (used_questions (w_quiz w)) ≠ [] →
  main ui w =
    main_question (ui_click ui) (ui_radio ui) (ui_random ui)
      (available_indices (w_flashcards w) (used_questions (w_quiz w)))
      (main_user (ui_user_name ui) (with_view ViewNothing (with_rerun false w))).
Proof.
  intros Hst Hrr Hclick Hne. unfold main. rewrite Hrr.
  destruct (main_user_same (ui_user_name ui) (with_view ViewNothing (with_rerun false w)))
    as (Hq&Hf&_).
  rewrite Hq, Hf. cbn [w_quiz w_flashcards with_view with_rerun].
  rewrite Hst. rewrite (bool_decide_eq_false_2 (_ = [])) by done.
  by rewrite (bool_decide_eq_false_2 (ui_click ui = ClickRestart)) by done.
Qed.

Lemma submit_card_phase card quiz_data :
  submitted (submit_card card quiz_data) = true ∧
  show_answer (submit_card card quiz_data) = true ∧
  show_answer_clicked (submit_card card quiz_data) = show_answer_clicked quiz_data ∧
  user_selected_option (submit_card card quiz_data) = user_selected_option quiz_data.
Proof.
  destruct (decide (original_index card ∈ used_questions quiz_data)) as [H|H];
    destruct quiz_data; unfold_handlers; cbn in *;
    destruct (check_answer _ _); cbn; decide_used H; done.
Qed.

Lemma show_answer_card_phase card quiz_data :
  submitted (show_answer_card card quiz_data) = true ∧
  show_answer (show_answer_card card quiz_data) = true ∧
  show_answer_clicked (show_answer_card card quiz_data) = true ∧
  user_selected_option (show_answer_card card quiz_data) = user_selected_option quiz_data.
Proof.
  destruct (decide (original_index card ∈ used_questions quiz_data)) as [H|H];
    destruct quiz_data; unfold_handlers; cbn in *; decide_used H; done.
Qed.

(** X10: submitting through the page.  In a run of [main] on a started
    quiz that shows an unresolved, well-formed question with the submit
    button, a click on submit with the radio option at position [k]
    chosen resolves the question: the outcome is correct exactly when the
    letter of that position is the correct letter, the matching count
    grows by one and the other stays, an incorrect answer is logged with
    the text of the chosen option, the original index joins the used set
    and the page moves to the resolved phase. *)
Theorem X10_submit_through_page ui w i card k letter :
  quiz_started (w_quiz w) = true → w_rerun w = false →
  available_indices (w_flashcards w) (used_questions (w_quiz w)) ≠ [] →
  w_current w = Some i → w_flashcards w !! i = Some card →
  submitted (w_quiz w) = false → show_answer_clicked (w_quiz w) = false →
  original_index card ∉ used_questions (w_quiz w) →
  well_formed_question card →
  ui_click ui = ClickSubmit → ui_radio ui = Some k → valid_letters !! k = Some letter →
  last_answer_correct (w_quiz (main ui w)) =
    Some (bool_decide (letter = correct_option_letter card)) ∧
  submitted (w_quiz (main ui w)) = true ∧ show_answer (w_quiz (main ui w)) = true ∧
  w_view (main ui w) = ViewQuestion i ∧
  used_questions (w_quiz (main ui w)) =
    {[original_index card]} ∪ used_questions (w_quiz w) ∧
  (letter = correct_option_letter card →
   correct_count (w_quiz (main ui w)) = correct_count (w_quiz w) + 1 ∧
   incorrect_count (w_quiz (main ui w)) = incorrect_count (w_quiz w) ∧
   incorrect_questions (w_quiz (main ui w)) = incorrect_questions (w_quiz w)) ∧
  (letter ≠ correct_option_letter card →
   correct_count (w_quiz (main ui w)) = correct_count (w_quiz w) ∧
   incorrect_count (w_quiz (main ui w)) = incorrect_count (w_quiz w) + 1 ∧
   ∃ text, options card !! letter = Some text ∧
           incorrect_questions (w_quiz (main ui w)) =
             incorrect_questions (w_quiz w) ++
               [{| ie_question := question card;
                   ie_correct_answer := correct_answer_text card;
                   ie_your_answer := text |}]).
Proof.
  intros Hst Hrr Hne Hcur Hcard Hsub Hshow Hfresh (Hcl&Hdom&_&_) Hclick Hradio Hk.
  assert (Hletter : letter ∈ valid_letters) by (by eapply list_elem_of_lookup_2).
  rewrite main_started_unfinished by (try done; by rewrite Hclick).
  set (w0 := main_user _ _).
  destruct (main_user_same (ui_user_name ui) (with_view ViewNothing (with_rerun false w)))
    as (Hq&Hf&Hc&_). fold w0 in Hq, Hf, Hc.
  rewrite (main_question_displayed _ _ _ _ w0 i card)
    by (rewrite ?Hq, ?Hf, ?Hc; done).
  rewrite Hclick, Hradio. cbn [mbind option_bind]. rewrite Hk.
  rewrite decide_True by done. cbn zeta.
  rewrite Hq. set (qd := set_user_selected_option _ _).
  cbn [w_quiz w_view st_rerun with_rerun with_quiz with_view].
  assert (Hsel : user_selected_option qd = Some letter) by done.
  assert (Hused : used_questions qd = used_questions (w_quiz w)) by done.
  assert (Hfresh' : original_index card ∉ used_questions qd) by (by rewrite Hused).
  pose proof (check_answer_letters letter (correct_option_letter card) Hletter Hcl) as Hchk.
  destruct (submit_card_phase card qd) as (Hs1&Hs2&_).
  destruct (decide (letter = correct_option_letter card)) as [Heq|Hneq].
  - assert (Hc' : check_answer (user_selected_option qd) (correct_option_letter card) = true)
      by (rewrite Hsel, Hchk; by apply bool_decide_eq_true_2).
    destruct (submit_card_fresh_correct card qd Hfresh' Hc') as (E1&E2&_&E4&Hu&Hl).
    rewrite Hl, Hu, E1, E2, E4, Hs1, Hs2, (bool_decide_eq_true_2 _ Heq).
    repeat split; try done.
  - assert (Hc' : check_answer (user_selected_option qd) (correct_option_letter card) = false)
      by (rewrite Hsel, Hchk; by apply bool_decide_eq_false_2).
    destruct (submit_card_fresh_incorrect card qd Hfresh' Hc') as (E1&E2&_&E4&Hu&Hl).
    rewrite Hl, Hu, E1, E2, E4, Hs1, Hs2, (bool_decide_eq_false_2 _ Hneq).
    repeat split; try done.
    assert (is_Some (options card !! letter)) as [text Htext].
    { apply elem_of_dom. rewrite Hdom. by apply elem_of_list_to_set. }
    exists text. split; [done|]. rewrite Hsel.
    by rewrite (user_answer_text_of_valid card letter text).
Qed.

Lemma sample_card_well_formed : well_formed_question sample_card.
Proof.
  split; [by_compute|]. split; [vm_compute; reflexivity|].
  split; [reflexivity|discriminate].
Qed.

Lemma X10_submit_through_page_witness :
  let w := sample_question_shown None in
  let ui := press "ann" (Some 1) ClickSubmit "t" in
  quiz_started (w_quiz w) = true ∧ w_rerun w = false ∧
  available_indices (w_flashcards w) (used_questions (w_quiz w)) ≠ [] ∧
  w_current w = Some 0 ∧ w_flashcards w !! 0 = Some sample_card ∧
  submitted (w_quiz w) = false ∧ show_answer_clicked (w_quiz w) = false ∧
  (original_index sample_card ∉ used_questions (w_quiz w)) ∧
  well_formed_question sample_card ∧
  last_answer_correct (w_quiz (main ui w)) = Some false ∧
  incorrect_count (w_quiz (main ui w)) = 1.
Proof.
  intros w ui.
  assert (H1 : quiz_started (w_quiz w) = true) by (vm_compute; reflexivity).
  assert (H2 : w_rerun w = false) by (vm_compute; reflexivity).
  assert (H3 : available_indices (w_flashcards w) (used_questions (w_quiz w)) ≠ [])
    by (vm_compute; discriminate).
  assert (H4 : w_current w = Some 0) by (vm_compute; reflexivity).
  assert (H5 : w_flashcards w !! 0 = Some sample_card) by (vm_compute; reflexivity).
  assert (H6 : submitted (w_quiz w) = false) by (vm_compute; reflexivity).
  assert (H7 : show_answer_clicked (w_quiz w) = false) by (vm_compute; reflexivity).
  assert (H8 : original_index sample_card ∉ used_questions (w_quiz w)) by by_compute.
  pose proof sample_card_well_formed as H9.
  destruct (X10_submit_through_page ui w 0 sample_card 1 "B"
              H1 H2 H3 H4 H5 H6 H7 H8 H9 eq_refl eq_refl eq_refl)
    as (Hl&_&_&_&_&_&Hinc).
  split; [exact H1|]. split; [exact H2|]. split; [exact H3|]. split; [exact H4|].
  split; [exact H5|]. split; [exact H6|]. split; [exact H7|]. split; [exact H8|].
  split; [exact H9|]. split; [exact Hl|].
  destruct (Hinc ltac:(discriminate)) as (_&Hi&_). exact Hi.
Defined.

(** ** How one run of [main] changes the quiz dictionary *)

Section MainSteps.

(** A relation between the dictionary before and after, closed under the
    assignments and handlers [main] can perform on a given bank. *)
Variable R : list Question → QuizData → QuizData → Prop.

Hypothesis R_refl : ∀ fl a, R fl a a.
Hypothesis R_trans : ∀ fl a b c, R fl a b → R fl b c → R fl a c.
Hypothesis R_submit : ∀ fl card a, card ∈ fl → R fl a (submit_card card a).
Hypothesis R_show : ∀ fl card a, card ∈ fl → R fl a (show_answer_card card a).
Hypothesis R_next : ∀ fl a, R fl a (next_question_flags a).
Hypothesis R_selected : ∀ fl v a, R fl a (set_user_selected_option v a).
Hypothesis R_display : ∀ fl v a, R fl a (set_current_options_display v a).
Hypothesis R_last : ∀ fl v a, R fl a (set_last_answer_correct v a).
Hypothesis R_recorded : ∀ fl a, R fl a (set_results_recorded true a).

Lemma main_question_related click radio rnd available w :
  R (w_flashcards w) (w_quiz w) (w_quiz (main_question click radio rnd available w)).
Proof.
  unfold main_question.
  assert (Hsel : R (w_flashcards w) (w_quiz w) (w_quiz (select_current rnd available w)) ∧
                 w_flashcards (select_current rnd available w) = w_flashcards w).
  { unfold select_current. destruct (w_current w); [done|]. split; [|done]. cbn.
    eapply R_trans; [apply R_display|]. eapply R_trans; [apply R_selected|]. apply R_last. }
  destruct Hsel as [Hsel Hf].
  destruct (w_current (select_current rnd available w)) as [i|]; [|done].
  destruct (w_flashcards (select_current rnd available w) !! i) as [card|] eqn:Hcard;
    [|done].
  unfold display_question.
  set (qd := set_user_selected_option _ _).
  set (w1 := with_view _ _).
  assert (Hqd : R (w_flashcards w) (w_quiz w) qd).
  { eapply R_trans; [exact Hsel|]. subst qd.
    eapply R_trans; [apply R_display|]. apply R_selected. }
  assert (Hcard1 : w_flashcards w1 !! i = Some card) by exact Hcard.
  assert (Hin : card ∈ w_flashcards w).
  { rewrite <- Hf. by eapply list_elem_of_lookup_2. }
  destruct (_ || _).
  - destruct (decide (click = ClickNext)); [|done].
    cbn. eapply R_trans; [exact Hqd|]. apply R_next.
  - destruct (decide (click = ClickSubmit)).
    + destruct (_ <$> _); [|done]. rewrite (handle_submit_some _ _ _ Hcard1).
      cbn. eapply R_trans; [exact Hqd|]. by apply R_submit.
    + destruct (decide (click = ClickShowAnswer)); [|done].
      rewrite (handle_show_answer_some _ _ _ Hcard1).
      cbn. eapply R_trans; [exact Hqd|]. by apply R_show.
Qed.

(** A run in which no start or restart takes effect. *)
Lemma main_related ui w :
  quiz_started (w_quiz w) = true → ui_click ui ≠ ClickRestart →
  R (w_flashcards w) (w_quiz w) (w_quiz (main ui w)).
Proof.
  intros Hst Hui. unfold main.
  set (click := if w_rerun w then NoClick else ui_click ui).
  assert (Hclick : click ≠ ClickRestart) by (subst click; by destruct (w_rerun w)).
  set (w0 := with_view ViewNothing (with_rerun false w)).
  destruct (main_user_same (ui_user_name ui) w0) as (Hq&Hf&_).
  set (w1 := main_user (ui_user_name ui) w0) in *.
  assert (Hq1 : w_quiz w1 = w_quiz w) by (by rewrite Hq).
  assert (Hf1 : w_flashcards w1 = w_flashcards w) by (by rewrite Hf).
  rewrite Hq1, Hst.
  rewrite (bool_decide_eq_false_2 (click = ClickRestart)) by done.
  rewrite andb_false_r. destruct (bool_decide _).
  - unfold main_finished. rewrite decide_False by done.
    cbn [w_quiz with_view]. rewrite Hq1.
    destruct (results_recorded (w_quiz w)); [cbn [w_quiz with_view]; by rewrite Hq1|].
    destruct (record_quiz_attempt_quiz (ui_now ui) (with_view ViewResults w1)) as (Hrq&_).
    cbn [w_quiz with_quiz]. rewrite Hrq. cbn. rewrite Hq1. apply R_recorded.
  - rewrite <- Hq1, <- Hf1. apply main_question_related.
Qed.

(** A run that may start or restart the quiz, for relations that hold
    towards the default dictionary. *)
Hypothesis R_default : ∀ fl a, R fl a _get_default_quiz_state.

Lemma main_related_any ui w :
  R (w_flashcards w) (w_quiz w) (w_quiz (main ui w)).
Proof.
  unfold main.
  set (click := if w_rerun w then NoClick else ui_click ui).
  set (w0 := with_view ViewNothing (with_rerun false w)).
  destruct (main_user_same (ui_user_name ui) w0) as (Hq&Hf&_).
  set (w1 := main_user (ui_user_name ui) w0) in *.
  assert (Hq1 : w_quiz w1 = w_quiz w) by (by rewrite Hq).
  assert (Hf1 : w_flashcards w1 = w_flashcards w) by (by rewrite Hf).
  rewrite Hq1. destruct (quiz_started (w_quiz w)).
  - destruct (_ && _); [apply R_default|]. destruct (bool_decide _).
    + unfold main_finished. destruct (decide (click = ClickRestart)); [apply R_default|].
      cbn [w_quiz with_view]. rewrite Hq1.
      destruct (results_recorded (w_quiz w)); [cbn [w_quiz with_view]; by rewrite Hq1|].
      destruct (record_quiz_attempt_quiz (ui_now ui) (with_view ViewResults w1)) as (Hrq&_).
      cbn [w_quiz with_quiz]. rewrite Hrq. cbn. rewrite Hq1. apply R_recorded.
    + rewrite <- Hq1, <- Hf1. apply main_question_related.
  - destruct (decide (click = ClickStart)); [apply R_default|]. cbn. by rewrite Hq1.
Qed.

End MainSteps.

(** ** Invariants of a session *)

(** No run changes the bank. *)
Lemma main_question_flashcards click radio rnd available w :
  w_flashcards (main_question click radio rnd available w) = w_flashcards w.
Proof.
  unfold main_question.
  assert (Hf : w_flashcards (select_current rnd available w) = w_flashcards w).
  { unfold select_current. by destruct (w_current w). }
  destruct (w_current (select_current rnd available w)) as [i|]; [|done].
  destruct (w_flashcards (select_current rnd available w) !! i) as [card|] eqn:Hcard;
    [|done].
  unfold display_question. set (w1 := with_view _ _).
  assert (Hcard1 : w_flashcards w1 !! i = Some card) by exact Hcard.
  destruct (_ || _).
  - by destruct (decide (click = ClickNext)).
  - destruct (decide (click = ClickSubmit)).
    + destruct (_ <$> _); [|done]. by rewrite (handle_submit_some _ _ _ Hcard1).
    + destruct (decide (click = ClickShowAnswer)); [|done].
      by rewrite (handle_show_answer_some _ _ _ Hcard1).
Qed.

Lemma main_flashcards ui w : w_flashcards (main ui w) = w_flashcards w.
Proof.
  unfold main.
  set (click := if w_rerun w then NoClick else ui_click ui).
  set (w0 := with_view ViewNothing (with_rerun false w)).
  destruct (main_user_same (ui_user_name ui) w0) as (_&Hf&_).
  set (w1 := main_user (ui_user_name ui) w0) in *.
  assert (Hf1 : w_flashcards w1 = w_flashcards w) by (by rewrite Hf).
  destruct (quiz_started _).
  - destruct (_ && _); [done|]. destruct (bool_decide _).
    + unfold main_finished. destruct (decide (click = ClickRestart)); [done|].
      cbn [w_quiz with_view]. destruct (results_recorded (w_quiz w1)); [done|].
      destruct (record_quiz_attempt_quiz (ui_now ui) (with_view ViewResults w1)) as (_&Hrf&_).
      cbn [w_flashcards with_quiz]. by rewrite Hrf.
    + by rewrite main_question_flashcards.
  - by destruct (decide (click = ClickStart)).
Qed.

Lemma run_session_flashcards inputs w :
  w_flashcards (run_session inputs w) = w_flashcards w.
Proof.
  revert w. induction inputs as [|ui inputs IH]; intros w; [done|].
  change (run_session (ui :: inputs) w) with (run_session inputs (main ui w)).
  by rewrite IH, main_flashcards.
Qed.

Section SessionInvariant.

Variable P : list Question → QuizData → Prop.

Hypothesis P_default : ∀ fl, P fl _get_default_quiz_state.
Hypothesis P_submit : ∀ fl card a, card ∈ fl → P fl a → P fl (submit_card card a).
Hypothesis P_show : ∀ fl card a, card ∈ fl → P fl a → P fl (show_answer_card card a).
Hypothesis P_next : ∀ fl a, P fl a → P fl (next_question_flags a).
Hypothesis P_selected : ∀ fl v a, P fl a → P fl (set_user_selected_option v a).
Hypothesis P_display : ∀ fl v a, P fl a → P fl (set_current_options_display v a).
Hypothesis P_last : ∀ fl v a, P fl a → P fl (set_last_answer_correct v a).
Hypothesis P_recorded : ∀ fl a, P fl a → P fl (set_results_recorded true a).

Lemma main_keeps ui w :
  P (w_flashcards w) (w_quiz w) → P (w_flashcards w) (w_quiz (main ui w)).
Proof.
  apply (main_related_any (λ fl a b, P fl a → P fl b)); auto.
Qed.

Lemma run_session_keeps inputs w :
  P (w_flashcards w) (w_quiz w) →
  P (w_flashcards w) (w_quiz (run_session inputs w)).
Proof.
  revert w. induction inputs as [|ui inputs IH]; intros w HP; [done|].
  change (run_session (ui :: inputs) w) with (run_session inputs (main ui w)).
  rewrite <- (main_flashcards ui w). apply IH.
  rewrite main_flashcards. by apply main_keeps.
Qed.

End SessionInvariant.

Lemma size_list_to_set_le (l : list nat) : size (list_to_set l : gset nat) ≤ length l.
Proof.
  induction l as [|x l IH]; [by rewrite list_to_set_nil, size_empty|].
  rewrite list_to_set_cons. cbn [length].
  destruct (decide (x ∈ (list_to_set l : gset nat))) as [Hin|Hout].
  - rewrite used_add_elem by done. lia.
  - rewrite size_add_fresh by done. lia.
Qed.

Lemma used_size_bound flashcards (used : gset nat) :
  (∀ x, x ∈ used → ∃ q, q ∈ flashcards ∧ original_index q = x) →
  size used ≤ length flashcards.
Proof.
  intros Hsub.
  assert (Hincl : used ⊆ list_to_set (original_index <$> flashcards)).
  { intros x (q&Hq&<-)%Hsub. apply elem_of_list_to_set. by apply list_elem_of_fmap_2. }
  apply subseteq_size in Hincl.
  pose proof (size_list_to_set_le (original_index <$> flashcards)) as Hle.
  rewrite length_fmap in Hle. lia.
Qed.

Lemma setters_keep_tallies quiz_data :
  (∀ v, tallies (set_user_selected_option v quiz_data) = tallies quiz_data ∧
        used_questions (set_user_selected_option v quiz_data) = used_questions quiz_data) ∧
  (∀ v, tallies (set_current_options_display v quiz_data) = tallies quiz_data ∧
        used_questions (set_current_options_display v quiz_data) = used_questions quiz_data) ∧
  (∀ v, tallies (set_last_answer_correct v quiz_data) = tallies quiz_data ∧
        used_questions (set_last_answer_correct v quiz_data) = used_questions quiz_data) ∧
  (∀ v, tallies (set_results_recorded v quiz_data) = tallies quiz_data ∧
        used_questions (set_results_recorded v quiz_data) = used_questions quiz_data) ∧
  tallies (next_question_flags quiz_data) = tallies quiz_data ∧
  used_questions (next_question_flags quiz_data) = used_questions quiz_data.
Proof. by destruct quiz_data. Qed.

Lemma logs_match_counts_tallies a b :
  tallies b = tallies a → logs_match_counts a → logs_match_counts b.
Proof.
  intros (E1&E2&E3&E4)%tallies_inv. unfold logs_match_counts. by rewrite E1, E2, E3, E4.
Qed.

Lemma submit_card_logs card a : logs_match_counts a → logs_match_counts (submit_card card a).
Proof.
  intros [H1 H2].
  destruct (decide (original_index card ∈ used_questions a)) as [Hused|Hfresh].
  - destruct (submit_card_used card a Hused) as (Ht&_).
    by apply (logs_match_counts_tallies a).
  - destruct (check_answer (user_selected_option a) (correct_option_letter card)) eqn:Hc.
    + destruct (submit_card_fresh_correct card a Hfresh Hc) as (E1&E2&E3&E4&_).
      split; [rewrite E1, E3, length_app; cbn; lia|by rewrite E2, E4].
    + destruct (submit_card_fresh_incorrect card a Hfresh Hc) as (E1&E2&E3&E4&_).
      split; [by rewrite E1, E3|rewrite E2, E4, length_app; cbn; lia].
Qed.

Lemma show_answer_card_logs card a :
  logs_match_counts a → logs_match_counts (show_answer_card card a).
Proof.
  intros [H1 H2].
  destruct (decide (original_index card ∈ used_questions a)) as [Hused|Hfresh].
  - destruct (show_answer_card_used card a Hused) as (Ht&_).
    by apply (logs_match_counts_tallies a).
  - destruct (show_answer_card_fresh card a Hfresh) as (E1&E2&E3&E4&_).
    split; [by rewrite E1, E3|rewrite E2, E4, length_app; cbn; lia].
Qed.

(** X11: in every state of a session, from the load on and through any
    runs of [main] (restarts included), each review list has as many
    entries as its count says, and the two counts together never exceed
    the number of questions of the bank. *)
Theorem X11_counts_logs_and_bank_size user flashcards results inputs :
  let w := run_session inputs (loaded_world user flashcards results) in
  length (correct_questions (w_quiz w)) = correct_count (w_quiz w) ∧
  length (incorrect_questions (w_quiz w)) = incorrect_count (w_quiz w) ∧
  correct_count (w_quiz w) + incorrect_count (w_quiz w) ≤ length flashcards.
Proof.
  intros w.
  assert (Hlogs : logs_match_counts (w_quiz w)).
  { apply (run_session_keeps (λ _ a, logs_match_counts a)).
    - done.
    - intros _ card a _. apply submit_card_logs.
    - intros _ card a _. apply show_answer_card_logs.
    - intros _ a. apply logs_match_counts_tallies, setters_keep_tallies.
    - intros _ v a. apply logs_match_counts_tallies, setters_keep_tallies.
    - intros _ v a. apply logs_match_counts_tallies, setters_keep_tallies.
    - intros _ v a. apply logs_match_counts_tallies, setters_keep_tallies.
    - intros _ a. apply logs_match_counts_tallies, setters_keep_tallies.
    - done. }
  destruct Hlogs as [H1 H2]. split; [done|]. split; [done|].
  assert (Hinit : world_inv (loaded_world user flashcards results)).
  { split; cbn; [by rewrite size_empty|]. intros x Hx. by apply not_elem_of_empty in Hx. }
  destruct (run_session_inv inputs _ Hinit) as [[Hsize Hsub] Hf]. fold w in Hsize, Hsub, Hf.
  rewrite Hsize. cbn in Hf. rewrite <- Hf. by apply used_size_bound.
Qed.

Lemma attempt_grows_refl a : attempt_grows a a.
Proof. by repeat split. Qed.

Lemma attempt_grows_trans a b c : attempt_grows a b → attempt_grows b c → attempt_grows a c.
Proof.
  intros (H1&H2&H3&H4&H5) (K1&K2&K3&K4&K5). repeat split; try lia.
  - by etrans.
  - by etrans.
  - by etrans.
Qed.

Lemma attempt_grows_same a b :
  tallies b = tallies a → used_questions b = used_questions a → attempt_grows a b.
Proof.
  intros (E1&E2&E3&E4)%tallies_inv Hu. unfold attempt_grows.
  by rewrite E1, E2, E3, E4, Hu.
Qed.

Lemma submit_card_grows card a : attempt_grows a (submit_card card a).
Proof.
  destruct (decide (original_index card ∈ used_questions a)) as [Hused|Hfresh].
  - destruct (submit_card_used card a Hused) as (Ht&Hu&_). by apply attempt_grows_same.
  - destruct (check_answer (user_selected_option a) (correct_option_letter card)) eqn:Hc.
    + destruct (submit_card_fresh_correct card a Hfresh Hc) as (E1&E2&E3&E4&Hu&_).
      unfold attempt_grows. rewrite E1, E2, E3, E4, Hu.
      repeat split; try lia; try done.
      * apply union_subseteq_r.
      * by apply prefix_app_r.
    + destruct (submit_card_fresh_incorrect card a Hfresh Hc) as (E1&E2&E3&E4&Hu&_).
      unfold attempt_grows. rewrite E1, E2, E3, E4, Hu.
      repeat split; try lia; try done.
      * apply union_subseteq_r.
      * by apply prefix_app_r.
Qed.

Lemma show_answer_card_grows card a : attempt_grows a (show_answer_card card a).
Proof.
  destruct (decide (original_index card ∈ used_questions a)) as [Hused|Hfresh].
  - destruct (show_answer_card_used card a Hused) as (Ht&Hu&_). by apply attempt_grows_same.
  - destruct (show_answer_card_fresh card a Hfresh) as (E1&E2&E3&E4&Hu&_).
    unfold attempt_grows. rewrite E1, E2, E3, E4, Hu.
    repeat split; try lia; try done.
    + apply union_subseteq_r.
    + by apply prefix_app_r.
Qed.

Lemma setters_keep_started quiz_data :
  (∀ v, quiz_started (set_user_selected_option v quiz_data) = quiz_started quiz_data) ∧
  (∀ v, quiz_started (set_current_options_display v quiz_data) = quiz_started quiz_data) ∧
  (∀ v, quiz_started (set_last_answer_correct v quiz_data) = quiz_started quiz_data) ∧
  (∀ v, quiz_started (set_results_recorded v quiz_data) = quiz_started quiz_data) ∧
  quiz_started (next_question_flags quiz_data) = quiz_started quiz_data.
Proof. by destruct quiz_data. Qed.

(** One run without a restart continues the attempt and keeps the quiz
    started. *)
Lemma main_grows ui w :
  quiz_started (w_quiz w) = true → ui_click ui ≠ ClickRestart →
  attempt_grows (w_quiz w) (w_quiz (main ui w)) ∧ quiz_started (w_quiz (main ui w)) = true.
Proof.
  intros Hst Hui.
  assert (H : attempt_grows (w_quiz w) (w_quiz (main ui w)) ∧
              (quiz_started (w_quiz w) = true → quiz_started (w_quiz (main ui w)) = true)).
  { apply (main_related
             (λ _ a b, attempt_grows a b ∧ (quiz_started a = true → quiz_started b = true))).
    - intros _ a. split; [apply attempt_grows_refl|done].
    - intros _ a b c [H1 H2] [H3 H4]. split; [by eapply attempt_grows_trans|auto].
    - intros _ card a _. split; [apply submit_card_grows|].
      by destruct (submit_card_flags card a) as [_ ->].
    - intros _ card a _. split; [apply show_answer_card_grows|].
      by destruct (show_answer_card_flags card a) as [_ ->].
    - intros _ a. destruct (setters_keep_tallies a) as (_&_&_&_&Ht&Hu).
      destruct (setters_keep_started a) as (_&_&_&_&->).
      split; [by apply attempt_grows_same|done].
    - intros _ v a. destruct (setters_keep_tallies a) as (H&_). destruct (H v).
      destruct (setters_keep_started a) as (->&_).
      split; [by apply attempt_grows_same|done].
    - intros _ v a. destruct (setters_keep_tallies a) as (_&H&_). destruct (H v).
      destruct (setters_keep_started a) as (_&->&_).
      split; [by apply attempt_grows_same|done].
    - intros _ v a. destruct (setters_keep_tallies a) as (_&_&H&_). destruct (H v).
      destruct (setters_keep_started a) as (_&_&->&_).
      split; [by apply attempt_grows_same|done].
    - intros _ a. destruct (setters_keep_tallies a) as (_&_&_&H&_). destruct (H true).
      destruct (setters_keep_started a) as (_&_&_&->&_).
      split; [by apply attempt_grows_same|done].
    - done.
    - done. }
  destruct H as [H1 H2]. auto.
Qed.

(** X12: as long as no restart is clicked, a started attempt only moves
    forward: across any runs of [main] the used set keeps its elements,
    neither count decreases, and the two review lists keep their entries
    in place (later entries are appended at the end). *)
Theorem X12_attempt_only_grows inputs w :
  quiz_started (w_quiz w) = true →
  Forall (λ ui, ui_click ui ≠ ClickRestart) inputs →
  used_questions (w_quiz w) ⊆ used_questions (w_quiz (run_session inputs w)) ∧
  correct_count (w_quiz w) ≤ correct_count (w_quiz (run_session inputs w)) ∧
  incorrect_count (w_quiz w) ≤ incorrect_count (w_quiz (run_session inputs w)) ∧
  correct_questions (w_quiz w) `prefix_of` correct_questions (w_quiz (run_session inputs w)) ∧
  incorrect_questions (w_quiz w)
    `prefix_of` incorrect_questions (w_quiz (run_session inputs w)).
Proof.
  intros Hst Hall. revert w Hst.
  induction Hall as [|ui inputs Hui _ IH]; intros w Hst; [apply attempt_grows_refl|].
  change (run_session (ui :: inputs) w) with (run_session inputs (main ui w)).
  destruct (main_grows ui w Hst Hui) as [Hg Hst'].
  exact (attempt_grows_trans _ _ _ Hg (IH _ Hst')).
Qed.

Lemma X12_attempt_only_grows_witness :
  quiz_started (w_quiz sample_resolved) = true ∧
  Forall (λ ui, ui_click ui ≠ ClickRestart)
    [idle "ann"; press "ann" None ClickNext "t"; idle "ann";
     press "ann" None ClickShowAnswer "t"] ∧
  used_questions (w_quiz sample_resolved)
    ⊆ used_questions
        (w_quiz (run_session [idle "ann"; press "ann" None ClickNext "t"; idle "ann";
                              press "ann" None ClickShowAnswer "t"] sample_resolved)) ∧
  incorrect_count
    (w_quiz (run_session [idle "ann"; press "ann" None ClickNext "t"; idle "ann";
                          press "ann" None ClickShowAnswer "t"] sample_resolved)) = 1.
Proof.
  assert (H1 : quiz_started (w_quiz sample_resolved) = true) by (vm_compute; reflexivity).
  assert (H2 : Forall (λ ui, ui_click ui ≠ ClickRestart)
                 [idle "ann"; press "ann" None ClickNext "t"; idle "ann";
                  press "ann" None ClickShowAnswer "t"])
    by (repeat constructor; discriminate).
  split; [exact H1|]. split; [exact H2|].
  split; [|vm_compute; reflexivity].
  exact (proj1 (X12_attempt_only_grows _ sample_resolved H1 H2)).
Defined.

(** ** The phase of the displayed question *)

Lemma phase_inv_unresolved w :
  submitted (w_quiz w) = false → show_answer_clicked (w_quiz w) = false → phase_inv w.
Proof. intros Hs Hc. split; intros H; congruence. Qed.

Lemma main_question_phase click radio rnd available w :
  phase_inv w → phase_inv (main_question click radio rnd available w).
Proof.
  intros Hinv. unfold main_question.
  assert (Hsel : phase_inv (select_current rnd available w)).
  { unfold select_current. destruct (w_current w) eqn:Hcur; [done|].
    destruct Hinv as [Hc Hs].
    assert (Hsub : submitted (w_quiz w) = false).
    { destruct (submitted (w_quiz w)); [|done].
      destruct (Hs eq_refl) as (_&i&card&Hi&_). congruence. }
    assert (Hclk : show_answer_clicked (w_quiz w) = false).
    { destruct (show_answer_clicked (w_quiz w)); [|done]. rewrite Hc in Hsub; done. }
    by apply phase_inv_unresolved. }
  set (ws := select_current rnd available w) in *.
  destruct (w_current ws) as [i|] eqn:Hcur; [|done].
  destruct (w_flashcards ws !! i) as [card|] eqn:Hcard; [|done].
  unfold display_question.
  set (qd := set_user_selected_option _ _).
  set (w1 := with_view _ _).
  assert (Hcard1 : w_flashcards w1 !! i = Some card) by exact Hcard.
  assert (Hinv1 : phase_inv w1) by exact Hsel.
  destruct (submitted qd || show_answer_clicked qd) eqn:Hfl.
  - destruct (decide (click = ClickNext)); [|done]. by apply phase_inv_unresolved.
  - apply orb_false_iff in Hfl as [Hsub Hclk].
    destruct (decide (click = ClickSubmit)).
    + destruct (_ <$> _); [|done]. rewrite (handle_submit_some _ _ _ Hcard1).
      cbn [from_option id]. unfold phase_inv.
      cbn [w_quiz w_current w_flashcards st_rerun with_rerun with_quiz w1 with_view].
      destruct (submit_card_phase card qd) as (Hs1&Hs2&Hs3&_).
      rewrite Hs1, Hs2, Hs3, Hclk. split; [done|]. intros _. split; [done|].
      exists i, card. split; [done|]. split; [done|]. apply submit_card_marks_used.
    + destruct (decide (click = ClickShowAnswer)); [|done].
      rewrite (handle_show_answer_some _ _ _ Hcard1).
      cbn [from_option id]. unfold phase_inv.
      cbn [w_quiz w_current w_flashcards st_rerun with_rerun with_quiz w1 with_view].
      destruct (show_answer_card_phase card qd) as (Hs1&Hs2&Hs3&_).
      rewrite Hs1, Hs2, Hs3. split; [done|]. intros _. split; [done|].
      exists i, card. split; [done|]. split; [done|]. apply show_answer_card_marks_used.
Qed.

Lemma main_phase ui w : phase_inv w → phase_inv (main ui w).
Proof.
  intros Hinv. unfold main.
  set (click := if w_rerun w then NoClick else ui_click ui).
  set (w0 := with_view ViewNothing (with_rerun false w)).
  assert (Hinv1 : phase_inv (main_user (ui_user_name ui) w0)).
  { unfold main_user. cbn. by destruct (w_user w), (PyStr.truthy _). }
  set (w1 := main_user (ui_user_name ui) w0) in *.
  destruct (quiz_started _).
  - destruct (_ && _); [by apply phase_inv_unresolved|]. destruct (bool_decide _).
    + unfold main_finished.
      destruct (decide (click = ClickRestart)); [by apply phase_inv_unresolved|].
      cbn [w_quiz with_view]. destruct (results_recorded (w_quiz w1)); [done|].
      destruct (record_quiz_attempt_quiz (ui_now ui) (with_view ViewResults w1))
        as (Hq&Hf&Hc&_).
      unfold phase_inv. cbn [w_quiz w_current w_flashcards with_quiz].
      rewrite Hq, Hf, Hc. exact Hinv1.
    + by apply main_question_phase.
  - destruct (decide (click = ClickStart)); [by apply phase_inv_unresolved|done].
Qed.

(** X13: in every state of a session the phase flags agree with the
    bookkeeping: a reveal always counts as a submission, and whenever the
    page is in the resolved phase (the one that offers the next button)
    the answer is shown, there is a current question, and its original
    index is in the used set. *)
Theorem X13_resolved_phase_is_consistent user flashcards results inputs :
  let w := run_session inputs (loaded_world user flashcards results) in
  (show_answer_clicked (w_quiz w) = true → submitted (w_quiz w) = true) ∧
  (submitted (w_quiz w) = true →
   show_answer (w_quiz w) = true ∧
   ∃ i card, w_current w = Some i ∧ flashcards !! i = Some card ∧
             original_index card ∈ used_questions (w_quiz w)).
Proof.
  intros w.
  assert (Hinv : phase_inv w).
  { subst w. generalize (loaded_world user flashcards results),
      (phase_inv_unresolved (loaded_world user flashcards results) eq_refl eq_refl).
    induction inputs as [|ui inputs IH]; intros w0 H0; [done|].
    change (run_session (ui :: inputs) w0) with (run_session inputs (main ui w0)).
    by apply IH, main_phase. }
  destruct Hinv as [H1 H2]. split; [done|].
  intros Hs. destruct (H2 Hs) as (Hshow&i&card&Hi&Hcard&Hused). split; [done|].
  exists i, card. split; [done|]. split; [|done].
  subst w. by rewrite run_session_flashcards in Hcard.
Qed.

(** ** Restart, remaining questions and the finishing run *)

(** X14: in a started quiz a click on restart, whether the quiz is
    finished or not, puts the quiz dictionary back to its default (empty
    used set, counts 0, empty review lists, flags cleared, no recorded
    flag), forgets the current question and asks for a rerun, and leaves
    the bank and the results file as they are. *)
Theorem X14_restart_resets ui w :
  quiz_started (w_quiz w) = true → w_rerun w = false → ui_click ui = ClickRestart →
  w_quiz (main ui w) = _get_default_quiz_state ∧
  w_current (main ui w) = None ∧ w_rerun (main ui w) = true ∧
  w_flashcards (main ui w) = w_flashcards w ∧
  w_results (main ui w) = w_results w.
Proof.
  intros Hst Hrr Hclick. unfold main. rewrite Hrr, Hclick.
  destruct (main_user_same (ui_user_name ui) (with_view ViewNothing (with_rerun false w)))
    as (Hq&Hf&_&Hr).
  set (w1 := main_user _ _) in *.
  rewrite Hq. cbn [w_quiz with_view with_rerun]. rewrite Hst.
  rewrite (bool_decide_eq_true_2 (ClickRestart = ClickRestart)) by done.
  destruct (bool_decide _); cbn [negb andb].
  - unfold main_finished. rewrite decide_True by done. cbn. by rewrite Hf, Hr.
  - cbn. by rewrite Hf, Hr.
Qed.

Lemma X14_restart_resets_witness :
  quiz_started (w_quiz sample_reselected) = true ∧ w_rerun sample_reselected = true ∧
  let w := main (idle "ann") sample_reselected in
  quiz_started (w_quiz w) = true ∧ w_rerun w = false ∧
  correct_count (w_quiz w) = 1 ∧
  correct_count (w_quiz (main (press "ann" None ClickRestart "t") w)) = 0 ∧
  used_questions (w_quiz (main (press "ann" None ClickRestart "t") w)) = ∅.
Proof.
  split; [vm_compute; reflexivity|]. split; [vm_compute; reflexivity|].
  intros w.
  assert (H1 : quiz_started (w_quiz w) = true) by (vm_compute; reflexivity).
  assert (H2 : w_rerun w = false) by (vm_compute; reflexivity).
  split; [exact H1|]. split; [exact H2|]. split; [vm_compute; reflexivity|].
  destruct (X14_restart_resets (press "ann" None ClickRestart "t") w H1 H2 eq_refl)
    as (Hq&_).
  rewrite Hq. split; reflexivity.
Defined.

Lemma available_count (used : gset nat) n :
  (∀ x, x ∈ used → x < n) →
  length (filter (λ i, i ∉ used) (seq 0 n)) + size used = n.
Proof.
  intros Hlt.
  set (av := filter (λ i, i ∉ used) (seq 0 n)).
  assert (Hnd : NoDup av) by (apply NoDup_filter, NoDup_seq).
  rewrite <- (size_list_to_set (C:=gset nat) av) by done.
  assert (Hdisj : (list_to_set av : gset nat) ## used).
  { intros x [Hx _]%elem_of_list_to_set%list_elem_of_filter Hu. done. }
  rewrite <- size_union by done.
  assert (Hall : (list_to_set av : gset nat) ∪ used = list_to_set (seq 0 n)).
  { apply set_eq. intros x. rewrite elem_of_union, !elem_of_list_to_set.
    subst av. rewrite list_elem_of_filter, elem_of_seq. split.
    - intros [[_ ?]|Hx]; [lia|]. specialize (Hlt x Hx). lia.
    - intros Hx. destruct (decide (x ∈ used)); [by right|left; split; [done|lia]]. }
  rewrite Hall, size_list_to_set by apply NoDup_seq. apply length_seq.
Qed.

(** X15: on an aligned bank the progress line is exact: in every state
    of a session the number of positions still available plus the two
    counts is the number of questions, so that when nothing is left to
    draw, which is when the results are shown, every question has been
    counted exactly once. *)
Theorem X15_remaining_plus_counts user flashcards results inputs :
  aligned flashcards →
  let w := run_session inputs (loaded_world user flashcards results) in
  length (available_indices flashcards (used_questions (w_quiz w)))
    + correct_count (w_quiz w) + incorrect_count (w_quiz w) = length flashcards ∧
  (available_indices flashcards (used_questions (w_quiz w)) = [] →
   correct_count (w_quiz w) + incorrect_count (w_quiz w) = length flashcards).
Proof.
  intros Hal w.
  assert (Hinit : world_inv (loaded_world user flashcards results)).
  { split; cbn; [by rewrite size_empty|]. intros x Hx. by apply not_elem_of_empty in Hx. }
  destruct (run_session_inv inputs _ Hinit) as [[Hsize Hsub] Hf]. fold w in Hsize, Hsub, Hf.
  cbn in Hf. rewrite Hf in Hsub.
  assert (Hlt : ∀ x, x ∈ used_questions (w_quiz w) → x < length flashcards).
  { intros x (q&[i Hi]%list_elem_of_lookup_1&<-)%Hsub.
    rewrite (Hal i q Hi). by eapply lookup_lt_Some. }
  pose proof (available_count _ _ Hlt) as Hcount.
  fold (available_indices flashcards (used_questions (w_quiz w))) in Hcount.
  split; [lia|]. intros Hnil. rewrite Hnil in Hcount. cbn in Hcount. lia.
Qed.

Lemma sample_bank_aligned : aligned sample_bank.
Proof.
  intros i q Hi.
  assert (Hx : map original_index sample_bank !! i = Some (original_index q)).
  { change (map original_index ?l) with (original_index <$> l).
    by rewrite list_lookup_fmap, Hi. }
  change (map original_index sample_bank) with (seq 0 2) in Hx.
  apply lookup_seq in Hx. lia.
Qed.

Lemma X15_remaining_plus_counts_witness :
  aligned sample_bank ∧
  let w := run_session (finishing_session "ann") (loaded_world (Some "ann") sample_bank []) in
  length (available_indices sample_bank (used_questions (w_quiz w)))
    + correct_count (w_quiz w) + incorrect_count (w_quiz w) = 2.
Proof.
  split; [exact sample_bank_aligned|].
  exact (proj1 (X15_remaining_plus_counts (Some "ann") sample_bank []
                  (finishing_session "ann") sample_bank_aligned)).
Defined.

(** X16: the finishing run of an attempt whose active user name is usable
    (not empty, not Unknown) shows the results, appends exactly one row to
    the results file, with the time of that run, the active name, the two
    counts, the size of the bank and the joined incorrect entries, and
    sets the recorded flag. *)
Theorem X16_finishing_run_records ui w name :
  quiz_started (w_quiz w) = true →
  available_indices (w_flashcards w) (used_questions (w_quiz w)) = [] →
  results_recorded (w_quiz w) = false →
  ui_click ui ≠ ClickRestart →
  w_user (main_user (ui_user_name ui) w) = Some name → name ≠ "" → name ≠ "Unknown" →
  w_view (main ui w) = ViewResults ∧
  results_recorded (w_quiz (main ui w)) = true ∧
  w_results (main ui w) =
    w_results w ++
      [{| Timestamp := ui_now ui;
          User := name;
          CorrectCount := correct_count (w_quiz w);
          IncorrectCount := incorrect_count (w_quiz w);
          TotalQuestions := length (w_flashcards w);
          IncorrectDetails := incorrect_questions_str (incorrect_questions (w_quiz w)) |}].
Proof.
  intros Hst Hnil Hfl Hui Huser Hne Hnu. unfold main.
  set (click := if w_rerun w then NoClick else ui_click ui).
  assert (Hclick : click ≠ ClickRestart) by (subst click; by destruct (w_rerun w)).
  set (w0 := with_view ViewNothing (with_rerun false w)).
  destruct (main_user_same (ui_user_name ui) w0) as (Hq&Hf&_&Hr).
  pose proof (main_user_view_rerun (ui_user_name ui) w ViewNothing false) as Hu.
  fold w0 in Hu.
  set (w1 := main_user (ui_user_name ui) w0) in *.
  assert (Hq1 : w_quiz w1 = w_quiz w) by (by rewrite Hq).
  assert (Hf1 : w_flashcards w1 = w_flashcards w) by (by rewrite Hf).
  assert (Hr1 : w_results w1 = w_results w) by (by rewrite Hr).
  rewrite Hq1, Hf1, Hst, Hnil.
  rewrite (bool_decide_eq_true_2 ([] = [])) by done. cbn [negb andb].
  unfold main_finished. rewrite decide_False by done.
  cbn [w_quiz with_view]. rewrite Hq1, Hfl.
  set (w2 := with_view ViewResults w1).
  assert (Hu2 : w_user w2 = Some name) by (subst w2; cbn; by rewrite Hu).
  pose proof (record_quiz_attempt_usable (ui_now ui) w2 name Hu2 Hne Hnu) as Hrec.
  destruct (record_quiz_attempt_quiz (ui_now ui) w2) as (Hrq&_).
  cbn [w_view w_quiz w_results with_quiz]. rewrite Hrec.
  split.
  - unfold record_quiz_attempt. by destruct (_ || _).
  - split; [done|]. subst w2. cbn [w_quiz w_results w_flashcards with_view].
    by rewrite Hq1, Hf1, Hr1.
Qed.

Lemma X16_finishing_run_witness :
  quiz_started (w_quiz anonymous_attempt) = true ∧
  available_indices (w_flashcards anonymous_attempt)
    (used_questions (w_quiz anonymous_attempt)) = [] ∧
  results_recorded (w_quiz anonymous_attempt) = false ∧
  w_user (main_user (ui_user_name (final_run "bea")) anonymous_attempt) = Some "bea" ∧
  w_results (main (final_run "bea") anonymous_attempt) =
    [{| Timestamp := "2026-11-04T12:00:00"; User := "bea";
        CorrectCount := 1; IncorrectCount := 1; TotalQuestions := 2;
        IncorrectDetails := "Q: Founder of Rome? | A: Romulus | Your: No answer" |}].
Proof.
  assert (H1 : quiz_started (w_quiz anonymous_attempt) = true) by (vm_compute; reflexivity).
  assert (H2 : available_indices (w_flashcards anonymous_attempt)
                 (used_questions (w_quiz anonymous_attempt)) = [])
    by (vm_compute; reflexivity).
  assert (H3 : results_recorded (w_quiz anonymous_attempt) = false)
    by (vm_compute; reflexivity).
  assert (H4 : w_user (main_user (ui_user_name (final_run "bea")) anonymous_attempt)
               = Some "bea") by (vm_compute; reflexivity).
  split; [exact H1|]. split; [exact H2|]. split; [exact H3|]. split; [exact H4|].
  destruct (X16_finishing_run_records (final_run "bea") anonymous_attempt "bea"
              H1 H2 H3 ltac:(discriminate) H4 ltac:(discriminate) ltac:(discriminate))
    as (_&_&Hres).
  rewrite Hres. vm_compute. reflexivity.
Defined.

(** ** The current question index *)

Lemma main_question_current click radio rnd available w :
  (∀ i, i ∈ available → i < length (w_flashcards w)) →
  (∀ i, w_current w = Some i → i < length (w_flashcards w)) →
  ∀ i, w_current (main_question click radio rnd available w) = Some i →
       i < length (w_flashcards w).
Proof.
  intros Hav Hinv. unfold main_question.
  assert (Hsel : ∀ i, w_current (select_current rnd available w) = Some i →
                      i < length (w_flashcards w)).
  { unfold select_current. destruct (w_current w) eqn:Hcur; [by rewrite Hcur|].
    cbn. unfold random_choice. intros i Hi. apply Hav. by eapply list_elem_of_lookup_2. }
  set (ws := select_current rnd available w) in *.
  destruct (w_current ws) as [j|] eqn:Hcur; [|by rewrite Hcur].
  destruct (w_flashcards ws !! j) as [card|] eqn:Hcard; [|by rewrite Hcur].
  unfold display_question. set (w1 := with_view _ _).
  assert (Hcard1 : w_flashcards w1 !! j = Some card) by exact Hcard.
  assert (Hcur1 : w_current w1 = Some j) by exact Hcur.
  destruct (_ || _).
  - destruct (decide (click = ClickNext)); [done|]. rewrite Hcur1. intros i [= <-]. auto.
  - destruct (decide (click = ClickSubmit)).
    + destruct (_ <$> _).
      * rewrite (handle_submit_some _ _ _ Hcard1). cbn. rewrite Hcur. intros i [= <-]. auto.
      * rewrite Hcur1. intros i [= <-]. auto.
    + destruct (decide (click = ClickShowAnswer)).
      * rewrite (handle_show_answer_some _ _ _ Hcard1). cbn. rewrite Hcur.
        intros i [= <-]. auto.
      * rewrite Hcur1. intros i [= <-]. auto.
Qed.

Lemma main_current ui w :
  (∀ i, w_current w = Some i → i < length (w_flashcards w)) →
  ∀ i, w_current (main ui w) = Some i → i < length (w_flashcards w).
Proof.
  intros Hinv. unfold main.
  set (click := if w_rerun w then NoClick else ui_click ui).
  set (w0 := with_view ViewNothing (with_rerun false w)).
  destruct (main_user_same (ui_user_name ui) w0) as (Hq&Hf&Hc&_).
  set (w1 := main_user (ui_user_name ui) w0) in *.
  assert (Hf1 : w_flashcards w1 = w_flashcards w) by (by rewrite Hf).
  assert (Hinv1 : ∀ i, w_current w1 = Some i → i < length (w_flashcards w1)).
  { intros i. rewrite Hc, Hf1. apply Hinv. }
  destruct (quiz_started _).
  - destruct (_ && _); [done|]. destruct (bool_decide _).
    + unfold main_finished. destruct (decide (click = ClickRestart)); [done|].
      cbn [w_quiz with_view]. destruct (results_recorded (w_quiz w1)).
      * cbn. intros i. rewrite <- Hf1. apply Hinv1.
      * destruct (record_quiz_attempt_quiz (ui_now ui) (with_view ViewResults w1))
          as (_&_&Hrc&_).
        cbn [w_current with_quiz]. rewrite Hrc. cbn. intros i. rewrite <- Hf1. apply Hinv1.
    + rewrite <- Hf1. apply main_question_current; [|done].
      intros i [Hlt _]%available_indices_spec. done.
  - destruct (decide (click = ClickStart)); [done|].
    cbn. intros i. rewrite <- Hf1. apply Hinv1.
Qed.

Lemma run_session_current inputs w :
  (∀ i, w_current w = Some i → i < length (w_flashcards w)) →
  ∀ i, w_current (run_session inputs w) = Some i →
       i < length (w_flashcards (run_session inputs w)).
Proof.
  revert w. induction inputs as [|ui inputs IH]; intros w Hinv; [done|].
  change (run_session (ui :: inputs) w) with (run_session inputs (main ui w)).
  apply IH. rewrite main_flashcards. by apply main_current.
Qed.

(** X17: the stored current index always points into the bank: in every
    state of a session, if a current question index is stored then the
    bank has a question at that position, so neither [main] nor the two
    handlers called on it run into the IndexError of
    [flashcards[current_card_index]]. *)
Theorem X17_current_index_in_bank user flashcards results inputs :
  let w := run_session inputs (loaded_world user flashcards results) in
  ∀ i, w_current w = Some i →
       is_Some (flashcards !! i) ∧
       is_Some (handle_submit i w) ∧ is_Some (handle_show_answer i w).
Proof.
  intros w.
  assert (Hinv : ∀ i, w_current w = Some i → i < length (w_flashcards w)).
  { subst w. by apply run_session_current. }
  intros i Hi. specialize (Hinv i Hi).
  assert (Hf : w_flashcards w = flashcards) by (subst w; by rewrite run_session_flashcards).
  rewrite Hf in Hinv.
  destruct (lookup_lt_is_Some_2 _ _ Hinv) as [card Hcard].
  split; [by exists card|].
  rewrite <- Hf in Hcard.
  rewrite (handle_submit_some _ _ _ Hcard), (handle_show_answer_some _ _ _ Hcard).
  split; eexists; reflexivity.
Qed.

Lemma X17_current_index_in_bank_witness :
  w_current (run_session [idle "ann"; press "ann" None ClickStart "t"; idle "ann"]
               (loaded_world None sample_bank [])) = Some 0 ∧
  is_Some (sample_bank !! 0) ∧
  is_Some (handle_submit 0
             (run_session [idle "ann"; press "ann" None ClickStart "t"; idle "ann"]
                (loaded_world None sample_bank []))) ∧
  is_Some (handle_show_answer 0
             (run_session [idle "ann"; press "ann" None ClickStart "t"; idle "ann"]
                (loaded_world None sample_bank []))).
Proof.
  assert (H : w_current (run_session [idle "ann"; press "ann" None ClickStart "t"; idle "ann"]
                           (loaded_world None sample_bank [])) = Some 0)
    by (vm_compute; reflexivity).
  split; [exact H|].
  exact (X17_current_index_in_bank None sample_bank []
           [idle "ann"; press "ann" None ClickStart "t"; idle "ann"] 0 H).
Defined.

(** ** Recording on disk *)

(** X18: how recording an attempt treats the results file.  With an
    unusable user name only a warning is shown and the file is not
    touched, not even read.  With a usable name: rows already in the file
    are kept and the new row is appended after them; a missing or empty
    file becomes a file with the one new row; a file that cannot be read
    is reported and then overwritten by a file holding only the new row,
    so the earlier history is lost; and when writing fails the error is
    reported, the success message is shown all the same, and the file is
    whatever the failed write left. *)
Theorem X18_record_on_disk now w name :
  (∀ outcome file,
     unusable_user (w_user w) →
     record_quiz_attempt_on_disk now outcome w file =
       ([MsgWarning "User name not set. Results cannot be saved."], file)) ∧
  (w_user w = Some name → name ≠ "" → name ≠ "Unknown" →
   (∀ rows,
      record_quiz_attempt_on_disk now WriteOk w (FileRows rows) =
        ([MsgSuccess "Quiz results recorded."],
         FileRows (rows ++ [attempt_record now name w]))) ∧
   (∀ file, file = FileAbsent ∨ file = FileEmpty →
      record_quiz_attempt_on_disk now WriteOk w file =
        ([MsgSuccess "Quiz results recorded."], FileRows [attempt_record now name w])) ∧
   (∀ exn,
      record_quiz_attempt_on_disk now WriteOk w (FileUnreadable exn) =
        ([MsgError ("Error loading results file: " +:+ exn);
          MsgSuccess "Quiz results recorded."],
         FileRows [attempt_record now name w])) ∧
   (∀ exn remains rows,
      record_quiz_attempt_on_disk now (WriteFails exn remains) w (FileRows rows) =
        ([MsgError ("Error saving results file: " +:+ exn);
          MsgSuccess "Quiz results recorded."], remains)) ∧
   (∀ rows,
      w_results w = rows →
      (record_quiz_attempt_on_disk now WriteOk w (FileRows rows)).2 =
        FileRows (w_results (record_quiz_attempt now w)))).
Proof.
  split.
  - intros outcome file Hu. unfold record_quiz_attempt_on_disk.
    by destruct Hu as [->|[->| ->]].
  - intros Hu Hne Hnu.
    assert (Hgo : ∀ outcome file,
              record_quiz_attempt_on_disk now outcome w file =
                let '(load_msgs, results) := load_quiz_results file in
                let '(save_msgs, file') :=
                  save_quiz_results (results ++ [attempt_record now name w]) outcome in
                (load_msgs ++ save_msgs ++ [MsgSuccess "Quiz results recorded."], file')).
    { intros outcome file. unfold record_quiz_attempt_on_disk. rewrite Hu. cbn [default].
      destruct name as [|c s]; [done|]. cbn [PyStr.truthy negb orb].
      rewrite bool_decide_eq_false_2 by done.
      destruct (load_quiz_results file) as [load_msgs results].
      by rewrite (record_quiz_attempt_usable now (with_results results w) (String c s)). }
    split; [|split; [|split; [|split]]].
    + intros rows. by rewrite Hgo.
    + intros file [->| ->]; by rewrite Hgo.
    + intros exn. by rewrite Hgo.
    + intros exn remains rows. by rewrite Hgo.
    + intros rows <-. rewrite Hgo. cbn.
      by rewrite (record_quiz_attempt_usable now w name).
Qed.

Lemma X18_record_on_disk_witness :
  let w := run_session (finishing_session "ann") (started_world (Some "ann") sample_bank []) in
  w_user w = Some "ann" ∧
  record_quiz_attempt_on_disk "now" WriteOk w (FileUnreadable "bad header") =
    ([MsgError "Error loading results file: bad header"; MsgSuccess "Quiz results recorded."],
     FileRows [{| Timestamp := "now"; User := "ann"; CorrectCount := 1;
                  IncorrectCount := 1; TotalQuestions := 2;
                  IncorrectDetails := "Q: Founder of Rome? | A: Romulus | Your: No answer" |}]).
Proof.
  intros w.
  assert (Hu : w_user w = Some "ann") by (vm_compute; reflexivity).
  split; [exact Hu|].
  destruct (proj2 (X18_record_on_disk "now" w "ann") Hu ltac:(discriminate) ltac:(discriminate))
    as (_&_&Hbad&_).
  rewrite Hbad. vm_compute. reflexivity.
Defined.

(** ** The whole app: uploads, removals and the quiz *)

Lemma loaded_bank_good f bank :
  (load_quiz_data_from_file f).2 = Some bank →
  bank ≠ [] ∧ Forall well_formed_question bank ∧ NoDup (map original_index bank).
Proof.
  intros (df&_&_&_&_&->&Hne&_)%load_Some. split; [done|]. split.
  - apply Forall_lookup. intros i q Hq.
    by destruct (row_questions_lookup _ _ _ _ Hq) as (_&_&Hwf&_).
  - apply NoDup_alt. intros i j x Hi Hj.
    change (map original_index ?l) with (original_index <$> l) in Hi, Hj.
    destruct (proj1 (list_lookup_fmap_Some _ _ _ _) Hi) as (q1&Heq1&Hq1).
    destruct (proj1 (list_lookup_fmap_Some _ _ _ _) Hj) as (q2&Heq2&Hq2).
    destruct (Nat.lt_trichotomy i j) as [Hlt|[->|Hgt]]; [|done|].
    + pose proof (row_questions_increasing _ _ _ _ _ _ Hq1 Hq2 Hlt). lia.
    + pose proof (row_questions_increasing _ _ _ _ _ _ Hq2 Hq1 Hgt). lia.
Qed.

Lemma not_started_session_inv bank : session_inv bank not_started_quiz_state.
Proof. split; [reflexivity|]. intros x Hx. by apply elem_of_empty in Hx. Qed.

Lemma app_inv_initial results : app_inv (initial_app results).
Proof.
  split; [|split]; cbn.
  - split; intros [? [=]].
  - done.
  - intros bank [=].
Qed.

Lemma app_inv_clear a : app_inv (upload_clear a).
Proof.
  split; [|split]; cbn.
  - split; intros [? [=]].
  - done.
  - intros bank [=].
Qed.

Lemma upload_step_inv uploaded_file a :
  app_inv a → app_inv (upload_step uploaded_file a).1.
Proof.
  intros Hinv. unfold upload_step. destruct uploaded_file as [f|].
  - destruct (_ || _); [|done].
    destruct (load_quiz_data_from_file f).2 as [[|q rest]|] eqn:Hload;
      try apply app_inv_clear.
    destruct (loaded_bank_good _ _ Hload) as (Hne&Hwf&Hnd).
    split; [|split]; cbn.
    + split; intros _; by eexists.
    + intros [=].
    + intros bank [= <-]. split; [done|]. split; [done|]. split; [done|].
      split; [intros i [=]|]. intros quiz_data [= <-]. apply not_started_session_inv.
  - destruct (app_flashcards a); [apply app_inv_clear|done].
Qed.

Lemma world_of_main a w :
  world_of (w_flashcards w) (w_quiz w) (app_of w a) = w.
Proof. by destruct w. Qed.

Lemma app_main_inv uploaded_file ui a : app_inv a → app_inv (app_main uploaded_file ui a).
Proof.
  intros Hinv. unfold app_main.
  assert (Hinv1 : app_inv (app_user_step (ui_user_name ui) a)) by exact Hinv.
  pose proof (upload_step_inv uploaded_file _ Hinv1) as Hinv2.
  destruct (upload_step uploaded_file _) as [a2 rerun]. cbn [fst] in Hinv2.
  destruct rerun; [exact Hinv2|].
  destruct (app_flashcards a2) as [bank|] eqn:Hbank; [|exact Hinv2].
  destruct Hinv2 as (Hname&_&Hbankinv).
  destruct (Hbankinv bank Hbank) as (Hne&Hwf&Hnd&Hcur&Hquiz).
  set (quiz_data := default not_started_quiz_state (app_quiz a2)).
  assert (Hq : session_inv bank quiz_data).
  { subst quiz_data. destruct (app_quiz a2) as [qd|]; cbn [default];
      [by apply Hquiz|apply not_started_session_inv]. }
  cbv zeta. fold quiz_data.
  match goal with |- context [main ?u ?v] => set (ui' := u); set (w := v) end.
  destruct (main_inv ui' w Hq) as (Hinvw&Hfl).
  change (w_flashcards w) with bank in Hfl.
  split; [|split]; cbn [app_of app_flashcards app_loaded_file_name app_quiz app_current].
  - rewrite Hbank in Hname. split; [intros _; by apply Hname|intros _; by eexists].
  - intros [=].
  - rewrite Hfl. intros ? [= <-]. split; [done|]. split; [done|]. split; [done|]. split.
    + apply (main_current ui' w). exact Hcur.
    + intros ? [= <-]. unfold world_inv in Hinvw. by rewrite Hfl in Hinvw.
Qed.

Lemma run_app_inv steps a : app_inv a → app_inv (run_app steps a).
Proof.
  revert a. induction steps as [|step steps IH]; intros a Hinv; [done|].
  apply IH. by apply app_main_inv.
Qed.

(** X19: in every state of the app, from a fresh browser session through
    any runs with any uploads, removals and clicks: a bank is stored
    exactly when the name of a loaded file is; without a bank there is no
    quiz dictionary and no current index; and a stored bank is not empty,
    holds well-formed questions with pairwise different original indices,
    contains the position of the current index if one is stored, and the
    two counts of the quiz dictionary add up to the size of its used set
    and do not exceed the size of the bank. *)
Theorem X19_app_state_is_consistent results steps :
  let a := run_app steps (initial_app results) in
  (is_Some (app_flashcards a) ↔ is_Some (app_loaded_file_name a)) ∧
  (app_flashcards a = None → app_quiz a = None ∧ app_current a = None) ∧
  (∀ bank, app_flashcards a = Some bank →
     bank ≠ [] ∧ Forall well_formed_question bank ∧ NoDup (map original_index bank) ∧
     (∀ i, app_current a = Some i → is_Some (bank !! i)) ∧
     (∀ quiz_data, app_quiz a = Some quiz_data →
        correct_count quiz_data + incorrect_count quiz_data
          = size (used_questions quiz_data) ∧
        correct_count quiz_data + incorrect_count quiz_data ≤ length bank)).
Proof.
  intros a.
  destruct (run_app_inv steps _ (app_inv_initial results)) as (Hname&Hnone&Hbank).
  fold a in Hname, Hnone, Hbank.
  split; [exact Hname|]. split; [exact Hnone|].
  intros bank Hb. destruct (Hbank bank Hb) as (Hne&Hwf&Hnd&Hcur&Hquiz).
  split; [done|]. split; [done|]. split; [done|]. split.
  - intros i Hi. apply lookup_lt_is_Some_2. by apply Hcur.
  - intros quiz_data Hqd. destruct (Hquiz quiz_data Hqd) as (Hsum&Hused).
    split; [done|]. rewrite Hsum. by apply used_size_bound.
Qed.

Lemma main_results_grow ui w : w_results w `prefix_of` w_results (main ui w).
Proof.
  unfold main.
  set (click := if w_rerun w then NoClick else ui_click ui).
  set (w0 := with_view ViewNothing (with_rerun false w)).
  destruct (main_user_same (ui_user_name ui) w0) as (_&_&_&Hr).
  set (w1 := main_user (ui_user_name ui) w0) in *.
  assert (Hr1 : w_results w1 = w_results w) by (by rewrite Hr).
  destruct (quiz_started _).
  - destruct (_ && _); [cbn; by rewrite Hr1|]. destruct (bool_decide _).
    + unfold main_finished. destruct (decide _); [cbn; by rewrite Hr1|].
      destruct (results_recorded _); [cbn; by rewrite Hr1|].
      cbn [w_results with_quiz].
      destruct (record_quiz_attempt_results (ui_now ui) (with_view ViewResults w1))
        as [->|[rec ->]]; cbn [w_results with_view]; rewrite Hr1;
        [done|by apply prefix_app_r].
    + pose proof (main_question_record_state click (ui_radio ui) (ui_random ui)
                    (available_indices (w_flashcards w1) (used_questions (w_quiz w1))) w1)
        as H.
      unfold record_state in H. injection H as _ _ H. by rewrite H, Hr1.
  - destruct (decide _); cbn; by rewrite Hr1.
Qed.

Lemma upload_step_results uploaded_file a :
  app_results (upload_step uploaded_file a).1 = app_results a.
Proof.
  unfold upload_step. destruct uploaded_file as [f|].
  - destruct (_ || _); [|done].
    by destruct (load_quiz_data_from_file f).2 as [[|q rest]|].
  - by destruct (app_flashcards a).
Qed.

Lemma app_main_results_grow uploaded_file ui a :
  app_results a `prefix_of` app_results (app_main uploaded_file ui a).
Proof.
  unfold app_main.
  pose proof (upload_step_results uploaded_file (app_user_step (ui_user_name ui) a)) as Hr.
  destruct (upload_step uploaded_file _) as [a2 rerun]. cbn [fst] in Hr.
  change (app_results (app_user_step (ui_user_name ui) a)) with (app_results a) in Hr.
  destruct rerun; [cbn; by rewrite Hr|].
  destruct (app_flashcards a2) as [bank|]; [|cbn; by rewrite Hr].
  cbv zeta.
  match goal with |- context [main ?u ?v] => set (ui' := u); set (w := v) end.
  cbn [app_results app_of]. rewrite <- Hr. apply (main_results_grow ui' w).
Qed.

(** X20: no run of the app takes a recorded attempt away: whatever is
    uploaded, removed or clicked, the rows of the results list before a
    sequence of runs are an initial segment of the rows after it (the list
    is the one [record_quiz_attempt] reads and writes back, for a results
    file that can be read and written). *)
Theorem X20_results_never_dropped steps a :
  app_results a `prefix_of` app_results (run_app steps a).
Proof.
  revert a. induction steps as [|step steps IH]; intros a; [done|].
  change (run_app (step :: steps) a) with (run_app steps (app_main step.1 step.2 a)).
  etrans; [apply app_main_results_grow|apply IH].
Qed.

Lemma world_of_user_step name bank quiz_data a :
  world_of bank quiz_data (app_user_step name a) = main_user name (world_of bank quiz_data a).
Proof.
  unfold app_user_step, main_user, world_of. destruct a as [[u|] ? ? ? ? ? ? ?]; cbn;
    by destruct (PyStr.truthy name).
Qed.

Lemma main_after_user ui w : main ui (main_user (ui_user_name ui) w) = main ui w.
Proof.
  unfold main.
  assert (H1 : w_rerun (main_user (ui_user_name ui) w) = w_rerun w)
    by (unfold main_user; by destruct (w_user w), (PyStr.truthy _)).
  assert (H2 : main_user (ui_user_name ui)
                 (with_view ViewNothing
                    (with_rerun false (main_user (ui_user_name ui) w)))
               = main_user (ui_user_name ui) (with_view ViewNothing (with_rerun false w))).
  { unfold main_user. destruct w as [[u|] ? ? ? ? ? ?]; cbn;
      by destruct (PyStr.truthy _). }
  rewrite H1, H2. reflexivity.
Qed.

(** A run with the loaded file still in the uploader is a run of the quiz
    part alone. *)
Lemma app_main_same_file f ui a bank quiz_data :
  app_flashcards a = Some bank → app_loaded_file_name a = Some (uf_name f) →
  app_quiz a = Some quiz_data →
  app_main (Some f) ui a = app_of (main ui (world_of bank quiz_data a)) a.
Proof.
  intros Hb Hn Hq. unfold app_main, upload_step.
  change (app_flashcards (app_user_step (ui_user_name ui) a)) with (app_flashcards a).
  change (app_loaded_file_name (app_user_step (ui_user_name ui) a))
    with (app_loaded_file_name a).
  rewrite Hb, Hn. rewrite bool_decide_eq_true_2 by done.
  cbn [orb negb]. cbv beta iota zeta.
  change (app_flashcards (app_user_step (ui_user_name ui) a)) with (app_flashcards a).
  change (app_loaded_file_name (app_user_step (ui_user_name ui) a))
    with (app_loaded_file_name a).
  change (app_quiz (app_user_step (ui_user_name ui) a)) with (app_quiz a).
  rewrite Hb, Hn, Hq. cbn [default]. rewrite andb_false_r.
  rewrite world_of_user_step, main_after_user. reflexivity.
Qed.

Lemma run_app_same_file name steps : ∀ a bank quiz_data,
  app_flashcards a = Some bank → app_loaded_file_name a = Some name →
  app_quiz a = Some quiz_data → Forall (holds_file name) steps →
  run_app steps a = app_of (run_session (snd <$> steps) (world_of bank quiz_data a)) a.
Proof.
  induction steps as [|[up ui] steps IH]; intros a bank quiz_data Hb Hn Hq Hall.
  - destruct a. cbn in *. by rewrite Hb, Hq.
  - apply Forall_cons in Hall as [(f&Hup&Hname) Hall]. cbn [fst] in Hup. subst up name.
    change (run_app ((Some f, ui) :: steps) a) with (run_app steps (app_main (Some f) ui a)).
    change (run_session (snd <$> (Some f, ui) :: steps) (world_of bank quiz_data a))
      with (run_session (snd <$> steps) (main ui (world_of bank quiz_data a))).
    rewrite (app_main_same_file f ui a bank quiz_data Hb Hn Hq).
    set (w := main ui (world_of bank quiz_data a)).
    rewrite (IH (app_of w a) (w_flashcards w) (w_quiz w) eq_refl Hn eq_refl Hall).
    by rewrite world_of_main.
Qed.

(** X21: while the uploader holds a file with the name of the loaded one,
    nothing is loaded again, whatever the file now contains: the runs of
    the app are exactly the runs of the quiz part [main] on the stored
    bank and quiz dictionary, and the bank and the stored file name stay
    as they are. *)
Theorem X21_same_name_runs_the_quiz name steps a bank quiz_data :
  app_flashcards a = Some bank → app_loaded_file_name a = Some name →
  app_quiz a = Some quiz_data → Forall (holds_file name) steps →
  run_app steps a = app_of (run_session (snd <$> steps) (world_of bank quiz_data a)) a ∧
  app_flashcards (run_app steps a) = Some bank ∧
  app_loaded_file_name (run_app steps a) = Some name.
Proof.
  intros Hb Hn Hq Hall.
  rewrite (run_app_same_file name steps a bank quiz_data Hb Hn Hq Hall).
  split; [done|]. cbn [app_flashcards app_loaded_file_name app_of].
  by rewrite run_session_flashcards.
Qed.

Lemma X21_same_name_witness :
  app_flashcards sample_app = Some sample_bank ∧
  app_loaded_file_name sample_app = Some "rome.csv" ∧
  app_quiz sample_app = Some not_started_quiz_state ∧
  Forall (holds_file "rome.csv")
    [(Some sample_file, idle "ann");
     (Some changed_file, press "ann" None ClickStart "t")] ∧
  (load_quiz_data_from_file changed_file).2 = Some skipped_bank ∧
  skipped_bank ≠ sample_bank ∧
  app_flashcards
    (run_app [(Some sample_file, idle "ann");
              (Some changed_file, press "ann" None ClickStart "t")] sample_app)
    = Some sample_bank.
Proof.
  assert (H1 : app_flashcards sample_app = Some sample_bank) by (vm_compute; reflexivity).
  assert (H2 : app_loaded_file_name sample_app = Some "rome.csv")
    by (vm_compute; reflexivity).
  assert (H3 : app_quiz sample_app = Some not_started_quiz_state)
    by (vm_compute; reflexivity).
  assert (H4 : Forall (holds_file "rome.csv")
                 [(Some sample_file, idle "ann");
                  (Some changed_file, press "ann" None ClickStart "t")]).
  { repeat constructor; eexists; split; reflexivity. }
  split; [exact H1|]. split; [exact H2|]. split; [exact H3|]. split; [exact H4|].
  split; [vm_compute; reflexivity|].
  split; [intros H; apply (f_equal length) in H; vm_compute in H; discriminate|].
  exact (proj1 (proj2 (X21_same_name_runs_the_quiz _ _ _ _ _ H1 H2 H3 H4))).
Defined.

Lemma main_fresh_bank ui w :
  w_rerun w = true → quiz_started (w_quiz w) = false →
  w_view (main ui w) = ViewStartPrompt ∧ w_quiz (main ui w) = w_quiz w ∧
  w_rerun (main ui w) = false ∧ w_current (main ui w) = w_current w.
Proof.
  intros Hr Hs. unfold main. rewrite Hr.
  destruct (main_user_same (ui_user_name ui) (with_view ViewNothing (with_rerun false w)))
    as (Hq&_&Hc&_).
  assert (Hrr : w_rerun (main_user (ui_user_name ui)
                           (with_view ViewNothing (with_rerun false w))) = false)
    by (unfold main_user; by destruct (w_user _), (PyStr.truthy _)).
  set (w1 := main_user _ _) in *.
  rewrite Hq. cbn [w_quiz with_view with_rerun]. rewrite Hs.
  rewrite decide_False by done. cbn. by rewrite Hq, Hc, Hrr.
Qed.

Lemma upload_step_reload f a :
  app_flashcards a = None ∨ app_loaded_file_name a ≠ Some (uf_name f) →
  upload_step (Some f) a =
    match (load_quiz_data_from_file f).2 with
    | Some bank => (upload_install (uf_name f) bank a, true)
    | None => (upload_clear a, false)
    end.
Proof.
  intros Hre. unfold upload_step.
  assert (Hcond : match app_flashcards a with None => true | Some _ => false end
                  || negb (bool_decide (Some (uf_name f) = app_loaded_file_name a)) = true).
  { destruct Hre as [->|Hne]; [done|].
    rewrite bool_decide_eq_false_2 by congruence. apply orb_true_r. }
  rewrite Hcond.
  destruct (load_quiz_data_from_file f).2 as [[|q rest]|] eqn:Hload; try done.
  by destruct (loaded_bank_good _ _ Hload) as (?&_).
Qed.

(** X22: a run that loads (no bank is stored, or the uploaded file has
    another name than the loaded one) replaces the session, whatever state
    the quiz was in.  If the loader returns a bank, the run stores it with
    the file name and the default dictionary not yet started, drops the
    current index and ends in a rerun; the run that follows with the file
    still in the uploader shows the start prompt on that bank.  If the
    loader returns nothing, the bank, the file name, the quiz dictionary
    and the current index are all removed, also those of a file loaded
    before.  A run with an empty uploader while a bank is stored removes
    the same four keys and ends in a rerun.  The user name and the results
    are kept throughout. *)
Theorem X22_loading_replaces_the_session ui a :
  (∀ f, app_flashcards a = None ∨ app_loaded_file_name a ≠ Some (uf_name f) →
     (∀ bank, (load_quiz_data_from_file f).2 = Some bank →
        app_main (Some f) ui a =
          {| app_user := app_user (app_user_step (ui_user_name ui) a);
             app_flashcards := Some bank; app_loaded_file_name := Some (uf_name f);
             app_quiz := Some not_started_quiz_state; app_current := None;
             app_results := app_results a; app_rerun := true; app_view := ViewNothing |} ∧
        ∀ ui', let a' := app_main (Some f) ui' (app_main (Some f) ui a) in
               app_view a' = ViewStartPrompt ∧ app_flashcards a' = Some bank ∧
               app_quiz a' = Some not_started_quiz_state ∧ app_current a' = None ∧
               app_rerun a' = false) ∧
     ((load_quiz_data_from_file f).2 = None →
        app_main (Some f) ui a =
          {| app_user := app_user (app_user_step (ui_user_name ui) a);
             app_flashcards := None; app_loaded_file_name := None;
             app_quiz := None; app_current := None;
             app_results := app_results a; app_rerun := false; app_view := ViewNothing |})) ∧
  (is_Some (app_flashcards a) →
   app_main None ui a =
     {| app_user := app_user (app_user_step (ui_user_name ui) a);
        app_flashcards := None; app_loaded_file_name := None;
        app_quiz := None; app_current := None;
        app_results := app_results a; app_rerun := true; app_view := ViewNothing |}).
Proof.
  split.
  - intros f Hre.
    assert (Hre1 : app_flashcards (app_user_step (ui_user_name ui) a) = None ∨
                   app_loaded_file_name (app_user_step (ui_user_name ui) a)
                     ≠ Some (uf_name f)) by exact Hre.
    split.
    + intros bank Hload.
      assert (Hrun : app_main (Some f) ui a =
                {| app_user := app_user (app_user_step (ui_user_name ui) a);
                   app_flashcards := Some bank; app_loaded_file_name := Some (uf_name f);
                   app_quiz := Some not_started_quiz_state; app_current := None;
                   app_results := app_results a; app_rerun := true;
                   app_view := ViewNothing |}).
      { unfold app_main. rewrite (upload_step_reload f _ Hre1), Hload. reflexivity. }
      split; [exact Hrun|]. intros ui' a'. subst a'. rewrite Hrun.
      set (a1 := {| app_user := _ |}).
      rewrite (app_main_same_file f ui' a1 bank not_started_quiz_state eq_refl eq_refl eq_refl).
      destruct (main_fresh_bank ui' (world_of bank not_started_quiz_state a1) eq_refl eq_refl)
        as (Hv&Hq&Hr&Hc).
      cbn [app_view app_flashcards app_quiz app_current app_rerun app_of].
      rewrite Hv, Hq, Hr, Hc, main_flashcards. done.
    + intros Hload. unfold app_main.
      rewrite (upload_step_reload f _ Hre1), Hload. reflexivity.
  - intros [bank Hb]. unfold app_main, upload_step.
    change (app_flashcards (app_user_step (ui_user_name ui) a)) with (app_flashcards a).
    rewrite Hb. reflexivity.
Qed.

Lemma X22_loading_witness :
  app_loaded_file_name sample_app ≠ Some (uf_name broken_file) ∧
  (load_quiz_data_from_file broken_file).2 = None ∧
  app_flashcards sample_app = Some sample_bank ∧
  app_flashcards (app_main (Some broken_file) (idle "ann") sample_app) = None ∧
  app_quiz (app_main (Some broken_file) (idle "ann") sample_app) = None.
Proof.
  assert (H1 : app_loaded_file_name sample_app ≠ Some (uf_name broken_file))
    by (vm_compute; discriminate).
  assert (H2 : (load_quiz_data_from_file broken_file).2 = None)
    by (vm_compute; reflexivity).
  split; [exact H1|]. split; [exact H2|]. split; [vm_compute; reflexivity|].
  destruct (X22_loading_replaces_the_session (idle "ann") sample_app) as [Hload _].
  destruct (Hload broken_file (or_intror H1)) as [_ Hfail].
  rewrite (Hfail H2). split; reflexivity.
Defined.
